(* ===== verification/_CoqProject ===== *)
-Q . S2P
Prelude.v
PyRandom.v
Deque.v
PyList.v
Canvas.v
SnakeMove.v
SnakeDraw.v
SnakeGame.v
SnakeSpec.v
SnakeView.v
Paquet.v
Frite.v
FritesDraw.v
FritesGame.v
FritesView.v
FritesScore.v
