(* ===== verification/Prelude.v ===== *)
(** * A verification library for the two Tk arcade games of this repository

    The repository holds two independent programs, each a class that owns
    a mutable game state and is driven by the Tk event loop:

    - [src/snake.py], class [SnakeGame]: a grid snake.  Key bindings
      (arrows, space, r/R, F11, Escape) call [change_direction],
      [toggle_pause], [restart_game], [toggle_fullscreen] and
      [exit_fullscreen]; [game_loop] calls [move_snake] (which may call
      [spawn_food]) and reschedules itself with [root.after].
    - [src/frites_game.py], classes [Frite], [PaquetFrites] and
      [FritesGame]: a falling-object catcher driven by the mouse, with a
      per-frame [game_loop] that spawns, moves, catches and loses fries.

    Both games interact with three collaborators that are not part of the
    repository: Python's [random] module, [collections.deque], and the Tk
    event loop (timers registered with [after], key and mouse events).
    The development models each of them by the behaviour the games rely
    on, and models the game code itself line by line.

    ** Files

    - [Prelude] (this file): the Python-effect monad [PyM] (state passing
      with Python exceptions that keep the mutated state, as an exception
      escaping a Tk callback does), its notations in [py_scope], the
      [game] hint database and generic lemmas on lists.
    - [PyRandom]: the interface the games require of [random]
      ([randint], [uniform]) as type classes with their range laws, and a
      scripted generator used by the concrete witnesses.
    - [Deque]: the operations of [collections.deque] that [snake.py] uses
      ([appendleft], [pop], index 0, [in]), with [IndexError] on an empty
      deque.
    - [SnakeMove]: the state of a [SnakeGame] object (record [world],
      with the generator state, the pending-timer count, the canvas
      and the score label), [update_score],
      [spawn_food] as a fuelled rejection-sampling loop, [move_snake],
      the predicates on cells and snakes, [move_result] (the behaviour
      of [move_snake] on each of its branches), growth and score, the
      termination of [spawn_food] and its divergence on a full grid.
    - [SnakeDraw]: the drawing methods of [snake.py] ([draw_grid],
      [show_start_screen], [show_pause_screen], [draw_game] with the
      eyes of the head, [show_game_over]) as functions on the canvas,
      and what each draws.
    - [SnakeGame]: the handlers ([game_loop], [init_game],
      [restart_game], [toggle_pause], [change_direction], full-screen
      toggles), the binding table [handle], the Tk main loop as the step
      relation [tk_step] and its executable form [run_events]; the
      invariant [game_inv] (snake well-formed, food off the snake, score
      ten points per cell grown, buffered heading never the reverse of
      the committed one) preserved by every callback, hence true in every
      reachable state; the restart finding.
    - [SnakeSpec]: the abstract game of the design notes (status enum,
      the advance function of its section 4.1 as a relation, the status
      state machine of sections 4.2, 5 and 7) and the refinement
      theorems: a tick of the code is an abstract advance, and every
      callback is a transition of the status machine.
    - [SnakeView]: the window of the snake game follows the state
      ([display_inv], [board_shown]) in every reachable state, and the
      pause overlay is undone by deleting its tag.
    - [PyList]: [list.remove] (with [ValueError] as [None]) and the
      removal loop of [frites_game.py] lines 450-451.
    - [Canvas]: the Tk canvas as a display list of items (kind,
      coordinates, options, tags): [create] appends, [delete] removes by
      tag, ["all"] matching every item; [adds] characterises the drawing
      methods that only append items of given tags.  Also the string
      formatting the labels use ([str(int)], [s * n], [str.strip()]).
    - [FritesDraw]: the drawing methods of [FritesGame] (lines 162-216,
      253-337, 348-402 and the redraw of lines 453-457) as functions on
      the canvas, and what each draws.
    - [Paquet]: class [PaquetFrites] (lines 41-67): [move_to] clamps the
      target, [update] moves by a bounded step, [get_catch_rect].
    - [Frite]: class [Frite] (lines 22-38): the three random draws of
      [__init__], the fall step [update], [is_off_screen].
    - [FritesGame]: class [FritesGame] (lines 70-460): the state record
      (with the module global [FRITE_SPAWN_RATE], which [game_loop]
      lowers, as a field), every handler, [game_loop] with its fry loop
      ([frite_step] on one fry, [frites_pass] the loop with its early
      [return], [remove_indices] the removals), the bindings [handle],
      [tk_step] and [run_events]; the invariant [frites_inv] and the
      well-formedness of the fry list [fries_ok], preserved by every
      callback.  The canvas, the two labels and the pending deletion
      timers of [show_combo] are fields of the state, and every drawing
      call of a method is a [draw] of the matching [FritesDraw]
      function, in the order of the code.
    - [FritesView]: the agreement of the catcher's window with its state
      ([display_inv], [fries_shown]), kept by every branch of the fry
      loop and every callback, read back as [labels_ok], [screens_ok],
      [combo_ok] and [fries_shown].
    - [FritesScore]: the points of a streak of catches
      ([streak_points], with its closed form) and the invariant
      [streak_ok] relating score, combo and best combo.

    ** How the models correspond to the code

    Each method is a computation of the monad [PyM world]: [get] and
    [modify] read and assign attributes, [raise] is a Python exception
    (which keeps the mutations done before it, as in Python), and
    [unwrap IndexError] is an indexing that may fail.  The deque is a
    list with the head first.  [root.after(GAME_SPEED, self.game_loop)]
    increments [pending]; the Tk loop fires a pending timer by
    decrementing it and running [game_loop] ([fire_timer]).  Any
    interleaving of key events and timer firings is a run of [tk_step],
    so the real-time spacing of timers is abstracted away.  The catcher
    game is modelled the same way: the fries are a list updated in place
    by index ([<[i := f]>]), as [frite.update()] mutates the object held
    in [self.frites]; the fry at index [j] is the object [j], which is
    how [self.frites.remove(frite)] (removal by identity) is modelled
    and why [remove_indices] agrees with it (C21).

    ** What the theorems show

    Invariants over every reachable state (C1-C3), the no-reversal
    safety property (C4), the behaviour of [move_snake] on every branch
    (C5, C7), absence of escaping exceptions (C6), the heading buffer
    (C8), the tick-chain duplication on restart (C9, a defect), the
    termination characterisation and divergence of [spawn_food] (C10,
    C11, C14: eating the last free cell hangs the program, a defect), and
    the two refinement theorems (C12, C13).  The snake's window, in
    every reachable state: the score label and the three screens follow
    the flags and the checkerboard is drawn exactly once (C36), the snake
    and the food drawn are those of the state while the game runs (C37);
    the pause overlay is a round trip (C38).  The score of a started
    game stays within [0, 8980] and the snake within 899 cells, since
    the food needs a free cell of the 900 (C39, bounds).

    For the catcher: the state invariant over every reachable state
    (C15: combo, lives, game over, spawn-rate and window bounds), no
    callback raises (C16), one iteration of the fry loop on each branch
    (C17), the best combo and the score never decrease between restarts
    (C18, section 8 of the design notes), the fries in the list are on
    the screen while the game runs (C19) and keep the shape [__init__]
    gives them (C20), the removals by index agree with Python's
    [list.remove] (C21), and three behaviours of the code: restart keeps
    the lowered spawn rate (C22, a defect), restart followed by a click
    doubles the tick chain (C23, a defect), the frame that takes the
    last life returns before its removals (C24).  The catcher stays in
    the window, moves toward its target without passing it and reaches
    it (C25-C27); a fry's draws are in
    range, it falls by its speed and leaves the screen within 326 frames
    (C28-C30).  What the window shows, in every reachable state: the
    labels show the score and the lives (C31), the start and game-over
    screens are shown exactly in their states (C32), at most one combo
    text is shown and only while its deletion timer is pending (C33,
    bounds), the fries drawn while the game runs are those of the list
    (C34); a deletion timer removes whatever combo text is shown, also
    a newer one (C35).  The score always covers the points of a streak
    as long as the best combo, [5k(k+3)/2] for best combo [k], a bound
    the demo run reaches (C40).  Witnesses run the model on concrete inputs, including
    the scenarios of section 8 of the design notes and a 500-frame game
    of the catcher.

    ** Fuel

    The only unbounded loop of the programs is [spawn_food]'s
    [while True] rejection sampling.  It is modelled with a fuel argument
    (a [Section] variable of [SnakeMove]); running out of fuel is the
    exception [NonTermination], and the event-loop step relation only
    takes steps whose handler did not run out of fuel.  Every theorem
    holds for every fuel, and every finite run of the program is a run of
    the model for a fuel large enough, so the bound loses nothing.

    The catcher has no unbounded loop: every model of it is total.

    ** Not modelled

    Window attributes other than the full-screen flag ([title],
    [resizable], [minsize], the [-fullscreen] attribute itself), the
    frames, the [pack] layout and the instructions labels: they hold no
    state the games read.  Pixels: the canvas is the list
    of items with their coordinates and options, not an image; the
    delays of timers (1000 ms for [show_combo], 30 ms for the tick) are
    abstracted to any order of firing.  Floating-point rounding in
    [frites_game.py]: positions and speeds are rationals, and
    [sin(radians(.))] is a parameter of the model ([sin_deg]); the
    theorems that need it assume only that it lies in [-1, 1]. *)

From stdpp Require Import base list decidable sets.
From Stdlib Require Import ZArith Lia.

(** ** Python exceptions and the effect monad *)

(** The exceptions the modelled code can raise.  [NonTermination] is the
    model's: a fuelled loop that ran out of fuel. *)
Inductive exn : Type :=
  | IndexError
  | ZeroDivisionError
  | NonTermination.

#[export] Instance exn_eq_dec : EqDecision exn.
Proof. solve_decision. Qed.

Inductive pyres (A : Type) : Type :=
  | Ok (a : A)
  | Exc (e : exn).
Arguments Ok {A} a.
Arguments Exc {A} e.

(** A Python method on an object of type [S]: it returns a value or
    raises, and in both cases the object keeps the mutations done so far. *)
Definition PyM (S A : Type) : Type := S -> pyres A * S.

Definition ret {S A} (a : A) : PyM S A := fun s => (Ok a, s).

Definition bind {S A B} (m : PyM S A) (k : A -> PyM S B) : PyM S B :=
  fun s =>
    match m s with
    | (Ok a, s') => k a s'
    | (Exc e, s') => (Exc e, s')
    end.

Definition get {S} : PyM S S := fun s => (Ok s, s).
Definition modify {S} (f : S -> S) : PyM S unit := fun s => (Ok tt, f s).
Definition raise {S A} (e : exn) : PyM S A := fun s => (Exc e, s).

(** Python's [x = o[k]]-style accesses that raise on a missing element. *)
Definition unwrap {S A} (e : exn) (o : option A) : PyM S A :=
  match o with
  | Some a => ret a
  | None => raise e
  end.

Declare Scope py_scope.
Delimit Scope py_scope with py.
Notation "x <- m ;; k" := (bind m (fun x => k))
  (at level 100, m at next level, right associativity) : py_scope.
Notation "m ;; k" := (bind m (fun _ => k))
  (at level 100, right associativity) : py_scope.

(** ** Monad laws and running lemmas *)

Create HintDb game.
Create Rewrite HintDb game_rw.

Section MonadLemmas.
Context {S : Type}.

Lemma bind_ret_l {A B} (a : A) (k : A -> PyM S B) s :
  bind (ret a) k s = k a s.
Proof. reflexivity. Qed.

Lemma bind_assoc {A B C} (m : PyM S A) (k : A -> PyM S B) (h : B -> PyM S C) s :
  bind (bind m k) h s = bind m (fun a => bind (k a) h) s.
Proof. unfold bind. destruct (m s) as [[a|e] s']; reflexivity. Qed.

Lemma bind_ok {A B} (m : PyM S A) (k : A -> PyM S B) s a s' :
  m s = (Ok a, s') -> bind m k s = k a s'.
Proof. unfold bind. intros ->. reflexivity. Qed.

Lemma bind_exc {A B} (m : PyM S A) (k : A -> PyM S B) s e s' :
  m s = (Exc e, s') -> bind m k s = (Exc e, s').
Proof. unfold bind. intros ->. reflexivity. Qed.

(** Inversion of a run of [bind]: either the first part raised, or it
    returned and the continuation produced the result. *)
Lemma bind_inv {A B} (m : PyM S A) (k : A -> PyM S B) s r s'' :
  bind m k s = (r, s'') ->
  (exists e, m s = (Exc e, s'') /\ r = Exc e) \/
  (exists a s', m s = (Ok a, s') /\ k a s' = (r, s'')).
Proof.
  unfold bind. destruct (m s) as [[a|e] s'] eqn:E; intros H.
  - right. eauto.
  - left. inversion H; subst. eauto.
Qed.
End MonadLemmas.

#[export] Hint Rewrite @bind_ret_l @bind_assoc : game_rw.

(** Unfold the monad's combinators and compute; used on every handler. *)
Ltac py_run :=
  repeat (unfold bind, ret, get, modify, raise, unwrap in *; cbn in *).

(** Case on the [bool_decide] tests the code performs, keeping the
    proposition that each branch knows. *)
Ltac case_bool_decide_in H :=
  match type of H with
  | context [bool_decide ?P] =>
      let Hd := fresh "Hd" in
      destruct (bool_decide_reflect P) as [Hd|Hd]
  end.

(** Close the goals about the boolean flags of a game object: split the
    conjunctions and let [congruence] combine the flag equations. *)
Ltac flags_solver := repeat intro; destruct_and?; split_and?; congruence.

(** [lia] after turning the divisions by constants ([GRID_WIDTH // 2],
    [WINDOW_WIDTH // 2], ...) into their Euclidean equations. *)
Ltac zlia := Z.to_euclidean_division_equations; lia.

(** Discharge a decidable proposition about concrete data by evaluating
    its decision procedure. *)
Ltac vm_decide := refine (bool_decide_unpack _ _); vm_compute; exact I.

(** ** Lists *)

Section ListLemmas.
Context {A : Type}.

Lemma length_removelast_cons (x : A) (l : list A) :
  length (removelast (x :: l)) = length l.
Proof.
  revert x. induction l as [|y l IH]; intros x; [reflexivity|].
  change (removelast (x :: y :: l)) with (x :: removelast (y :: l)).
  cbn [length]. rewrite IH. reflexivity.
Qed.

Lemma elem_of_removelast (x : A) (l : list A) :
  x ∈ removelast l -> x ∈ l.
Proof.
  induction l as [|y l IH]; cbn; [done|].
  destruct l as [|z l]; [set_solver|].
  intros Hx. apply elem_of_cons in Hx as [->|Hx]; apply elem_of_cons; [by left|].
  right. by apply IH.
Qed.

Lemma NoDup_removelast (l : list A) : NoDup l -> NoDup (removelast l).
Proof.
  induction l as [|y l IH]; [done|].
  destruct l as [|z l]; [intros; constructor|].
  change (removelast (y :: z :: l)) with (y :: removelast (z :: l)).
  rewrite !(NoDup_cons y). intros [Hy Hl]. split.
  - intros Hin. apply Hy, elem_of_removelast, Hin.
  - by apply IH.
Qed.

Lemma Forall_removelast (P : A -> Prop) (l : list A) :
  Forall P l -> Forall P (removelast l).
Proof.
  rewrite !Forall_forall. intros HP x Hx. apply HP.
  apply elem_of_removelast, Hx.
Qed.

Lemma removelast_cons_ne (x y : A) (l : list A) :
  removelast (x :: y :: l) = x :: removelast (y :: l).
Proof. reflexivity. Qed.
End ListLemmas.

#[export] Hint Resolve NoDup_removelast Forall_removelast : game.
#[export] Hint Rewrite @length_removelast_cons : game_rw.
