(* ===== verification/PyRandom.v ===== *)
(** * The interface the games require of Python's [random] module

    [snake.py] draws cells with [random.randint] (lines 210-211) and
    [frites_game.py] draws positions, speeds and angles with
    [random.randint] and [random.uniform] (lines 28-30 and 249).  The
    module's hidden generator state is an explicit value of a type [R]
    threaded through the games; the games rely only on the ranges of the
    draws, which are the laws below.  [Scripted] is a generator replaying
    a list of raw draws, used to run the models on concrete inputs. *)

From stdpp Require Import base list.
From Stdlib Require Import ZArith QArith Lia.

(** [random.randint(a, b)]: an integer of [a..b], both ends included. *)
Class RandInt (R : Type) := randint : Z -> Z -> R -> Z * R.

Class RandIntLaws (R : Type) `{RandInt R} :=
  randint_range : forall a b r, (a <= b)%Z -> (a <= fst (randint a b r) <= b)%Z.

(** [random.uniform(a, b)]: a number between [a] and [b]. *)
Class RandUniform (R : Type) := uniform : Q -> Q -> R -> Q * R.

Class RandUniformLaws (R : Type) `{RandUniform R} :=
  uniform_range : forall a b r, (a <= b)%Q -> (a <= fst (uniform a b r) <= b)%Q.

(** ** A scripted generator *)

(** Each draw consumes the next raw number and reduces it into the
    requested range; an exhausted script keeps answering the low end. *)
Definition Scripted : Type := list Z.

#[export] Instance scripted_randint : RandInt Scripted :=
  fun a b s =>
    match s with
    | [] => (a, [])
    | x :: s' => ((a + x mod (b - a + 1))%Z, s')
    end.

#[export] Instance scripted_randint_laws : RandIntLaws Scripted.
Proof.
  intros a b [|x s] Hab; cbn; [lia|].
  pose proof (Z.mod_pos_bound x (b - a + 1)) as Hm. lia.
Qed.

#[export] Instance scripted_uniform : RandUniform Scripted :=
  fun a b s =>
    match s with
    | [] => (a, [])
    | _ :: s' => (a, s')
    end.

#[export] Instance scripted_uniform_laws : RandUniformLaws Scripted.
Proof.
  intros a b [|x s] Hab; cbn; split; (apply Qle_refl || exact Hab).
Qed.
