(* ===== verification/Deque.v ===== *)
(** * The operations of [collections.deque] used by [snake.py]

    [SnakeGame.snake] is a deque of cells with the head at index 0
    (src/snake.py lines 82, 152, 219, 228, 231, 239).  A deque is a list
    read from left to right; the operations raise [IndexError] on an
    empty deque as CPython does. *)

From stdpp Require Import base list decidable.
From S2P Require Import Prelude.

Module Deque.

Section Ops.
Context {A : Type}.

(** [d.appendleft(x)] *)
Definition appendleft (x : A) (d : list A) : list A := x :: d.

(** [d.pop()]: removes and returns the rightmost element. *)
Definition pop (d : list A) : option (A * list A) :=
  match d with
  | [] => None
  | x :: d' => Some (last d' x, removelast d)
  end.

(** [d[0]] *)
Definition index0 (d : list A) : option A := head d.

(** [x in d], by [==] on the elements. *)
Definition contains `{EqDecision A} (x : A) (d : list A) : bool :=
  bool_decide (x ∈ d).
End Ops.

Section Lemmas.
Context {A : Type}.

Lemma contains_spec `{EqDecision A} (x : A) (d : list A) :
  contains x d = true <-> x ∈ d.
Proof. unfold contains. apply bool_decide_eq_true. Qed.

End Lemmas.

End Deque.
