(* ===== verification/PyList.v ===== *)
(** * The method [list.remove] of Python lists

    [FritesGame.game_loop] removes the fries it caught or lost with
    [self.frites.remove(frite)] (src/frites_game.py lines 450-451).
    [list.remove(x)] deletes the first element equal to [x] and raises
    [ValueError] when there is none; [remove] returns [None] there.
    [remove_each] is the loop of lines 450-451.  On a list of distinct
    elements, removing distinct present elements one by one keeps exactly
    the other elements, in order ([remove_each_filter]). *)

From stdpp Require Import base list decidable sets.
From S2P Require Import Prelude.

Module PyList.

Section Ops.
Context {A : Type} `{EqDecision A}.

(** [l.remove(x)] *)
Fixpoint remove (x : A) (l : list A) : option (list A) :=
  match l with
  | [] => None
  | y :: l' => if decide (y = x) then Some l' else cons y <$> remove x l'
  end.

(** [for x in xs: l.remove(x)] *)
Fixpoint remove_each (xs l : list A) : option (list A) :=
  match xs with
  | [] => Some l
  | x :: xs' => l' ← remove x l; remove_each xs' l'
  end.
End Ops.

Section Lemmas.
Context {A : Type} `{EqDecision A}.

Lemma filter_id (P : A -> Prop) `{!forall x, Decision (P x)} (l : list A) :
  (forall x, x ∈ l -> P x) -> filter P l = l.
Proof.
  induction l as [|y l IH]; intros Hl; [done|].
  rewrite filter_cons_True by set_solver. f_equal. apply IH. set_solver.
Qed.

Lemma filter_none (P : A -> Prop) `{!forall x, Decision (P x)} (l : list A) :
  (forall x, x ∈ l -> ~ P x) -> filter P l = [].
Proof.
  induction l as [|y l IH]; intros Hl; [done|].
  rewrite filter_cons_False by set_solver. apply IH. set_solver.
Qed.

Lemma remove_filter (x : A) (l : list A) :
  NoDup l -> x ∈ l -> remove x l = Some (filter (fun y => y <> x) l).
Proof.
  induction l as [|y l IH]; intros Hnd Hx; [set_solver|].
  apply NoDup_cons in Hnd as [Hy Hnd]. cbn [remove]. rewrite filter_cons.
  case_decide as Hyx; case_decide as Hyx'; try congruence.
  - subst. f_equal. symmetry. apply filter_id. intros z Hz. set_solver.
  - rewrite IH; [done|done|set_solver].
Qed.

Lemma remove_each_filter (xs l : list A) :
  NoDup l -> NoDup xs -> (forall x, x ∈ xs -> x ∈ l) ->
  remove_each xs l = Some (filter (fun y => y ∉ xs) l).
Proof.
  revert l. induction xs as [|x xs IH]; intros l Hl Hxs Hin; cbn.
  { f_equal. symmetry. apply filter_id. set_solver. }
  apply NoDup_cons in Hxs as [Hx Hxs].
  rewrite remove_filter by set_solver. cbn.
  rewrite IH; [|by apply NoDup_filter|done|].
  - f_equal. rewrite list_filter_filter. apply list_filter_iff. set_solver.
  - intros z Hz. apply list_elem_of_filter. split; [set_solver|auto with set_solver].
Qed.
End Lemmas.

End PyList.
