(* ===== verification/Canvas.v ===== *)
(** * The Tk canvas and labels the games draw on

    A [tk.Canvas] is a display list: [create_rectangle], [create_oval],
    [create_polygon] and [create_text] append an item with its
    coordinates, its options and its tags; [delete(t1, t2, ...)] removes
    every item carrying one of the tags, the tag ["all"] matching every
    item.  The games never move or reconfigure an item, so this is all
    of the canvas they use.  Options are kept as the pairs of the call,
    each value written as Python prints it ([font=("Arial", 20)] is
    ["Arial 20"]).  A [tk.Label]'s text is a string; the formatting the
    games use ([f"{n}"] on an integer, [s * n] and [str.strip()]) is
    modelled here too.  Strings are byte strings: the emoji of the code
    are their UTF-8 bytes. *)

From stdpp Require Import base list decidable sets strings pretty.
From Stdlib Require Import ZArith QArith.
From S2P Require Import Prelude PyList.

Module Canvas.

Inductive kind : Type := Rectangle | Oval | Polygon | TextItem.

#[export] Instance kind_eq_dec : EqDecision kind.
Proof. solve_decision. Defined.

Record item := mkItem {
  kind_of : kind;
  coords : list Q;
  options : list (string * string);
  tags : list string
}.

Abbreviation canvas := (list item) (only parsing).

(** [canvas.create_*(coords, **options, tags=...)] *)
Definition create (k : kind) (cs : list Q) (opts : list (string * string)) (ts : list string)
    (c : canvas) : canvas :=
  c ++ [mkItem k cs opts ts].

(** Does [canvas.delete(t)] remove the item. *)
Definition has_tag (t : string) (i : item) : bool :=
  bool_decide (t = "all" \/ t ∈ tags i).

(** [canvas.delete(t1, t2, ...)] *)
Definition delete (ts : list string) (c : canvas) : canvas :=
  filter (fun i => existsb (fun t => has_tag t i) ts = false) c.

(** The items carrying the tag [t], in display order. *)
Definition tagged (t : string) (c : canvas) : canvas :=
  filter (fun i => t ∈ tags i) c.

(** [f"{n}"] on a Python [int]. *)
Definition py_str (n : Z) : string := pretty n.

(** [s * n] on a Python [str]: empty when [n <= 0]. *)
Fixpoint str_repeat (s : string) (n : nat) : string :=
  match n with
  | O => EmptyString
  | S n' => s +:+ str_repeat s n'
  end.

Definition py_str_mul (s : string) (n : Z) : string := str_repeat s (Z.to_nat n).

(** The ASCII characters [str.isspace()] accepts, which [str.strip()]
    removes: tab to carriage return, the four separators 28-31 and the
    space (the strings of the games hold no non-ASCII whitespace). *)
Definition is_space (a : Ascii.ascii) : bool :=
  let n := Ascii.nat_of_ascii a in
  bool_decide ((9 <= n <= 13)%nat \/ (28 <= n <= 32)%nat).

Fixpoint lstrip (s : string) : string :=
  match s with
  | EmptyString => EmptyString
  | String a s' => if is_space a then lstrip s' else s
  end.

Definition py_strip (s : string) : string :=
  String.rev (lstrip (String.rev (lstrip s))).

(** ** Lemmas *)

Lemma tagged_app (t : string) (c1 c2 : canvas) :
  tagged t (c1 ++ c2) = tagged t c1 ++ tagged t c2.
Proof. apply filter_app. Qed.

Lemma delete_app (ts : list string) (c1 c2 : canvas) :
  delete ts (c1 ++ c2) = delete ts c1 ++ delete ts c2.
Proof. apply filter_app. Qed.

Lemma length_delete (ts : list string) (c : canvas) : (length (delete ts c) <= length c)%nat.
Proof. apply length_filter. Qed.

Lemma existsb_has_tag (ts : list string) (i : item) :
  existsb (fun t => has_tag t i) ts = true <-> "all" ∈ ts \/ exists t, t ∈ ts /\ t ∈ tags i.
Proof.
  rewrite existsb_exists. split.
  - intros (t & Ht%list_elem_of_In & Hh%bool_decide_eq_true). destruct Hh as [->|]; eauto.
  - intros [Ha|(t & Ht & Hi)]; [exists "all"%string|exists t];
      (split; [by apply list_elem_of_In|apply bool_decide_eq_true; auto]).
Qed.

(** [delete("all")] empties the canvas. *)
Lemma delete_all (c : canvas) : delete ["all"] c = [].
Proof.
  induction c as [|i c IH]; [done|]. unfold delete in *. rewrite filter_cons.
  case_decide as Hx; [|done]. exfalso.
  assert (Hh : has_tag "all" i = true) by (apply bool_decide_eq_true; by left).
  cbn in Hx. by rewrite Hh in Hx.
Qed.

(** After [delete], no item carries a deleted tag. *)
Lemma tagged_delete (t : string) (ts : list string) (c : canvas) :
  t ∈ ts -> tagged t (delete ts c) = [].
Proof.
  intros Ht. induction c as [|i c IH]; [done|]. unfold tagged, delete in *.
  rewrite filter_cons. case_decide as Hx; [|done].
  rewrite filter_cons. case_decide as Hy; [|done]. exfalso.
  apply not_true_iff_false in Hx. apply Hx, existsb_has_tag. eauto.
Qed.

(** [delete] leaves the items of a tag that no deleted tag shares. *)
Lemma tagged_delete_other (t : string) (ts : list string) (c : canvas) :
  "all" ∉ ts ->
  (forall i, i ∈ c -> t ∈ tags i -> forall t', t' ∈ ts -> t' ∉ tags i) ->
  tagged t (delete ts c) = tagged t c.
Proof.
  intros Hall Hc. induction c as [|i c IH]; [done|]. unfold tagged, delete in *.
  rewrite !filter_cons. case_decide as Hx; case_decide as Hy; rewrite ?filter_cons.
  - rewrite decide_True by done. f_equal. apply IH. set_solver.
  - rewrite decide_False by done. apply IH. set_solver.
  - exfalso. apply Hx, not_true_iff_false. intros [|(t' & Ht' & Hi)]%existsb_has_tag; [done|].
    by apply (Hc i ltac:(set_solver) Hy t' Ht').
  - apply IH. set_solver.
Qed.

(** ** Drawing methods that only append items *)

(** [f] appends the items [f []] whatever the canvas, and each of
    them carries exactly the tags [T]. *)
Definition adds (T : list string) (f : canvas -> canvas) : Prop :=
  forall c, f c = c ++ f [] /\ Forall (fun i => tags i = T) (f []).

(** Every item carries at most one tag. *)
Definition one_tag (c : canvas) : Prop := Forall (fun i => length (tags i) <= 1)%nat c.

Lemma adds_create (k : kind) (cs : list Q) (opts : list (string * string)) (T : list string) :
  adds T (create k cs opts T).
Proof. intros c. split; [done|by repeat constructor]. Qed.

Lemma adds_compose (T : list string) (f g : canvas -> canvas) :
  adds T f -> adds T g -> adds T (fun c => g (f c)).
Proof.
  intros Hf Hg c. destruct (Hf c) as [-> HfT]. destruct (Hg (f [])) as [Hg' HgT].
  rewrite (proj1 (Hg (c ++ f []))), Hg', app_assoc.
  split; [done|apply Forall_app; auto].
Qed.

Lemma adds_fold {A} (T : list string) (g : canvas -> A -> canvas) (xs : list A) :
  (forall x, adds T (fun c => g c x)) -> adds T (fun c => fold_left g xs c).
Proof.
  intros Hg. induction xs as [|x xs IH] using rev_ind; intros c.
  { rewrite app_nil_r. split; [done|constructor]. }
  rewrite !fold_left_app. cbn. apply (adds_compose T (fun c => fold_left g xs c) (fun c => g c x)); auto.
Qed.

Lemma adds_tagged_other (T : list string) (f : canvas -> canvas) (t : string) (c : canvas) :
  adds T f -> t ∉ T -> tagged t (f c) = tagged t c.
Proof.
  intros Hf Ht. destruct (Hf c) as [-> HT]. rewrite tagged_app.
  replace (tagged t (f [])) with (@nil item); [by rewrite app_nil_r|].
  symmetry. apply PyList.filter_none. intros i Hi. eapply Forall_forall in HT; [|exact Hi].
  cbn in HT. by rewrite HT.
Qed.

Lemma adds_tagged_same (T : list string) (f : canvas -> canvas) (t : string) (c : canvas) :
  adds T f -> t ∈ T -> tagged t (f c) = tagged t c ++ f [].
Proof.
  intros Hf Ht. destruct (Hf c) as [-> HT]. rewrite tagged_app. f_equal.
  apply PyList.filter_id. intros i Hi. eapply Forall_forall in HT; [|exact Hi]. cbn in HT. by rewrite HT.
Qed.

Lemma adds_one_tag (T : list string) (f : canvas -> canvas) (c : canvas) :
  adds T f -> (length T <= 1)%nat -> one_tag c -> one_tag (f c).
Proof.
  intros Hf HT Hc. destruct (Hf c) as [-> HfT]. apply Forall_app. split; [done|].
  eapply Forall_impl; [exact HfT|]. by intros i ->.
Qed.

Lemma delete_one_tag (ts : list string) (c : canvas) : one_tag c -> one_tag (delete ts c).
Proof.
  intros Hc. apply Forall_forall. intros i (_ & Hi)%list_elem_of_filter.
  by eapply Forall_forall in Hc.
Qed.

(** On a canvas of single-tag items, deleting other tags leaves the
    items of [t]. *)
Lemma tagged_delete_one_tag (t : string) (ts : list string) (c : canvas) :
  one_tag c -> "all" ∉ ts -> t ∉ ts -> tagged t (delete ts c) = tagged t c.
Proof.
  intros Hc Hall Ht. apply tagged_delete_other; [done|].
  intros i Hi Hti t' Ht' Ht'i. eapply Forall_forall in Hc; [|exact Hi].
  destruct (tags i) as [|a [|b l]] eqn:E; cbn in Hc; [set_solver|set_solver|lia].
Qed.

(** The items without a tag: the background, which no [delete] of a
    tag other than ["all"] removes. *)
Definition untagged (c : canvas) : canvas := filter (fun i => tags i = []) c.

Lemma adds_untagged_other (T : list string) (f : canvas -> canvas) (c : canvas) :
  adds T f -> T <> [] -> untagged (f c) = untagged c.
Proof.
  intros Hf HT. destruct (Hf c) as [-> HfT]. unfold untagged. rewrite filter_app.
  rewrite (PyList.filter_none _ (f [])), app_nil_r; [done|].
  intros i Hi. eapply Forall_forall in HfT; [|exact Hi]. cbn in HfT. by rewrite HfT.
Qed.

Lemma adds_untagged_same (f : canvas -> canvas) (c : canvas) :
  adds [] f -> untagged (f c) = untagged c ++ f [].
Proof.
  intros Hf. destruct (Hf c) as [-> HfT]. unfold untagged. rewrite filter_app. f_equal.
  apply PyList.filter_id. intros i Hi. by eapply Forall_forall in HfT.
Qed.

Lemma untagged_delete (ts : list string) (c : canvas) :
  "all" ∉ ts -> untagged (delete ts c) = untagged c.
Proof.
  intros Hall. unfold untagged, delete. rewrite list_filter_filter.
  apply list_filter_iff. intros i. split; [tauto|]. intros Hi. split; [done|].
  apply not_true_iff_false. intros [|(t & _ & Ht)]%existsb_has_tag; [done|].
  rewrite Hi in Ht. set_solver.
Qed.

(** Deleting the tag a drawing method gave its items undoes the method
    on a canvas without items of that tag. *)
Lemma delete_adds (t : string) (f : canvas -> canvas) (c : canvas) :
  adds [t] f -> t <> "all" -> tagged t c = [] -> delete [t] (f c) = c.
Proof.
  intros Hf Ht Hc. destruct (Hf c) as [-> HT]. unfold delete. rewrite filter_app.
  rewrite (PyList.filter_id _ c), (PyList.filter_none _ (f [])); [by rewrite app_nil_r| |].
  - intros i Hi. eapply Forall_forall in HT; [|exact Hi]. cbn in HT.
    intros Hx%not_true_iff_false. apply Hx, existsb_has_tag. right. exists t. rewrite HT. set_solver.
  - intros i Hi. apply not_true_iff_false. intros [Ha|(t' & Ht' & Hti)]%existsb_has_tag; [set_solver|].
    apply list_elem_of_singleton in Ht' as ->.
    by apply (filter_nil_not_elem_of _ c i Hc).
Qed.

(** Decide a membership between literal tags by evaluation. *)
Ltac tag_decide := apply (bool_decide_unpack _); vm_compute; exact I.

Arguments create : simpl never.
Arguments delete : simpl never.
Arguments tagged : simpl never.
Arguments untagged : simpl never.

End Canvas.
