(* ===== verification/SnakeMove.v ===== *)
(** * The tick of [SnakeGame]: the state, [spawn_food] and [move_snake]

    src/snake.py keeps the game in the attributes of a [SnakeGame]
    object; [world] is that object together with the generator state of
    [random] and the count of pending [root.after] timers.  This file
    holds the state, the two methods that make up the body of a tick,
    [spawn_food] (lines 207-214) and [move_snake] (lines 216-241) with
    the [update_score] it calls (lines 243-245), the
    predicates on cells and snakes, the behaviour of [move_snake] on each
    branch ([move_result]), and the termination of [spawn_food]. *)

From stdpp Require Import base list decidable sets list_numbers strings.
From Stdlib Require Import ZArith Lia.
From S2P Require Import Prelude PyRandom Deque Canvas.

Module SnakeMove.
Local Open Scope Z_scope.
Local Open Scope py_scope.

(** ** Constants (lines 6-26) *)

Definition WINDOW_WIDTH : Z := 600.
Definition WINDOW_HEIGHT : Z := 600.
Definition GRID_SIZE : Z := 20.
Definition GRID_WIDTH : Z := WINDOW_WIDTH / GRID_SIZE.
Definition GRID_HEIGHT : Z := WINDOW_HEIGHT / GRID_SIZE.
Definition GAME_SPEED : Z := 150.

Lemma GRID_WIDTH_eq : GRID_WIDTH = 30.
Proof. reflexivity. Qed.

Lemma GRID_HEIGHT_eq : GRID_HEIGHT = 30.
Proof. reflexivity. Qed.

Abbreviation cell := (Z * Z)%type.

Definition UP : cell := (0, -1).
Definition DOWN : cell := (0, 1).
Definition LEFT : cell := (-1, 0).
Definition RIGHT : cell := (1, 0).

(** ** State *)

Section World.
Context {R : Type} `{RandInt R}.

(** The attributes set in [__init__] (lines 40, 82-89), the generator
    state of [random], the number of [game_loop] callbacks that
    [root.after] has scheduled and that have not fired yet, the items of
    [self.canvas] (lines 59-67) and the text of [self.score_label]
    (lines 50-56). *)
Record world := mkWorld {
  snake : list cell;
  direction : cell;
  next_direction : cell;
  food_pos : option cell;
  score : Z;
  game_over : bool;
  paused : bool;
  game_started : bool;
  is_fullscreen : bool;
  rng : R;
  pending : nat;
  canvas : list Canvas.item;
  score_label : string
}.

Definition set_snake v w := mkWorld v (direction w) (next_direction w) (food_pos w) (score w) (game_over w) (paused w) (game_started w) (is_fullscreen w) (rng w) (pending w) (canvas w) (score_label w).
Definition set_direction v w := mkWorld (snake w) v (next_direction w) (food_pos w) (score w) (game_over w) (paused w) (game_started w) (is_fullscreen w) (rng w) (pending w) (canvas w) (score_label w).
Definition set_next_direction v w := mkWorld (snake w) (direction w) v (food_pos w) (score w) (game_over w) (paused w) (game_started w) (is_fullscreen w) (rng w) (pending w) (canvas w) (score_label w).
Definition set_food_pos v w := mkWorld (snake w) (direction w) (next_direction w) v (score w) (game_over w) (paused w) (game_started w) (is_fullscreen w) (rng w) (pending w) (canvas w) (score_label w).
Definition set_score v w := mkWorld (snake w) (direction w) (next_direction w) (food_pos w) v (game_over w) (paused w) (game_started w) (is_fullscreen w) (rng w) (pending w) (canvas w) (score_label w).
Definition set_game_over v w := mkWorld (snake w) (direction w) (next_direction w) (food_pos w) (score w) v (paused w) (game_started w) (is_fullscreen w) (rng w) (pending w) (canvas w) (score_label w).
Definition set_paused v w := mkWorld (snake w) (direction w) (next_direction w) (food_pos w) (score w) (game_over w) v (game_started w) (is_fullscreen w) (rng w) (pending w) (canvas w) (score_label w).
Definition set_game_started v w := mkWorld (snake w) (direction w) (next_direction w) (food_pos w) (score w) (game_over w) (paused w) v (is_fullscreen w) (rng w) (pending w) (canvas w) (score_label w).
Definition set_is_fullscreen v w := mkWorld (snake w) (direction w) (next_direction w) (food_pos w) (score w) (game_over w) (paused w) (game_started w) v (rng w) (pending w) (canvas w) (score_label w).
Definition set_rng v w := mkWorld (snake w) (direction w) (next_direction w) (food_pos w) (score w) (game_over w) (paused w) (game_started w) (is_fullscreen w) v (pending w) (canvas w) (score_label w).
Definition set_pending v w := mkWorld (snake w) (direction w) (next_direction w) (food_pos w) (score w) (game_over w) (paused w) (game_started w) (is_fullscreen w) (rng w) v (canvas w) (score_label w).
Definition set_canvas v w := mkWorld (snake w) (direction w) (next_direction w) (food_pos w) (score w) (game_over w) (paused w) (game_started w) (is_fullscreen w) (rng w) (pending w) v (score_label w).
Definition set_score_label v w := mkWorld (snake w) (direction w) (next_direction w) (food_pos w) (score w) (game_over w) (paused w) (game_started w) (is_fullscreen w) (rng w) (pending w) (canvas w) v.

(** [random.randint(a, b)] on the module's generator. *)
Definition rand_int (a b : Z) : PyM world Z :=
  fun w => let (z, r') := randint a b (rng w) in (Ok z, set_rng r' w).

(** The text [update_score] gives the label (line 245). *)
Definition score_text (score : Z) : string := "Score: " +:+ Canvas.py_str score.

(** [update_score] (lines 243-245) *)
Definition update_score : PyM world unit :=
  modify (fun w => set_score_label (score_text (score w)) w).

(** A drawing call on [self.canvas]. *)
Definition draw (f : list Canvas.item -> list Canvas.item) : PyM world unit :=
  modify (fun w => set_canvas (f (canvas w)) w).

Lemma draw_bind {A} (f : list Canvas.item -> list Canvas.item) (k : unit -> PyM world A) (w : world) :
  bind (draw f) k w = k tt (set_canvas (f (canvas w)) w).
Proof. reflexivity. Qed.

(** [spawn_food] (lines 207-214): rejection sampling until a cell not
    in the snake is drawn.  [fuel] bounds the number of draws; running
    out is [NonTermination]. *)
Fixpoint spawn_food_loop (fuel : nat) : PyM world unit :=
  match fuel with
  | O => raise NonTermination
  | S fuel' =>
      x <- rand_int 0 (GRID_WIDTH - 1) ;;
      y <- rand_int 0 (GRID_HEIGHT - 1) ;;
      w <- get ;;
      if Deque.contains (x, y) (snake w) then spawn_food_loop fuel'
      else modify (set_food_pos (Some (x, y)))
  end.

Variable fuel : nat.

Definition spawn_food : PyM world unit := spawn_food_loop fuel.

(** [new_head] of line 220: the head moved by one step of [d]. *)
Definition new_head_of (hd d : cell) : cell := (hd.1 + d.1, hd.2 + d.2).

(** [move_snake] (lines 216-241).  The result is the method's boolean;
    [IndexError] when the deque is empty ([self.snake[0]]). *)
Definition move_snake : PyM world bool :=
  modify (fun w => set_direction (next_direction w) w) ;;
  w <- get ;;
  hd <- unwrap IndexError (Deque.index0 (snake w)) ;;
  let new_head := new_head_of hd (direction w) in
  if bool_decide (new_head.1 < 0 \/ new_head.1 >= GRID_WIDTH \/
                  new_head.2 < 0 \/ new_head.2 >= GRID_HEIGHT)
  then ret false
  else if Deque.contains new_head (snake w) then ret false
  else
    modify (fun w => set_snake (Deque.appendleft new_head (snake w)) w) ;;
    w <- get ;;
    (if bool_decide (Some new_head = food_pos w) then
       modify (fun w => set_score (score w + 10) w) ;;
       update_score ;;
       spawn_food
     else
       w <- get ;;
       p <- unwrap IndexError (Deque.pop (snake w)) ;;
       modify (set_snake p.2)) ;;
    ret true.
End World.

Arguments world R : clear implicits.

(** ** Predicates *)

Definition in_grid (c : cell) : Prop :=
  0 <= c.1 < GRID_WIDTH /\ 0 <= c.2 < GRID_HEIGHT.

#[export] Instance in_grid_dec (c : cell) : Decision (in_grid c).
Proof. unfold in_grid. apply _. Defined.

Definition is_dir (d : cell) : Prop := d = UP \/ d = DOWN \/ d = LEFT \/ d = RIGHT.

Definition adjacent (a b : cell) : Prop :=
  Z.abs (a.1 - b.1) + Z.abs (a.2 - b.2) = 1.

Fixpoint connected (l : list cell) : Prop :=
  match l with
  | a :: ((b :: _) as t) => adjacent a b /\ connected t
  | _ => True
  end.

Record snake_wf (s : list cell) : Prop := {
  wf_nonempty : s <> [];
  wf_nodup : NoDup s;
  wf_in_grid : Forall in_grid s;
  wf_connected : connected s
}.

Definition food_ok (s : list cell) (food : option cell) : Prop :=
  exists f, food = Some f /\ (f ∉ s) /\ in_grid f.

(** ** Facts about cells and headings *)

Lemma wall_test_spec (c : cell) :
  (c.1 < 0 \/ c.1 >= GRID_WIDTH \/ c.2 < 0 \/ c.2 >= GRID_HEIGHT) <-> ~ in_grid c.
Proof. unfold in_grid, GRID_WIDTH, GRID_HEIGHT; cbn. lia. Qed.

Lemma new_head_adjacent (hd d : cell) : is_dir d -> adjacent (new_head_of hd d) hd.
Proof.
  unfold adjacent, new_head_of. intros [ -> | [ -> | [ -> | -> ]]]; cbn; lia.
Qed.

Lemma connected_removelast (l : list cell) : connected l -> connected (removelast l).
Proof.
  induction l as [|a l IH]; [done|].
  destruct l as [|b l]; [done|].
  rewrite removelast_cons_ne. intros [Hab Hc].
  destruct l as [|c l]; [done|].
  rewrite removelast_cons_ne. split; [exact Hab|].
  rewrite <-removelast_cons_ne. by apply IH.
Qed.

#[export] Hint Resolve new_head_adjacent connected_removelast : game.

(** ** The grid as a list of cells *)

Definition all_cells : list cell :=
  list_prod (seqZ 0 GRID_WIDTH) (seqZ 0 GRID_HEIGHT).

Definition grid_full (s : list cell) : bool :=
  forallb (fun c => Deque.contains c s) all_cells.

Lemma in_grid_all_cells (c : cell) : in_grid c <-> c ∈ all_cells.
Proof.
  destruct c as [x y]. unfold all_cells, in_grid; cbn.
  rewrite list_elem_of_In, in_prod_iff, <-!list_elem_of_In, !elem_of_seqZ. lia.
Qed.

Lemma length_all_cells : length all_cells = 900%nat.
Proof. reflexivity. Qed.

Lemma grid_full_spec (s : list cell) : grid_full s = true <-> forall c, in_grid c -> c ∈ s.
Proof.
  unfold grid_full. rewrite forallb_forall. split.
  - intros Hall c Hc. apply Deque.contains_spec, Hall, list_elem_of_In, in_grid_all_cells, Hc.
  - intros Hall c Hc. apply Deque.contains_spec, Hall, in_grid_all_cells, list_elem_of_In, Hc.
Qed.

(** 900 distinct cells of the grid cover it. *)
Lemma full_of_length (s : list cell) :
  NoDup s -> Forall in_grid s -> length s = 900%nat -> grid_full s = true.
Proof.
  intros Hnd Hg Hlen. apply grid_full_spec. intros c Hc.
  apply list_elem_of_In.
  apply (NoDup_length_incl (l:=s) (l':=all_cells)).
  - by apply NoDup_ListNoDup.
  - rewrite length_all_cells, Hlen. done.
  - intros a Ha. apply list_elem_of_In, in_grid_all_cells.
    rewrite Forall_forall in Hg. apply Hg, list_elem_of_In, Ha.
  - apply list_elem_of_In, in_grid_all_cells, Hc.
Qed.

(** A snake of distinct grid cells that leaves a free grid cell for the
    food has at most 899 cells. *)
Lemma length_le_free_cell (s : list cell) (food : option cell) :
  snake_wf s -> food_ok s food -> (length s <= 899)%nat.
Proof.
  intros [_ Hnd Hg _] (f & _ & Hf & Hfg).
  enough (length (f :: s) <= length all_cells)%nat by (rewrite length_all_cells in *; cbn in *; lia).
  apply NoDup_incl_length.
  - apply NoDup_ListNoDup. by constructor.
  - intros a Ha%list_elem_of_In. apply list_elem_of_In, in_grid_all_cells.
    apply elem_of_cons in Ha as [->|Ha]; [done|]. rewrite Forall_forall in Hg. by apply Hg.
Qed.

(** ** [spawn_food] *)

Section Spawn.
Context {R : Type} `{RandIntLaws R}.

Lemma rand_int_run (a b : Z) (w : world R) :
  exists z r', rand_int a b w = (Ok z, set_rng r' w) /\ (a <= b -> a <= z <= b).
Proof.
  unfold rand_int. pose proof (randint_range a b (rng w)) as Hr.
  destruct (randint a b (rng w)) as [z r']. eauto.
Qed.

(** The rejection loop either stores a cell of the grid that is not on
    the snake, changing nothing else but the generator, or runs out of
    fuel having changed only the generator. *)
Lemma spawn_food_loop_spec (n : nat) (w : world R) r w' :
  spawn_food_loop n w = (r, w') ->
  (r = Ok tt /\ exists f g, w' = set_rng g (set_food_pos (Some f) w) /\
                            (f ∉ snake w) /\ in_grid f) \/
  (r = Exc NonTermination /\ exists g, w' = set_rng g w).
Proof.
  revert w. induction n as [|n IH]; intros w Hrun; cbn in Hrun.
  - injection Hrun as <- <-. right. split; [done|]. exists (rng w). by destruct w.
  - destruct (rand_int_run 0 (GRID_WIDTH - 1) w) as (x & g1 & Hx & Bx).
    rewrite (bind_ok _ _ _ _ _ Hx) in Hrun.
    destruct (rand_int_run 0 (GRID_HEIGHT - 1) (set_rng g1 w)) as (y & g2 & Hy & By).
    rewrite (bind_ok _ _ _ _ _ Hy) in Hrun. unfold get, bind in Hrun.
    destruct (Deque.contains (x, y) _) eqn:Hc.
    + destruct (IH _ Hrun) as [[-> (f & g & -> & Hf & Hg)]|[-> (g & ->)]].
      * left. split; [done|]. exists f, g. by destruct w.
      * right. split; [done|]. exists g. by destruct w.
    + unfold modify in Hrun. injection Hrun as <- <-. left. split; [done|].
      exists (x, y), g2. split; [by destruct w|]. split.
      * intros Hin. apply Deque.contains_spec in Hin. cbn in Hc. congruence.
      * specialize (Bx ltac:(done)). specialize (By ltac:(done)).
        unfold in_grid, GRID_WIDTH, GRID_HEIGHT in *; cbn in *. lia.
Qed.
(** The cells [spawn_food] draws, in order, from a generator state:
    [randint(0, GRID_WIDTH - 1)] then [randint(0, GRID_HEIGHT - 1)]. *)
Fixpoint draws (n : nat) (r : R) : list cell :=
  match n with
  | O => []
  | S n' =>
      let (x, r1) := randint 0 (GRID_WIDTH - 1) r in
      let (y, r2) := randint 0 (GRID_HEIGHT - 1) r1 in
      (x, y) :: draws n' r2
  end.

(** One round of the loop: the drawn cell and the generator after it. *)
Lemma spawn_food_loop_S (n : nat) (w : world R) :
  spawn_food_loop (S n) w =
    let (x, r1) := randint 0 (GRID_WIDTH - 1) (rng w) in
    let (y, r2) := randint 0 (GRID_HEIGHT - 1) r1 in
    if Deque.contains (x, y) (snake w) then spawn_food_loop n (set_rng r2 w)
    else (Ok tt, set_food_pos (Some (x, y)) (set_rng r2 w)).
Proof.
  destruct w. cbn. unfold rand_int, bind, get, modify. cbn.
  destruct (randint 0 (GRID_WIDTH - 1) _) as [x r1]; cbn.
  destruct (randint 0 (GRID_HEIGHT - 1) r1) as [y r2]; cbn.
  destruct (Deque.contains (x, y) _); reflexivity.
Qed.

(** C11: [spawn_food] returns within [n] rounds exactly when one of the
    first [n] cells drawn is free; otherwise it keeps looping. *)
Theorem spawn_food_terminates_iff_free_draw (n : nat) (w : world R) :
  (exists c, c ∈ draws n (rng w) /\ c ∉ snake w) <->
  (exists w', spawn_food_loop n w = (Ok tt, w')).
Proof.
  revert w. induction n as [|n IH]; intros w.
  - cbn. split; [intros (c & Hc & _); set_solver|intros (w' & [=])].
  - rewrite spawn_food_loop_S. cbn [draws].
    destruct (randint 0 (GRID_WIDTH - 1) (rng w)) as [x r1].
    destruct (randint 0 (GRID_HEIGHT - 1) r1) as [y r2].
    specialize (IH (set_rng r2 w)). cbn in IH.
    destruct (Deque.contains (x, y) (snake w)) eqn:Hc.
    + apply Deque.contains_spec in Hc. rewrite <-IH. split.
      * intros (c & [->|Hin]%elem_of_cons & Hf); [done|eauto].
      * intros (c & Hin & Hf). exists c. split; [by right|done].
    + split; [eauto|]. intros _. exists (x, y). split; [by left|].
      intros Hin. apply Deque.contains_spec in Hin. congruence.
Qed.

(** C10: when the snake covers every cell of the grid, [spawn_food]
    never returns, whatever the generator and however many rounds. *)
Theorem spawn_food_diverges_on_full_grid (n : nat) (w : world R) :
  grid_full (snake w) = true -> fst (spawn_food_loop n w) = Exc NonTermination.
Proof.
  intros Hfull. destruct (spawn_food_loop n w) as [r w'] eqn:Hrun.
  destruct (spawn_food_loop_spec n w r w' Hrun) as [[-> (f & g & _ & Hf & Hg)]|[-> _]];
    [|done].
  exfalso. apply Hf. by apply grid_full_spec.
Qed.
End Spawn.

(** ** [move_snake], branch by branch *)

Section Move.
Context {R : Type} `{RandIntLaws R}.
Variable fuel : nat.

Local Arguments removelast : simpl never.
Local Arguments new_head_of : simpl never.

(** The object after line 218, [self.direction = self.next_direction]. *)
Definition turned (w : world R) : world R := set_direction (next_direction w) w.

(** What [move_snake] does, one constructor per path through lines
    218-241.  [nh] is the candidate head of line 220. *)
Inductive move_result (w : world R) : pyres bool -> world R -> Prop :=
  | mv_empty :
      snake w = [] ->
      move_result w (Exc IndexError) (turned w)
  | mv_wall hd tl :
      snake w = hd :: tl ->
      ~ in_grid (new_head_of hd (next_direction w)) ->
      move_result w (Ok false) (turned w)
  | mv_self hd tl :
      snake w = hd :: tl ->
      in_grid (new_head_of hd (next_direction w)) ->
      new_head_of hd (next_direction w) ∈ snake w ->
      move_result w (Ok false) (turned w)
  | mv_eat hd tl f g :
      snake w = hd :: tl ->
      in_grid (new_head_of hd (next_direction w)) ->
      new_head_of hd (next_direction w) ∉ snake w ->
      food_pos w = Some (new_head_of hd (next_direction w)) ->
      f ∉ new_head_of hd (next_direction w) :: snake w -> in_grid f ->
      move_result w (Ok true)
        (set_rng g (set_food_pos (Some f) (set_score_label (score_text (score w + 10))
          (set_score (score w + 10)
           (set_snake (new_head_of hd (next_direction w) :: snake w) (turned w))))))
  | mv_eat_stuck hd tl g :
      snake w = hd :: tl ->
      in_grid (new_head_of hd (next_direction w)) ->
      new_head_of hd (next_direction w) ∉ snake w ->
      food_pos w = Some (new_head_of hd (next_direction w)) ->
      move_result w (Exc NonTermination)
        (set_rng g (set_score_label (score_text (score w + 10)) (set_score (score w + 10)
           (set_snake (new_head_of hd (next_direction w) :: snake w) (turned w)))))
  | mv_step hd tl :
      snake w = hd :: tl ->
      in_grid (new_head_of hd (next_direction w)) ->
      new_head_of hd (next_direction w) ∉ snake w ->
      food_pos w <> Some (new_head_of hd (next_direction w)) ->
      move_result w (Ok true)
        (set_snake (removelast (new_head_of hd (next_direction w) :: snake w)) (turned w)).

(** [move_snake] is described by [move_result]. *)
Lemma move_snake_spec (w : world R) r w' :
  move_snake fuel w = (r, w') -> move_result w r w'.
Proof.
  unfold move_snake, spawn_food. py_run.
  destruct (snake w) as [|hd tl] eqn:Hs; cbn in *.
  { injection 1 as <- <-. by apply mv_empty. }
  case_bool_decide as Hwall.
  { injection 1 as <- <-. eapply mv_wall; [done|]. by apply wall_test_spec. }
  rewrite wall_test_spec in Hwall. apply dec_stable in Hwall.
  destruct (Deque.contains _ _) eqn:Hc.
  { injection 1 as <- <-. apply Deque.contains_spec in Hc.
    eapply mv_self; [done|done|]. by rewrite Hs. }
  assert (new_head_of hd (next_direction w) ∉ snake w) as Hfree.
  { rewrite Hs. intros Hin. apply Deque.contains_spec in Hin. congruence. }
  cbn. case_bool_decide as Hf.
  - destruct (spawn_food_loop fuel _) as [r1 w1] eqn:Hsp.
    apply spawn_food_loop_spec in Hsp
      as [[-> (f & g & -> & Hfn & Hfg)]|[-> (g & ->)]]; injection 1 as <- <-.
    + by eapply mv_eat; [exact Hs|exact Hwall|exact Hfree|done|exact Hfn|exact Hfg].
    + by eapply mv_eat_stuck.
  - cbn. injection 1 as <- <-.
    eapply mv_step; [exact Hs|exact Hwall|exact Hfree|congruence].
Qed.

(** C5: [move_snake] does exactly one of the following: raise
    [IndexError] on an empty deque; commit the heading and report a
    collision with a wall or with the body; eat the food (grow, score
    ten, relocate the food to a free cell of the grid, or loop forever
    in [spawn_food]); or shift the snake by one cell. *)
Theorem move_snake_correct (w : world R) r w' :
  move_snake fuel w = (r, w') -> move_result w r w'.
Proof. apply move_snake_spec. Qed.

Local Arguments move_snake : simpl never.

Lemma move_result_direction (w w' : world R) r :
  move_result w r w' -> direction w' = next_direction w.
Proof. by inversion 1. Qed.

(** C7: a move that succeeds either eats the food, growing the snake by
    exactly one cell and the score by exactly ten, or keeps both the
    length and the score (design notes, section 8). *)
Theorem move_snake_growth (w w' : world R) :
  move_snake fuel w = (Ok true, w') ->
  if bool_decide (food_pos w = head (snake w'))
  then length (snake w') = S (length (snake w)) /\ score w' = score w + 10
  else length (snake w') = length (snake w) /\ score w' = score w.
Proof.
  intros Hm%move_snake_spec.
  inversion Hm as [| | |hd tl f g Hs Hg Hfree Hfood|hd tl g|hd tl Hs Hg Hfree Hfood]; subst; cbn.
  - rewrite bool_decide_eq_true_2 by done. done.
  - rewrite Hs, removelast_cons_ne. cbn.
    rewrite bool_decide_eq_false_2 by done.
    rewrite length_removelast_cons. done.
Qed.

(** C14: when the snake holds 899 distinct cells of the 900-cell grid
    and its next head is the food on the last free cell, the tick never
    ends: [move_snake] grows the snake to the full grid and
    [spawn_food] then loops forever. *)
Theorem eating_last_free_cell_hangs (w : world R) hd tl :
  snake w = hd :: tl -> NoDup (snake w) -> Forall in_grid (snake w) ->
  length (snake w) = 899%nat ->
  in_grid (new_head_of hd (next_direction w)) ->
  new_head_of hd (next_direction w) ∉ snake w ->
  food_pos w = Some (new_head_of hd (next_direction w)) ->
  fst (move_snake fuel w) = Exc NonTermination.
Proof.
  intros Hs Hnd Hg Hlen Hin Hfree Hfood.
  destruct (move_snake fuel w) as [r w'] eqn:Hm. apply move_snake_spec in Hm.
  inversion Hm as [Hs'|hd' tl' Hs' Hw|hd' tl' Hs' Hg' Hself
                  |hd' tl' f g Hs' Hg' Hfree' Hfood' Hf Hfg|hd' tl' g|hd' tl' Hs' _ _ Hfood'];
    subst; rewrite Hs in *; simplify_eq; try done.
  exfalso. apply Hf. apply grid_full_spec; [|done].
  apply full_of_length.
  - by apply NoDup_cons.
  - by constructor.
  - cbn [length] in *. lia.
Qed.
End Move.

(** ** Concrete runs *)

(** The scenario of section 8 of the design notes: a one-cell snake at
    (10,10) heading right, the food at (11,10). *)
Definition scenario_world : world Scripted :=
  mkWorld [(10, 10)] RIGHT RIGHT (Some (11, 10)) 0 false false true false [3; 4] 1 [] (score_text 0).

Lemma move_snake_correct_witness :
  move_result scenario_world (Ok true) (snd (move_snake 10 scenario_world)).
Proof. apply (move_snake_correct 10). vm_compute. reflexivity. Defined.

(** The scenario of section 8: the head moves to (11,10), the score
    grows by ten and the snake by one cell. *)
Lemma move_snake_growth_witness :
  snake (snd (move_snake 10 scenario_world)) = [(11, 10); (10, 10)] /\
  (if bool_decide (food_pos scenario_world = head (snake (snd (move_snake 10 scenario_world))))
   then length (snake (snd (move_snake 10 scenario_world))) = S (length (snake scenario_world)) /\
        score (snd (move_snake 10 scenario_world)) = score scenario_world + 10
   else length (snake (snd (move_snake 10 scenario_world))) = length (snake scenario_world) /\
        score (snd (move_snake 10 scenario_world)) = score scenario_world).
Proof.
  split; [vm_compute; reflexivity|].
  apply (move_snake_growth 10). vm_compute. reflexivity.
Defined.

(** A snake covering all 900 cells. *)
Definition full_world : world Scripted :=
  mkWorld all_cells RIGHT RIGHT None 8990 false false true false [1; 2; 3] 0 [] (score_text 8990).

Lemma spawn_food_diverges_on_full_grid_witness :
  fst (spawn_food_loop 50 full_world) = Exc NonTermination.
Proof. apply spawn_food_diverges_on_full_grid. vm_compute. reflexivity. Defined.

(** 899 cells of the grid, head at (0,1), heading up, food on (0,0). *)
Definition last_cell_world : world Scripted :=
  mkWorld (drop 1 all_cells) UP UP (Some (0, 0)) 8980 false false true false [] 1 [] (score_text 8980).

Lemma eating_last_free_cell_hangs_witness :
  fst (move_snake 10 last_cell_world) = Exc NonTermination.
Proof.
  apply (eating_last_free_cell_hangs 10 last_cell_world (0, 1) (drop 2 all_cells));
    [vm_compute; reflexivity|vm_decide|vm_decide|vm_compute; reflexivity
    |vm_decide|vm_decide|vm_compute; reflexivity].
Defined.

(** The first cell drawn is the snake's, the second is free: two rounds
    suffice. *)
Definition respawn_world : world Scripted :=
  mkWorld [(15, 15)] RIGHT RIGHT None 0 false false true false [15; 15; 3; 4] 0 [] (score_text 0).

Lemma spawn_food_terminates_iff_free_draw_witness :
  exists w', spawn_food_loop 2 respawn_world = (Ok tt, w').
Proof.
  apply (proj1 (spawn_food_terminates_iff_free_draw 2 respawn_world)).
  exists (3, 4). split; vm_decide.
Defined.

End SnakeMove.
