(* ===== verification/SnakeDraw.v ===== *)
(** * The drawing methods of [SnakeGame] (src/snake.py)

    As in [FritesDraw], each drawing method is a function that
    transforms the canvas, its calls chained with [|>] in the order of
    the code: the checkerboard [draw_grid] (900 untagged rectangles), the
    start, pause and game-over screens (tags ["start"], ["pause"],
    ["gameover"]) and [draw_game], which deletes the items tagged
    ["snake"] and ["food"] and draws the food and the snake, the head with
    two eyes turned towards the heading.  The lemmas say what each method
    draws ([adds]) and what [draw_game] leaves of each tag. *)

From stdpp Require Import base list decidable sets strings list_numbers.
From Stdlib Require Import ZArith QArith.
From S2P Require Import Prelude Canvas SnakeMove.

Module SnakeDraw.
Import SnakeMove Canvas.

Local Open Scope string_scope.
Local Open Scope Z_scope.

(** [c |> f] applies the canvas call [f] after those of [c]. *)
Local Notation "c |> f" := (f c) (at level 66, left associativity, only parsing).

Local Notation "'z' n" := (inject_Z n) (at level 9, n at level 9, only parsing).

(** ** Colours (lines 13-19) *)

Definition BG_COLOR : string := "#1a1a2e".
Definition BG_COLOR_ALT : string := "#16213e".
Definition SNAKE_HEAD : string := "#0f3460".
Definition SNAKE_BODY : string := "#16a085".
Definition FOOD_COLOR : string := "#e94560".
Definition TEXT_COLOR : string := "#eee".
Definition ACCENT_COLOR : string := "#f39c12".

(** ** Drawing methods *)

(** One square of the checkerboard (lines 122-130). *)
Definition grid_cell (row col : Z) (c : canvas) : canvas :=
  let x1 := col * GRID_SIZE in
  let y1 := row * GRID_SIZE in
  let x2 := x1 + GRID_SIZE in
  let y2 := y1 + GRID_SIZE in
  let color := if (row + col) mod 2 =? 0 then BG_COLOR_ALT else BG_COLOR in
  c |> create Rectangle [z x1; z y1; z x2; z y2] [("fill", color); ("outline", EmptyString)] [].

(** [draw_grid] (lines 119-130) *)
Definition draw_grid (c : canvas) : canvas :=
  fold_left (fun c row => fold_left (fun c col => grid_cell row col c) (seqZ 0 GRID_WIDTH) c)
    (seqZ 0 GRID_HEIGHT) c.

(** [show_start_screen] (lines 131-148) *)
Definition show_start_screen (c : canvas) : canvas :=
  c |> create TextItem [z (WINDOW_WIDTH / 2); z (WINDOW_HEIGHT / 2 - 40)]
         [("text", "🐍 SNAKE GAME 🐍"); ("font", "Arial 32 bold"); ("fill", ACCENT_COLOR)] ["start"]
    |> create TextItem [z (WINDOW_WIDTH / 2); z (WINDOW_HEIGHT / 2 + 20)]
         [("text", "Appuyez sur une flèche pour commencer"); ("font", "Arial 14"); ("fill", TEXT_COLOR)]
         ["start"].

(** [show_pause_screen] (lines 180-195) *)
Definition show_pause_screen (c : canvas) : canvas :=
  c |> create Rectangle [z 0; z 0; z WINDOW_WIDTH; z WINDOW_HEIGHT]
         [("fill", BG_COLOR); ("stipple", "gray50")] ["pause"]
    |> create TextItem [z (WINDOW_WIDTH / 2); z (WINDOW_HEIGHT / 2)]
         [("text", "⏸ PAUSE"); ("font", "Arial 40 bold"); ("fill", ACCENT_COLOR)] ["pause"].

(** The food and its reflection (lines 252-273). *)
Definition draw_food (food : option cell) (c : canvas) : canvas :=
  match food with
  | Some (x, y) =>
      let margin := 3 in
      c |> create Oval [z (x * GRID_SIZE + margin); z (y * GRID_SIZE + margin);
                        z ((x + 1) * GRID_SIZE - margin); z ((y + 1) * GRID_SIZE - margin)]
             [("fill", FOOD_COLOR); ("outline", EmptyString)] ["food"]
        |> create Oval [z (x * GRID_SIZE + 6); z (y * GRID_SIZE + 6);
                        z (x * GRID_SIZE + 10); z (y * GRID_SIZE + 10)]
             [("fill", "#ff6b81"); ("outline", EmptyString)] ["food"]
  | None => c
  end.

(** The centres of the two eyes of a head at [(x, y)] (lines 293-304). *)
Definition eye_positions (d : cell) (x y : Z) : cell * cell :=
  if bool_decide (d = RIGHT) then ((x * GRID_SIZE + 14, y * GRID_SIZE + 7), (x * GRID_SIZE + 14, y * GRID_SIZE + 13))
  else if bool_decide (d = LEFT) then ((x * GRID_SIZE + 6, y * GRID_SIZE + 7), (x * GRID_SIZE + 6, y * GRID_SIZE + 13))
  else if bool_decide (d = UP) then ((x * GRID_SIZE + 7, y * GRID_SIZE + 6), (x * GRID_SIZE + 13, y * GRID_SIZE + 6))
  else ((x * GRID_SIZE + 7, y * GRID_SIZE + 14), (x * GRID_SIZE + 13, y * GRID_SIZE + 14)).

(** One eye (lines 306-317), [eye_size = 3]. *)
Definition draw_eye (e : cell) (c : canvas) : canvas :=
  c |> create Oval [z (e.1 - 3); z (e.2 - 3); z (e.1 + 3); z (e.2 + 3)] [("fill", "#fff")] ["snake"].

(** The segment [i] of the snake at [(x, y)] (lines 277-317). *)
Definition draw_segment (d : cell) (i : nat) (xy : cell) (c : canvas) : canvas :=
  let '(x, y) := xy in
  let margin := 2 in
  let color := if Nat.eqb i 0 then SNAKE_HEAD else SNAKE_BODY in
  c |> create Rectangle [z (x * GRID_SIZE + margin); z (y * GRID_SIZE + margin);
                         z ((x + 1) * GRID_SIZE - margin); z ((y + 1) * GRID_SIZE - margin)]
         [("fill", color); ("outline", EmptyString)] ["snake"]
    |> (fun c => if Nat.eqb i 0 then
                   let '(e1, e2) := eye_positions d x y in c |> draw_eye e1 |> draw_eye e2
                 else c).

(** [for i, (x, y) in enumerate(self.snake)] (line 276) from index [i]. *)
Fixpoint draw_snake (d : cell) (i : nat) (s : list cell) (c : canvas) : canvas :=
  match s with
  | [] => c
  | xy :: s' => draw_snake d (S i) s' (draw_segment d i xy c)
  end.

(** [draw_game] (lines 247-317) *)
Definition draw_game (food : option cell) (s : list cell) (d : cell) (c : canvas) : canvas :=
  c |> delete ["snake"; "food"]
    |> draw_food food
    |> draw_snake d 0 s.

(** [show_game_over] (lines 319-350) *)
Definition show_game_over (score : Z) (c : canvas) : canvas :=
  c |> create Rectangle [z 0; z 0; z WINDOW_WIDTH; z WINDOW_HEIGHT]
         [("fill", BG_COLOR); ("stipple", "gray50")] ["gameover"]
    |> create TextItem [z (WINDOW_WIDTH / 2); z (WINDOW_HEIGHT / 2 - 60)]
         [("text", "💀 GAME OVER 💀"); ("font", "Arial 36 bold"); ("fill", FOOD_COLOR)] ["gameover"]
    |> create TextItem [z (WINDOW_WIDTH / 2); z (WINDOW_HEIGHT / 2)]
         [("text", "Score Final: " +:+ py_str score); ("font", "Arial 24"); ("fill", TEXT_COLOR)]
         ["gameover"]
    |> create TextItem [z (WINDOW_WIDTH / 2); z (WINDOW_HEIGHT / 2 + 50)]
         [("text", "Appuyez sur R pour rejouer"); ("font", "Arial 16"); ("fill", ACCENT_COLOR)]
         ["gameover"].

(** The snake and the food as [draw_game] draws them on an empty canvas. *)
Definition snake_drawn (d : cell) (s : list cell) : canvas := draw_snake d 0 s [].
Definition food_drawn (food : option cell) : canvas := draw_food food [].

(** ** What each method draws *)

Ltac adds_chain :=
  intros ?; unfold create; split; [rewrite <-!app_assoc; reflexivity|repeat constructor].

Lemma snake_draw_grid_adds : adds [] draw_grid.
Proof.
  apply adds_fold. intros row. apply adds_fold. intros col.
  unfold grid_cell. apply adds_create.
Qed.

Lemma snake_start_screen_adds : adds ["start"] show_start_screen.
Proof. unfold show_start_screen. adds_chain. Qed.

Lemma snake_pause_screen_adds : adds ["pause"] show_pause_screen.
Proof. unfold show_pause_screen. adds_chain. Qed.

Lemma snake_game_over_adds (score : Z) : adds ["gameover"] (show_game_over score).
Proof. unfold show_game_over. adds_chain. Qed.

Lemma draw_food_adds (food : option cell) : adds ["food"] (draw_food food).
Proof. unfold draw_food. destruct food as [[x y]|]; [adds_chain|]. intros c. by rewrite app_nil_r. Qed.

Lemma draw_segment_adds (d : cell) (i : nat) (xy : cell) :
  adds ["snake"] (draw_segment d i xy).
Proof.
  destruct xy as [x y]. unfold draw_segment, draw_eye.
  destruct (Nat.eqb i 0); [destruct (eye_positions d x y) as [e1 e2]|];
    intros ?; unfold create; split.
  all: try (rewrite <-!app_assoc; reflexivity).
  all: repeat constructor.
Qed.

Lemma draw_snake_adds (d : cell) (i : nat) (s : list cell) : adds ["snake"] (draw_snake d i s).
Proof.
  revert i. induction s as [|xy s IH]; intros i; [intros c; by rewrite app_nil_r|].
  apply (adds_compose _ (draw_segment d i xy) (draw_snake d (S i) s)); auto using draw_segment_adds.
Qed.

Lemma snake_start_screen_nonempty (c : canvas) : tagged "start" (show_start_screen c) <> [].
Proof.
  rewrite (adds_tagged_same _ _ _ _ snake_start_screen_adds) by set_solver.
  unfold show_start_screen, create. cbn. by destruct (tagged _ c).
Qed.

Lemma snake_pause_screen_nonempty (c : canvas) : tagged "pause" (show_pause_screen c) <> [].
Proof.
  rewrite (adds_tagged_same _ _ _ _ snake_pause_screen_adds) by set_solver.
  unfold show_pause_screen, create. cbn. by destruct (tagged _ c).
Qed.

Lemma snake_game_over_nonempty (score : Z) (c : canvas) :
  tagged "gameover" (show_game_over score c) <> [].
Proof.
  rewrite (adds_tagged_same _ _ _ _ (snake_game_over_adds score)) by set_solver.
  unfold show_game_over, create. cbn. by destruct (tagged _ c).
Qed.

(** After [draw_game] the snake and the food shown are those given. *)
Lemma draw_game_snake (food : option cell) (s : list cell) (d : cell) (c : canvas) :
  tagged "snake" (draw_game food s d c) = snake_drawn d s.
Proof.
  unfold draw_game. rewrite (adds_tagged_same _ _ _ _ (draw_snake_adds d 0 s)) by set_solver.
  rewrite (adds_tagged_other _ _ _ _ (draw_food_adds food)) by set_solver.
  by rewrite tagged_delete by set_solver.
Qed.

Lemma draw_game_food (food : option cell) (s : list cell) (d : cell) (c : canvas) :
  tagged "food" (draw_game food s d c) = food_drawn food.
Proof.
  unfold draw_game. rewrite (adds_tagged_other _ _ _ _ (draw_snake_adds d 0 s)) by set_solver.
  rewrite (adds_tagged_same _ _ _ _ (draw_food_adds food)) by set_solver.
  by rewrite tagged_delete by set_solver.
Qed.

Lemma draw_game_other (t : string) (food : option cell) (s : list cell) (d : cell) (c : canvas) :
  one_tag c -> t ∉ ["all"; "snake"; "food"] -> tagged t (draw_game food s d c) = tagged t c.
Proof.
  intros Hc Ht. unfold draw_game.
  rewrite (adds_tagged_other _ _ _ _ (draw_snake_adds d 0 s)) by set_solver.
  rewrite (adds_tagged_other _ _ _ _ (draw_food_adds food)) by set_solver.
  apply tagged_delete_one_tag; set_solver.
Qed.

Lemma draw_game_one_tag (food : option cell) (s : list cell) (d : cell) (c : canvas) :
  one_tag c -> one_tag (draw_game food s d c).
Proof.
  intros Hc. unfold draw_game.
  apply (adds_one_tag ["snake"]); [apply draw_snake_adds|done|].
  apply (adds_one_tag ["food"]); [apply draw_food_adds|done|by apply delete_one_tag].
Qed.

Lemma draw_game_untagged (food : option cell) (s : list cell) (d : cell) (c : canvas) :
  untagged (draw_game food s d c) = untagged c.
Proof.
  unfold draw_game. rewrite (adds_untagged_other _ _ _ (draw_snake_adds d 0 s)) by done.
  rewrite (adds_untagged_other _ _ _ (draw_food_adds food)) by done.
  apply untagged_delete. set_solver.
Qed.

(** The canvas of a new window (lines 100-103): the checkerboard and
    the start screen. *)
Lemma snake_start_canvas_other (t : string) :
  t ∉ ["start"] -> tagged t (show_start_screen (draw_grid [])) = [].
Proof.
  intros Ht. rewrite (adds_tagged_other _ _ _ _ snake_start_screen_adds) by done.
  by rewrite (adds_tagged_other _ _ _ _ snake_draw_grid_adds) by set_solver.
Qed.

Lemma snake_start_canvas_one_tag : one_tag (show_start_screen (draw_grid [])).
Proof.
  apply (adds_one_tag ["start"]); [apply snake_start_screen_adds|done|].
  apply (adds_one_tag [] draw_grid []); [apply snake_draw_grid_adds|cbn; lia|constructor].
Qed.

Lemma snake_start_canvas_untagged : untagged (show_start_screen (draw_grid [])) = draw_grid [].
Proof.
  rewrite (adds_untagged_other _ _ _ snake_start_screen_adds) by done.
  by rewrite (adds_untagged_same _ _ snake_draw_grid_adds).
Qed.

(** Proofs about the game keep the drawing calls folded. *)
Arguments draw_grid : simpl never.
Arguments show_start_screen : simpl never.
Arguments show_pause_screen : simpl never.
Arguments draw_game : simpl never.
Arguments show_game_over : simpl never.
Arguments snake_drawn : simpl never.
Arguments food_drawn : simpl never.

End SnakeDraw.
