(* ===== verification/SnakeGame.v ===== *)
(** * The handlers of [SnakeGame] and the Tk main loop

    The methods of src/snake.py that react to events: [game_loop] (the
    timer callback, lines 352-363), [init_game] and [restart_game]
    (lines 150-168), [toggle_pause] (170-178), [change_direction]
    (197-205) and the full-screen toggles (106-117); the binding table
    of the window ([handle], lines 43-44 and 92-98) and one turn of the
    Tk main loop ([tk_step]).  Each drawing call of a handler is a
    [draw] of the [SnakeDraw] function it runs, in the order of the code.
    [game_inv] is the invariant of the game
    object; every callback preserves it, so it holds in every state the
    program reaches, which gives the safety properties of the design
    notes.  The last section shows that [restart_game] leaves the running
    tick chain alive. *)

From stdpp Require Import base list decidable sets relations strings.
From Stdlib Require Import ZArith Lia.
From S2P Require Import Prelude PyRandom Deque Canvas SnakeMove SnakeDraw.

Module SnakeGame.
Import SnakeMove.
Local Open Scope Z_scope.
Local Open Scope py_scope.

Section Game.
Context {R : Type} `{RandInt R}.
Local Abbreviation world := (world R).

(** [__init__] (lines 30-104): empty deque, heading right, nothing
    scheduled, the label "Score: 0", the checkerboard and the start
    screen. *)
Definition init_world (r : R) : world :=
  mkWorld [] RIGHT RIGHT None 0 false false false false r 0
    (SnakeDraw.show_start_screen (SnakeDraw.draw_grid [])) "Score: 0".
(** [self.root.after(GAME_SPEED, self.game_loop)] *)
Definition schedule_game_loop : PyM world unit :=
  modify (fun w => set_pending (S (pending w)) w).

(** ** Methods *)

(** [toggle_fullscreen] (lines 106-110) *)
Definition toggle_fullscreen : PyM world unit :=
  modify (fun w => set_is_fullscreen (negb (is_fullscreen w)) w).

(** [exit_fullscreen] (lines 112-117) *)
Definition exit_fullscreen : PyM world unit :=
  w <- get ;;
  if is_fullscreen w then modify (set_is_fullscreen false) else ret tt.

Variable fuel : nat.

(** [game_loop] (lines 352-363) *)
Definition game_loop : PyM world unit :=
  w <- get ;;
  if game_over w || paused w then ret tt
  else
    moved <- move_snake fuel ;;
    if negb moved then
      modify (set_game_over true) ;;
      w <- get ;;
      draw (SnakeDraw.show_game_over (score w))
    else
      w <- get ;;
      draw (SnakeDraw.draw_game (food_pos w) (snake w) (direction w)) ;;
      schedule_game_loop.

(** The assignments of [init_game] (lines 152-158). *)
Definition init_fields (w : world) : world :=
  set_game_started true (set_paused false (set_game_over false
    (set_score 0 (set_next_direction RIGHT (set_direction RIGHT
      (set_snake [(GRID_WIDTH / 2, GRID_HEIGHT / 2)] w)))))).

(** [init_game] (lines 150-162) *)
Definition init_game : PyM world unit :=
  modify init_fields ;;
  update_score ;;
  spawn_food fuel ;;
  draw (Canvas.delete ["start"; "gameover"; "pause"]) ;;
  game_loop.

(** [restart_game] (lines 164-168) *)
Definition restart_game : PyM world unit :=
  draw (Canvas.delete ["all"]) ;;
  draw SnakeDraw.draw_grid ;;
  init_game.

(** [toggle_pause] (lines 170-178) *)
Definition toggle_pause : PyM world unit :=
  w <- get ;;
  if game_started w && negb (game_over w) then
    modify (fun w => set_paused (negb (paused w)) w) ;;
    w <- get ;;
    if paused w then draw SnakeDraw.show_pause_screen
    else draw (Canvas.delete ["pause"]) ;; game_loop
  else ret tt.

(** The heading the code compares against in [change_direction]:
    [(new_direction[0] * -1, new_direction[1] * -1)] (line 204). *)
Definition opposite (d : cell) : cell := (d.1 * -1, d.2 * -1).

(** [change_direction] (lines 197-205) *)
Definition change_direction (new_direction : cell) : PyM world unit :=
  w <- get ;;
  if negb (game_started w) then init_game
  else if bool_decide (opposite new_direction <> direction w)
  then modify (set_next_direction new_direction)
  else ret tt.

(** ** The Tk main loop *)

(** Events the window reacts to: the key bindings and the firing of a
    timer registered with [after]. *)
Inductive event : Type :=
  | KeyUp | KeyDown | KeyLeft | KeyRight | KeySpace
  | Key_r | Key_R | KeyF11 | KeyEscape
  | TimerFire.

(** A timer fires only when one is pending; it is removed from the
    queue before its callback runs. *)
Definition fire_timer : PyM world unit :=
  w <- get ;;
  match pending w with
  | O => ret tt
  | S n => modify (set_pending n) ;; game_loop
  end.

Definition handle (e : event) : PyM world unit :=
  match e with
  | KeyUp => change_direction UP
  | KeyDown => change_direction DOWN
  | KeyLeft => change_direction LEFT
  | KeyRight => change_direction RIGHT
  | KeySpace => toggle_pause
  | Key_r | Key_R => restart_game
  | KeyF11 => toggle_fullscreen
  | KeyEscape => exit_fullscreen
  | TimerFire => fire_timer
  end.

(** One turn of the main loop: a callback runs to its end.  An
    exception escaping a callback is reported by Tk and the loop goes
    on with the state as mutated; a callback that does not return
    ([NonTermination]) blocks the loop, so it takes no step. *)
Inductive tk_step : world -> world -> Prop :=
  | tk_step_event e w r w' :
      handle e w = (r, w') -> r <> Exc NonTermination -> tk_step w w'.

(** States the program can reach from its start. *)
Definition reachable (w : world) : Prop :=
  exists r0, rtc tk_step (init_world r0) w.

(** Running a list of events, stopping at the first non-terminating
    callback. *)
Fixpoint run_events (es : list event) (w : world) : option world :=
  match es with
  | [] => Some w
  | e :: es' =>
      match handle e w with
      | (Exc NonTermination, _) => None
      | (_, w') => run_events es' w'
      end
  end.
End Game.

(** ** Headings *)

Lemma opposite_involutive (d : cell) : opposite (opposite d) = d.
Proof. destruct d as [x y]. unfold opposite; cbn. f_equal; lia. Qed.

Lemma is_dir_not_opposite (d : cell) : is_dir d -> d <> opposite d.
Proof.
  unfold opposite. intros [ -> | [ -> | [ -> | -> ]]]; cbn; intros [=].
Qed.

#[export] Hint Resolve is_dir_not_opposite : game.

(** ** The invariant of the game object *)

Section Inv.
Context {R : Type} `{RandIntLaws R}.
Variable fuel : nat.

Local Arguments removelast : simpl never.
Local Arguments new_head_of : simpl never.

Local Arguments move_snake : simpl never.
Local Arguments spawn_food : simpl never.
Local Arguments game_loop : simpl never.

Record game_inv (w : world R) : Prop := {
  inv_dir : is_dir (direction w);
  inv_next_dir : is_dir (next_direction w);
  inv_no_reverse : next_direction w <> opposite (direction w);
  inv_not_paused_over : ~ (paused w = true /\ game_over w = true);
  inv_idle : game_started w = false ->
             snake w = [] /\ pending w = 0%nat /\ game_over w = false /\ paused w = false;
  inv_started : game_started w = true ->
                snake_wf (snake w) /\ food_ok (snake w) (food_pos w) /\
                score w = 10 * (Z.of_nat (length (snake w)) - 1)
}.

Lemma snake_wf_grow (nh hd : cell) (tl : list cell) :
  snake_wf (hd :: tl) -> in_grid nh -> nh ∉ hd :: tl -> adjacent nh hd ->
  snake_wf (nh :: hd :: tl).
Proof.
  intros [_ Hnd Hg Hc] Hnh Hfree Hadj. split.
  - done.
  - by apply NoDup_cons.
  - by constructor.
  - by split.
Qed.

Lemma snake_wf_step (nh hd : cell) (tl : list cell) :
  snake_wf (hd :: tl) -> in_grid nh -> nh ∉ hd :: tl -> adjacent nh hd ->
  snake_wf (removelast (nh :: hd :: tl)).
Proof.
  intros Hwf Hnh Hfree Hadj.
  destruct (snake_wf_grow nh hd tl Hwf Hnh Hfree Hadj) as [_ Hnd Hg Hc].
  split; auto with game.
Qed.

Lemma food_ok_step (nh : cell) (s : list cell) food :
  food_ok s food -> food <> Some nh -> food_ok (removelast (nh :: s)) food.
Proof.
  intros (f & -> & Hf & Hg) Hne. exists f. split; [done|]. split; [|done].
  intros Hin%elem_of_removelast. apply elem_of_cons in Hin as [->|Hin]; [done|].
  by apply Hf.
Qed.

(** A blocked move ends the game with the heading committed. *)
Lemma game_inv_blocked (w : world R) :
  game_inv w -> game_started w = true -> paused w = false ->
  game_inv (set_game_over true (turned w)).
Proof.
  intros [Hd Hn Hr Hpo Hidle Hst] Hs Hp. unfold turned.
  constructor; cbn; auto with game; flags_solver.
Qed.

(** The display fields play no part in the invariant. *)
Lemma game_inv_set_canvas (w : world R) c : game_inv w -> game_inv (set_canvas c w).
Proof. intros []. by constructor. Qed.
Lemma game_inv_set_score_label (w : world R) l : game_inv w -> game_inv (set_score_label l w).
Proof. intros []. by constructor. Qed.

#[local] Hint Resolve game_inv_set_canvas game_inv_set_score_label : game.

Lemma game_inv_set_pending (w : world R) n :
  game_inv w -> game_started w = true -> game_inv (set_pending n w).
Proof.
  intros [Hd Hn Hr Hpo Hidle Hst] Hs. constructor; cbn; auto; flags_solver.
Qed.

(** Eating: the snake grows by the candidate head, ten points are
    scored and the food moves to a free cell. *)
Lemma game_inv_eat (w : world R) hd tl f g :
  game_inv w -> game_started w = true -> snake w = hd :: tl ->
  in_grid (new_head_of hd (next_direction w)) ->
  new_head_of hd (next_direction w) ∉ snake w ->
  f ∉ new_head_of hd (next_direction w) :: snake w -> in_grid f ->
  game_inv (set_rng g (set_food_pos (Some f) (set_score_label (score_text (score w + 10))
    (set_score (score w + 10)
      (set_snake (new_head_of hd (next_direction w) :: snake w) (turned w)))))).
Proof.
  intros [Hd Hn Hr Hpo Hidle Hst] Hs Hsn Hg Hfree Hf Hfg.
  destruct (Hst Hs) as (Hwf & _ & Hscore).
  constructor; cbn; auto with game; [flags_solver|]. intros _.
  rewrite Hsn in *. split; [|split].
  - apply snake_wf_grow; auto with game.
  - by exists f.
  - cbn [length] in *. lia.
Qed.

(** Moving without eating: the head is pushed and the tail popped. *)
Lemma game_inv_step (w : world R) hd tl :
  game_inv w -> game_started w = true -> snake w = hd :: tl ->
  in_grid (new_head_of hd (next_direction w)) ->
  new_head_of hd (next_direction w) ∉ snake w ->
  food_pos w <> Some (new_head_of hd (next_direction w)) ->
  game_inv (set_snake (removelast (new_head_of hd (next_direction w) :: snake w)) (turned w)).
Proof.
  intros [Hd Hn Hr Hpo Hidle Hst] Hs Hsn Hg Hfree Hf.
  destruct (Hst Hs) as (Hwf & Hfood & Hscore).
  constructor; cbn; auto with game; [flags_solver|]. intros _.
  split; [|split].
  - rewrite Hsn in *. apply snake_wf_step; auto with game.
  - by apply food_ok_step.
  - rewrite length_removelast_cons. done.
Qed.

(** [game_loop] on a started game keeps the invariant and returns
    normally: [move_snake] never meets an empty deque. *)
Lemma game_loop_inv (w : world R) r w' :
  game_inv w -> game_started w = true ->
  game_loop fuel w = (r, w') -> r <> Exc NonTermination ->
  r = Ok tt /\ game_inv w'.
Proof.
  intros Hi Hs. unfold game_loop, schedule_game_loop. py_run.
  destruct (game_over w || paused w) eqn:Hgp.
  { injection 1 as <- <-. done. }
  apply orb_false_iff in Hgp as [Hgo Hp].
  destruct (move_snake fuel w) as [m w1] eqn:Hm.
  apply move_snake_spec in Hm.
  destruct (inv_started _ Hi Hs) as ([Hne _ _ _] & _ & _).
  inversion Hm; subst; cbn; intros Hrun Hnt; injection Hrun as <- <-;
    try done; split; try done.
  all: try apply game_inv_set_pending; try done; repeat apply game_inv_set_canvas.
  - by apply game_inv_blocked.
  - by apply game_inv_blocked.
  - by eapply game_inv_eat.
  - by eapply game_inv_step.
Qed.

Local Arguments init_fields : simpl never.

(** The object [init_game] builds before its first tick. *)
Lemma game_inv_init (w : world R) l f g :
  f ∉ snake (init_fields w) -> in_grid f ->
  game_inv (set_rng g (set_food_pos (Some f) (set_score_label l (init_fields w)))).
Proof.
  unfold init_fields; cbn. intros Hf Hg.
  constructor; cbn; try (right; right; right; done); try flags_solver.
  - unfold opposite, RIGHT. cbn. intros [=].
  - intros _. split; [|split].
    + split; [done|apply NoDup_singleton|repeat constructor; cbn; done|done].
    + by exists f.
    + done.
Qed.

(** [init_game] (hence [restart_game]) ends in a state satisfying the
    invariant, whatever the object was before. *)
Lemma init_game_inv (w : world R) r w' :
  init_game fuel w = (r, w') -> r <> Exc NonTermination ->
  r = Ok tt /\ game_inv w'.
Proof.
  unfold init_game, spawn_food, update_score, draw. py_run.
  destruct (spawn_food_loop fuel _) as [r1 w1] eqn:Hsp.
  apply spawn_food_loop_spec in Hsp as [[-> (f & g & -> & Hf & Hg)]|[-> (g & ->)]].
  - intros Hrun Hnt. eapply game_loop_inv; [| |exact Hrun|exact Hnt].
    + by apply game_inv_set_canvas, game_inv_init.
    + done.
  - cbn. injection 1 as <- <-. done.
Qed.

Lemma game_inv_set_paused (w : world R) b :
  game_inv w -> game_started w = true -> game_over w = false ->
  game_inv (set_paused b w).
Proof.
  intros [Hd Hn Hr Hpo Hidle Hst] Hs Ho. constructor; cbn; auto; flags_solver.
Qed.

Lemma game_inv_set_next (w : world R) d :
  game_inv w -> is_dir d -> opposite d <> direction w ->
  game_inv (set_next_direction d w).
Proof.
  intros [Hd Hn Hr Hpo Hidle Hst] Hdir Hop. constructor; cbn; auto.
  intros ->. apply Hop, opposite_involutive.
Qed.

Lemma game_inv_set_fullscreen (w : world R) b :
  game_inv w -> game_inv (set_is_fullscreen b w).
Proof. intros [Hd Hn Hr Hpo Hidle Hst]. constructor; cbn; auto. Qed.

Lemma toggle_pause_inv (w : world R) r w' :
  game_inv w -> toggle_pause fuel w = (r, w') -> r <> Exc NonTermination ->
  r = Ok tt /\ game_inv w'.
Proof.
  intros Hi. unfold toggle_pause. py_run.
  destruct (game_started w) eqn:Hs, (game_over w) eqn:Ho; cbn;
    try (injection 1 as <- <-; done).
  destruct (paused w); cbn.
  - apply game_loop_inv; [by apply game_inv_set_canvas, game_inv_set_paused|done].
  - injection 1 as <- <-. split; [done|]. by apply game_inv_set_canvas, game_inv_set_paused.
Qed.

Lemma change_direction_inv (w : world R) d r w' :
  game_inv w -> is_dir d -> change_direction fuel d w = (r, w') ->
  r <> Exc NonTermination -> r = Ok tt /\ game_inv w'.
Proof.
  intros Hi Hd. unfold change_direction. py_run.
  destruct (game_started w); cbn; [|apply init_game_inv].
  case_bool_decide; injection 1 as <- <-; split; try done.
  by apply game_inv_set_next.
Qed.

Lemma fire_timer_inv (w : world R) r w' :
  game_inv w -> fire_timer fuel w = (r, w') -> r <> Exc NonTermination ->
  r = Ok tt /\ game_inv w'.
Proof.
  intros Hi. unfold fire_timer. py_run.
  destruct (pending w) as [|n] eqn:Hp; [injection 1 as <- <-; done|].
  destruct (game_started w) eqn:Hs.
  - apply game_loop_inv; [by apply game_inv_set_pending|done].
  - destruct (inv_idle _ Hi Hs) as (_ & Hp0 & _). congruence.
Qed.

(** Every callback, run on an object satisfying the invariant, returns
    normally (no [IndexError] escapes) and keeps the invariant. *)
Lemma handle_inv (w : world R) e r w' :
  game_inv w -> handle fuel e w = (r, w') -> r <> Exc NonTermination ->
  r = Ok tt /\ game_inv w'.
Proof.
  intros Hi. destruct e; cbn [handle].
  1-4: apply change_direction_inv; [done|unfold is_dir; tauto].
  - by apply toggle_pause_inv.
  - apply init_game_inv.
  - apply init_game_inv.
  - unfold toggle_fullscreen, modify. injection 1 as <- <-.
    split; [done|]. by apply game_inv_set_fullscreen.
  - unfold exit_fullscreen. py_run. destruct (is_fullscreen w);
      injection 1 as <- <-; split; try done. by apply game_inv_set_fullscreen.
  - by apply fire_timer_inv.
Qed.

Lemma game_inv_init_world (r0 : R) : game_inv (init_world r0).
Proof.
  constructor; cbn; try (right; right; right; done); try flags_solver.
  unfold opposite, RIGHT. cbn. intros [=].
Qed.

Lemma tk_step_inv (w w' : world R) :
  game_inv w -> tk_step fuel w w' -> game_inv w'.
Proof.
  intros Hi Hstep. inversion Hstep as [e w0 r w1 Hh Hnt]; subst.
  by destruct (handle_inv _ _ _ _ Hi Hh Hnt).
Qed.

Lemma reachable_game_inv_all (w : world R) :
  reachable fuel w -> game_inv w.
Proof.
  intros [r0 Hrtc]. remember (init_world r0) as w0 eqn:E.
  assert (game_inv w0) as Hi0 by (subst; apply game_inv_init_world).
  clear E. induction Hrtc; eauto using tk_step_inv.
Qed.

Lemma run_events_rtc (es : list event) (w w' : world R) :
  run_events fuel es w = Some w' -> rtc (tk_step fuel) w w'.
Proof.
  revert w. induction es as [|e es IH]; intros w; cbn.
  - injection 1 as ->. apply rtc_refl.
  - destruct (handle fuel e w) as [r w1] eqn:Hh.
    destruct r as [a|[]]; intros Hrun; try discriminate;
      (eapply rtc_l; [econstructor; [exact Hh|discriminate]|auto]).
Qed.

Lemma run_events_inv (es : list event) (r0 : R) (w : world R) :
  run_events fuel es (init_world r0) = Some w -> game_inv w.
Proof. intros Hrun. apply reachable_game_inv_all. exists r0. by apply (run_events_rtc es). Qed.
End Inv.

(** ** Properties of every reachable state *)

Section Reachable.
Context {R : Type} `{RandIntLaws R}.

(** C1: after any sequence of events from the start of the program,
    once a game has started the snake is non-empty, has no duplicate
    cell, lies inside the 30x30 grid, and each cell is orthogonally
    adjacent to the next. *)
Theorem snake_wf_after_events fuel (es : list event) (r0 : R) (w : world R) :
  run_events fuel es (init_world r0) = Some w -> game_started w = true ->
  snake_wf (snake w).
Proof. intros Hrun Hs. apply (inv_started _ (run_events_inv fuel es r0 w Hrun) Hs). Qed.

(** C2: after any sequence of events, once a game has started the food
    is a cell of the grid that the snake does not occupy. *)
Theorem food_off_snake_after_events fuel (es : list event) (r0 : R) (w : world R) :
  run_events fuel es (init_world r0) = Some w -> game_started w = true ->
  exists f, food_pos w = Some f /\ (f ∉ snake w) /\ in_grid f.
Proof. intros Hrun Hs. apply (inv_started _ (run_events_inv fuel es r0 w Hrun) Hs). Qed.

(** C3: after any sequence of events, once a game has started the score
    is ten points for each cell the snake has grown beyond its initial
    single cell. *)
Theorem score_tracks_length_after_events fuel (es : list event) (r0 : R) (w : world R) :
  run_events fuel es (init_world r0) = Some w -> game_started w = true ->
  score w = 10 * (Z.of_nat (length (snake w)) - 1).
Proof. intros Hrun Hs. apply (inv_started _ (run_events_inv fuel es r0 w Hrun) Hs). Qed.

(** C39: the score of a started game stays within [0, 8980] and its
    snake within [1, 899] cells: the cells of the snake are distinct
    cells of the 30x30 grid and one more, the food, is free, so the
    snake grows at most 898 times by ten points. *)
Theorem score_bounded_after_events fuel (es : list event) (r0 : R) (w : world R) :
  run_events fuel es (init_world r0) = Some w -> game_started w = true ->
  0 <= score w <= 8980 /\ (1 <= length (snake w) <= 899)%nat.
Proof.
  intros Hrun Hs. destruct (inv_started _ (run_events_inv fuel es r0 w Hrun) Hs) as (Hwf & Hf & ->).
  pose proof (length_le_free_cell _ _ Hwf Hf). pose proof (wf_nonempty _ Hwf).
  destruct (snake w); [done|]. cbn in *. lia.
Qed.

(** C6: in any reachable state every callback (key handler or timer)
    returns normally: no [IndexError] from [self.snake[0]] or
    [self.snake.pop()] ever escapes. *)
Theorem callbacks_return_normally fuel (es : list event) (r0 : R) (w : world R)
    (e : event) r w' :
  run_events fuel es (init_world r0) = Some w ->
  handle fuel e w = (r, w') -> r <> Exc NonTermination -> r = Ok tt.
Proof. intros Hrun Hh Hnt. by destruct (handle_inv fuel w e r w' (run_events_inv fuel es r0 w Hrun) Hh Hnt). Qed.
End Reachable.

(** ** Ticks, headings and restarts *)

Section Tick.
Context {R : Type} `{RandIntLaws R}.
Variable fuel : nat.

Local Arguments move_snake : simpl never.
Local Arguments game_loop : simpl never.
Local Arguments removelast : simpl never.

(** A call of [game_loop] leaves the committed heading as it was or
    commits the buffered one. *)
Lemma game_loop_direction (w w' : world R) r :
  game_loop fuel w = (r, w') ->
  direction w' = direction w \/ direction w' = next_direction w.
Proof.
  unfold game_loop, schedule_game_loop. py_run.
  destruct (game_over w || paused w); [injection 1 as <- <-; by left|].
  destruct (move_snake fuel w) as [[[|]|e] w1] eqn:Hm;
    apply move_snake_spec, move_result_direction in Hm;
    cbn; injection 1 as <- <-; by right.
Qed.

(** C4: a timer tick never commits the exact reverse of the heading
    committed before it (design notes, section 3), in every state the
    program reaches. *)
Theorem tick_never_reverses (es : list event) (r0 : R) (w : world R) r w' :
  run_events fuel es (init_world r0) = Some w ->
  fire_timer fuel w = (r, w') -> direction w' <> opposite (direction w).
Proof.
  intros Hrun. pose proof (run_events_inv fuel es r0 w Hrun) as Hi.
  unfold fire_timer. py_run.
  destruct (pending w) as [|n]; [injection 1 as <- <-; by apply is_dir_not_opposite, Hi|].
  intros [Hd|Hd]%game_loop_direction; cbn in Hd; rewrite Hd;
    [by apply is_dir_not_opposite, Hi|apply Hi].
Qed.

(** C8: once a game has started, an arrow key whose reverse is the
    committed heading is ignored; any other arrow only buffers the new
    heading for the next tick. *)
Theorem change_direction_started (w : world R) (d : cell) :
  game_started w = true ->
  change_direction fuel d w =
    (Ok tt, if bool_decide (opposite d = direction w) then w else set_next_direction d w).
Proof.
  intros Hs. unfold change_direction. py_run. rewrite Hs. cbn.
  case_bool_decide as Hne; case_bool_decide; try done; tauto.
Qed.

(** [init_game]'s first tick always succeeds: from the centre heading
    right the snake moves to a free cell of the grid, and the next tick
    is scheduled. *)
Lemma init_game_run (w w' : world R) :
  init_game fuel w = (Ok tt, w') ->
  game_started w' = true /\ game_over w' = false /\ paused w' = false /\
  pending w' = S (pending w).
Proof.
  unfold init_game, spawn_food, update_score, draw. py_run.
  destruct (spawn_food_loop fuel _) as [r1 w1] eqn:Hsp.
  apply spawn_food_loop_spec in Hsp as [[-> (f & g & -> & Hf & Hg)]|[-> (g & ->)]];
    [|discriminate].
  unfold game_loop, schedule_game_loop, draw. py_run.
  destruct (move_snake fuel _) as [m w2] eqn:Hm. apply move_snake_spec in Hm.
  inversion Hm as [Hs|hd tl Hs Hw|hd tl Hs Hg' Hself| | |]; subst; cbn in *.
  - discriminate.
  - injection Hs as <- <-. exfalso. apply Hw.
    unfold in_grid, new_head_of, RIGHT. rewrite GRID_WIDTH_eq, GRID_HEIGHT_eq. cbn. zlia.
  - injection Hs as <- <-. exfalso. apply list_elem_of_singleton in Hself.
    unfold new_head_of in Hself. injection Hself. zlia.
  - injection 1 as <-. done.
  - discriminate.
  - injection 1 as <-. done.
Qed.

(** Drawing leaves the pending timers alone. *)
Lemma pending_set_canvas (w : world R) c : pending (set_canvas c w) = pending w.
Proof. reflexivity. Qed.

(** C9: [restart_game] runs a first tick at once and schedules the
    next one, without cancelling the timer already pending: each
    restart adds one [game_loop] callback to the Tk queue, so a restart
    during a running game leaves two tick chains alive (the snake then
    moves twice per [GAME_SPEED] period). *)
Theorem restart_adds_tick_chain (w w' : world R) :
  restart_game fuel w = (Ok tt, w') -> pending w' = S (pending w).
Proof.
  unfold restart_game. rewrite !draw_bind. intros (_ & _ & _ & Hp)%init_game_run.
  by rewrite Hp, !pending_set_canvas.
Qed.

(** C38: the pause overlay is a round trip: pressing space on a running
    game draws the overlay (lines 174-175), and deleting the tag "pause",
    what resuming does first (line 177), gives back exactly the canvas of
    before. *)
Theorem pause_overlay_roundtrip (w : world R) :
  game_started w = true -> game_over w = false -> paused w = false ->
  Canvas.tagged "pause" (canvas w) = [] ->
  let w1 := snd (toggle_pause fuel w) in
  paused w1 = true /\ Canvas.tagged "pause" (canvas w1) <> [] /\
  Canvas.delete ["pause"] (canvas w1) = canvas w.
Proof.
  intros Hs Ho Hp Hc. cbn zeta. unfold toggle_pause, draw. py_run. rewrite Hs, Ho. cbn. rewrite ?Hp. cbn.
  split; [done|split; [apply SnakeDraw.snake_pause_screen_nonempty|]].
  apply Canvas.delete_adds; [apply SnakeDraw.snake_pause_screen_adds|done|done].
Qed.
End Tick.

(** ** Concrete runs *)

(** Start with the right arrow, eat the food placed two cells to the
    right, turn down and move twice. *)
Definition demo_events : list event := [KeyRight; TimerFire; KeyDown; TimerFire; TimerFire].
Definition demo_seed : Scripted := [17; 15; 3; 4].
Definition demo_world : world Scripted :=
  default (init_world demo_seed) (run_events 10 demo_events (init_world demo_seed)).

Lemma demo_run : run_events 10 demo_events (init_world demo_seed) = Some demo_world.
Proof. vm_compute. reflexivity. Qed.

Lemma snake_wf_after_events_witness :
  game_started demo_world = true /\ snake_wf (snake demo_world).
Proof.
  split; [vm_compute; reflexivity|].
  apply (snake_wf_after_events 10 demo_events demo_seed); [vm_compute; reflexivity|vm_compute; reflexivity].
Defined.

Lemma food_off_snake_after_events_witness :
  exists f, food_pos demo_world = Some f /\ (f ∉ snake demo_world) /\ in_grid f.
Proof.
  apply (food_off_snake_after_events 10 demo_events demo_seed); [vm_compute; reflexivity|vm_compute; reflexivity].
Defined.

Lemma score_tracks_length_after_events_witness :
  score demo_world = 10 /\ score demo_world = 10 * (Z.of_nat (length (snake demo_world)) - 1).
Proof.
  split; [vm_compute; reflexivity|].
  apply (score_tracks_length_after_events 10 demo_events demo_seed); [vm_compute; reflexivity|vm_compute; reflexivity].
Defined.

Lemma score_bounded_after_events_witness :
  (0 <= score demo_world <= 8980 /\ (1 <= length (snake demo_world) <= 899)%nat).
Proof.
  apply (score_bounded_after_events 10 demo_events demo_seed); [vm_compute; reflexivity|vm_compute; reflexivity].
Defined.

Lemma callbacks_return_normally_witness :
  fst (handle 10 TimerFire demo_world) = Ok tt.
Proof.
  apply (callbacks_return_normally 10 demo_events demo_seed demo_world TimerFire _ (snd (handle 10 TimerFire demo_world)));
    [vm_compute; reflexivity|vm_compute; reflexivity|vm_compute; discriminate].
Defined.
Lemma tick_never_reverses_witness :
  direction (snd (fire_timer 10 demo_world)) <> opposite (direction demo_world).
Proof.
  apply (tick_never_reverses 10 demo_events demo_seed demo_world (fst (fire_timer 10 demo_world)));
    [vm_compute; reflexivity|vm_compute; reflexivity].
Defined.

(** The scenario of section 8: heading right, the left arrow is ignored. *)
Lemma change_direction_started_witness :
  change_direction 10 LEFT scenario_world = (Ok tt, scenario_world).
Proof.
  rewrite (change_direction_started 10 scenario_world LEFT) by (vm_compute; reflexivity).
  vm_compute. reflexivity.
Defined.

(** Start the game with an arrow (one tick chain), then press r: two
    [game_loop] callbacks are pending. *)
Definition started_world : world Scripted :=
  default (init_world demo_seed) (run_events 10 [KeyRight] (init_world demo_seed)).

Lemma restart_adds_tick_chain_witness :
  pending started_world = 1%nat /\ pending (snd (restart_game 10 started_world)) = 2%nat.
Proof.
  split; [vm_compute; reflexivity|].
  apply (restart_adds_tick_chain 10 started_world). vm_compute. reflexivity.
Defined.

(** Pausing the demo game and deleting the overlay restores its canvas. *)
Lemma pause_overlay_roundtrip_witness :
  paused (snd (toggle_pause 10 demo_world)) = true /\
  Canvas.tagged "pause" (canvas (snd (toggle_pause 10 demo_world))) <> [] /\
  Canvas.delete ["pause"] (canvas (snd (toggle_pause 10 demo_world))) = canvas demo_world.
Proof.
  apply (pause_overlay_roundtrip 10 demo_world);
    [vm_compute; reflexivity|vm_compute; reflexivity|vm_compute; reflexivity|vm_compute; reflexivity].
Defined.

End SnakeGame.
