(* ===== verification/SnakeSpec.v ===== *)
(** * What [SnakeGame] promises, and where it does not keep it

    - Refinement: a tick of the code implements the advance function of
      the design notes (section 4.1), and every callback moves the game's
      status along the state machine of sections 4.2, 5 and 7. *)


From stdpp Require Import base list decidable sets relations.
From Stdlib Require Import ZArith Lia.
From S2P Require Import Prelude PyRandom Deque SnakeMove SnakeDraw SnakeGame.

Module SnakeSpec.
Import SnakeMove SnakeGame.
Local Open Scope Z_scope.

(** ** The abstract game of the design notes *)

(** Section 3: the status of a game. *)
Inductive status : Type := NotStarted | Running | PausedSt | Over.

#[export] Instance status_eq_dec : EqDecision status.
Proof. solve_decision. Qed.

(** Section 3: body (head first), committed and buffered headings, food,
    score, status. *)
Record abs_game := AbsGame {
  a_body : list cell;
  a_heading : cell;
  a_pending : cell;
  a_food : option cell;
  a_score : Z;
  a_status : status
}.

(** Section 4.1, the advance function, as a relation: the relocated food
    is any free cell of the grid. *)
Inductive advance (g g' : abs_game) : Prop :=
  | adv_collide hd tl :
      a_status g = Running -> a_body g = hd :: tl ->
      (~ in_grid (new_head_of hd (a_pending g)) \/ new_head_of hd (a_pending g) ∈ a_body g) ->
      a_body g' = a_body g -> a_heading g' = a_pending g -> a_pending g' = a_pending g ->
      a_food g' = a_food g -> a_score g' = a_score g -> a_status g' = Over ->
      advance g g'
  | adv_grow hd tl f :
      a_status g = Running -> a_body g = hd :: tl ->
      in_grid (new_head_of hd (a_pending g)) -> new_head_of hd (a_pending g) ∉ a_body g ->
      a_food g = Some (new_head_of hd (a_pending g)) ->
      f ∉ a_body g' -> in_grid f ->
      a_body g' = new_head_of hd (a_pending g) :: a_body g ->
      a_heading g' = a_pending g -> a_pending g' = a_pending g ->
      a_food g' = Some f -> a_score g' = a_score g + 10 -> a_status g' = Running ->
      advance g g'
  | adv_shift hd tl :
      a_status g = Running -> a_body g = hd :: tl ->
      in_grid (new_head_of hd (a_pending g)) -> new_head_of hd (a_pending g) ∉ a_body g ->
      a_food g <> Some (new_head_of hd (a_pending g)) ->
      a_body g' = removelast (new_head_of hd (a_pending g) :: a_body g) ->
      a_heading g' = a_pending g -> a_pending g' = a_pending g ->
      a_food g' = a_food g -> a_score g' = a_score g -> a_status g' = Running ->
      advance g g'.

Definition is_arrow (e : event) : Prop :=
  e = KeyUp \/ e = KeyDown \/ e = KeyLeft \/ e = KeyRight.

(** Sections 4.2, 5 and 7: how inputs and ticks move the status. *)
Inductive status_step : event -> status -> status -> Prop :=
  | ss_start e : is_arrow e -> status_step e NotStarted Running
  | ss_arrow e s : is_arrow e -> s <> NotStarted -> status_step e s s
  | ss_restart e s : e = Key_r \/ e = Key_R -> status_step e s Running
  | ss_pause : status_step KeySpace Running PausedSt
  | ss_resume s' : s' = Running \/ s' = Over -> status_step KeySpace PausedSt s'
  | ss_space_idle s : s = NotStarted \/ s = Over -> status_step KeySpace s s
  | ss_tick s' : s' = Running \/ s' = Over -> status_step TimerFire Running s'
  | ss_tick_idle s : s <> Running -> status_step TimerFire s s
  | ss_window e s : e = KeyF11 \/ e = KeyEscape -> status_step e s s.

Section Refinement.
Context {R : Type} `{RandIntLaws R}.
Variable fuel : nat.

Local Arguments move_snake : simpl never.
Local Arguments game_loop : simpl never.
Local Arguments init_game : simpl never.

(** The status the three flags of [SnakeGame] encode. *)
Definition status_of (w : world R) : status :=
  if negb (game_started w) then NotStarted
  else if game_over w then Over
  else if paused w then PausedSt
  else Running.

Definition abs (w : world R) : abs_game :=
  AbsGame (snake w) (direction w) (next_direction w) (food_pos w) (score w) (status_of w).

Lemma status_of_running (w : world R) :
  status_of w = Running <-> game_started w = true /\ game_over w = false /\ paused w = false.
Proof.
  unfold status_of. destruct (game_started w), (game_over w), (paused w); cbn; split; flags_solver.
Qed.

(** A call of [game_loop] on a running game: the move of [move_snake]
    and the flag it sets. *)
Lemma game_loop_running (w w' : world R) r :
  game_started w = true -> game_over w = false -> paused w = false ->
  game_loop fuel w = (r, w') ->
  exists m w1, move_result w m w1 /\
    match m with
    | Ok false => r = Ok tt /\
        w' = set_canvas (SnakeDraw.show_game_over (score w1) (canvas w1)) (set_game_over true w1)
    | Ok true => r = Ok tt /\
        w' = set_pending (S (pending w1))
               (set_canvas (SnakeDraw.draw_game (food_pos w1) (snake w1) (direction w1) (canvas w1)) w1)
    | Exc e => r = Exc e /\ w' = w1
    end.
Proof.
  intros Hs Ho Hp Hloop. unfold game_loop, schedule_game_loop, draw in Hloop. py_run.
  rewrite Ho, Hp in Hloop. cbn in Hloop.
  destruct (move_snake fuel w) as [m w1] eqn:Hm. apply move_snake_spec in Hm.
  exists m, w1. split; [done|].
  destruct m as [[|]|e]; cbn in Hloop; injection Hloop as <- <-; done.
Qed.

(** C12: refinement.  On every reachable running game, a tick of the
    code ([game_loop]) that returns is a step of the advance function of
    section 4.1 of the design notes, on the abstraction of the object. *)
Theorem tick_refines_advance (es : list event) (r0 : R) (w w' : world R) r :
  run_events fuel es (init_world r0) = Some w -> status_of w = Running ->
  game_loop fuel w = (r, w') -> r <> Exc NonTermination ->
  advance (abs w) (abs w').
Proof.
  intros Hrun (Hs & Ho & Hp)%status_of_running Hloop Hnt.
  pose proof (run_events_inv fuel es r0 w Hrun) as Hi.
  destruct (inv_started _ Hi Hs) as ([Hne _ _ _] & _ & _).
  destruct (game_loop_running w w' r Hs Ho Hp Hloop) as (m & w1 & Hm & Hres).
  assert (status_of w = Running) as Hrw by (apply status_of_running; done).
  inversion Hm as [|hd tl Hsn Hw|hd tl Hsn Hg Hself|hd tl f g Hsn Hg Hfree Hfood Hf Hfg
                  |hd tl g|hd tl Hsn Hg Hfree Hfood]; subst;
    destruct Hres as [-> ->]; try done;
    unfold abs, status_of; cbn; rewrite ?Hs, ?Ho, ?Hp; cbn.
  - by eapply adv_collide; [| |left|..].
  - by eapply adv_collide; [| |right|..].
  - by eapply adv_grow.
  - by eapply adv_shift.
Qed.

Lemma game_loop_status (w w' : world R) :
  game_inv w -> game_started w = true -> game_loop fuel w = (Ok tt, w') ->
  status_of w' = status_of w \/
  (status_of w = Running /\ (status_of w' = Running \/ status_of w' = Over)).
Proof.
  intros Hi Hs Hloop.
  destruct (game_over w) eqn:Ho; [|destruct (paused w) eqn:Hp].
  1,2: left; revert Hloop; unfold game_loop; py_run;
       rewrite ?Ho, ?Hp, ?orb_true_r; cbn; injection 1 as <-; done.
  right. split; [by apply status_of_running|].
  destruct (game_loop_running w w' (Ok tt) Hs Ho Hp Hloop) as (m & w1 & Hm & Hres).
  inversion Hm; subst; destruct Hres as [_ ->]; unfold status_of; cbn;
    rewrite ?Hs, ?Ho, ?Hp; cbn; auto.
Qed.

Lemma change_direction_status (w : world R) d w' :
  change_direction fuel d w = (Ok tt, w') ->
  (game_started w = true /\ status_of w' = status_of w) \/
  (game_started w = false /\ status_of w' = Running).
Proof.
  intros Hcd. unfold change_direction in Hcd. py_run.
  destruct (game_started w) eqn:Hs; cbn in Hcd.
  - left. split; [done|]. destruct (bool_decide _); injection Hcd as <-; done.
  - apply init_game_run in Hcd as (Hs' & Ho & Hp & _). right. split; [done|].
    by apply status_of_running.
Qed.

Lemma status_step_tick (s s' : status) :
  s' = s \/ (s = Running /\ (s' = Running \/ s' = Over)) -> status_step TimerFire s s'.
Proof.
  intros [->|[-> Hs']]; [|by apply ss_tick].
  destruct (decide (s = Running)) as [->|Hne]; [by apply ss_tick; left|by apply ss_tick_idle].
Qed.

Lemma fire_timer_status (w w' : world R) :
  game_inv w -> fire_timer fuel w = (Ok tt, w') -> status_step TimerFire (status_of w) (status_of w').
Proof.
  intros Hi Hf. apply status_step_tick. unfold fire_timer in Hf. py_run.
  destruct (pending w) as [|n] eqn:Hp; [injection Hf as <-; by left|].
  destruct (game_started w) eqn:Hs.
  - apply game_loop_status in Hf; [exact Hf|by apply game_inv_set_pending|done].
  - destruct (inv_idle _ Hi Hs) as (_ & Hp0 & _). congruence.
Qed.

Lemma toggle_pause_status (w w' : world R) :
  game_inv w -> toggle_pause fuel w = (Ok tt, w') -> status_step KeySpace (status_of w) (status_of w').
Proof.
  intros Hi Ht. unfold toggle_pause in Ht. py_run.
  destruct (game_started w) eqn:Hs, (game_over w) eqn:Ho; cbn in Ht;
    try (injection Ht as <-; apply ss_space_idle; unfold status_of; rewrite Hs, ?Ho; cbn; tauto).
  destruct (paused w) eqn:Hp; cbn in Ht.
  - replace (status_of w) with PausedSt by (unfold status_of; by rewrite Hs, Ho, Hp).
    apply game_loop_status in Ht; [|by apply game_inv_set_canvas, game_inv_set_paused|done].
    apply ss_resume. destruct Ht as [->|[_ ?]]; [|done].
    left. unfold status_of; cbn. by rewrite Hs, Ho.
  - injection Ht as <-.
    replace (status_of w) with Running by (unfold status_of; by rewrite Hs, Ho, Hp).
    replace (status_of _) with PausedSt by (unfold status_of; cbn; by rewrite Hs, Ho).
    apply ss_pause.
Qed.

(** C13: every callback, in every reachable state, moves the game's
    status (the flags [game_started], [game_over], [paused]) along the
    state machine of the design notes: an arrow starts the game, space
    pauses and resumes, a tick keeps the game running or ends it, r/R
    restarts it. *)
Theorem callbacks_follow_status_machine (es : list event) (r0 : R) (w : world R) e r w' :
  run_events fuel es (init_world r0) = Some w ->
  handle fuel e w = (r, w') -> r <> Exc NonTermination ->
  status_step e (status_of w) (status_of w').
Proof.
  intros Hrun Hh Hnt. pose proof (run_events_inv fuel es r0 w Hrun) as Hi.
  destruct (handle_inv fuel w e r w' Hi Hh Hnt) as [-> Hi'].
  assert (forall w0 w1, init_game fuel w0 = (Ok tt, w1) -> status_of w1 = Running) as Hinit.
  { intros w0 w1 (Hs & Ho & Hp & _)%init_game_run. by apply status_of_running. }
  destruct e; cbn [handle] in Hh.
  1-4: destruct (change_direction_status w _ w' Hh) as [[Hs Heq]|[Hs Heq]]; rewrite Heq;
       [apply ss_arrow; [unfold is_arrow; tauto|];
        unfold status_of; rewrite Hs; cbn; destruct (game_over w), (paused w); discriminate
       |replace (status_of w) with NotStarted by (unfold status_of; by rewrite Hs);
        apply ss_start; unfold is_arrow; tauto].
  - by apply toggle_pause_status.
  - unfold restart_game in Hh. rewrite !draw_bind in Hh.
    apply Hinit in Hh. rewrite Hh. by apply ss_restart; left.
  - unfold restart_game in Hh. rewrite !draw_bind in Hh.
    apply Hinit in Hh. rewrite Hh. by apply ss_restart; right.
  - injection Hh as <-. by apply ss_window; left.
  - revert Hh. unfold exit_fullscreen. py_run.
    destruct (is_fullscreen w); injection 1 as <-; by apply ss_window; right.
  - by apply fire_timer_status.
Qed.
End Refinement.

Lemma tick_refines_advance_witness :
  advance (abs demo_world) (abs (snd (game_loop 10 demo_world))).
Proof.
  apply (tick_refines_advance 10 demo_events demo_seed demo_world _ (fst (game_loop 10 demo_world)));
    [vm_compute; reflexivity|vm_compute; reflexivity|vm_compute; reflexivity|vm_compute; discriminate].
Defined.

Lemma callbacks_follow_status_machine_witness :
  status_step KeySpace (status_of demo_world) (status_of (snd (handle 10 KeySpace demo_world))).
Proof.
  apply (callbacks_follow_status_machine 10 demo_events demo_seed demo_world KeySpace
           (fst (handle 10 KeySpace demo_world)));
    [vm_compute; reflexivity|vm_compute; reflexivity|vm_compute; discriminate].
Defined.

End SnakeSpec.
