(* ===== verification/SnakeView.v ===== *)
(** * What the window of [SnakeGame] shows

    The canvas and the score label of src/snake.py follow the game
    object: [display_inv] says the label reads ["Score: " ^ str(score)],
    every item carries at most one tag, the checkerboard is drawn exactly
    once, and the start, pause and game-over screens are on the canvas
    exactly in their states; [board_shown] says that while a started
    game is not over the snake and the food drawn are those of the
    object.  Every callback that returns keeps both, so they hold in every
    reachable state (the Tk loop [tk_step] of [SnakeGame]): claims C36
    and C37. *)

From stdpp Require Import base list decidable sets relations strings.
From Stdlib Require Import ZArith Lia.
From S2P Require Import Prelude PyRandom Deque Canvas SnakeMove SnakeDraw SnakeGame SnakeSpec.

Module SnakeView.
Import SnakeMove SnakeGame SnakeSpec.
Local Open Scope Z_scope.
Local Open Scope py_scope.

Section View.
Context {R : Type} `{RandIntLaws R}.
Variable fuel : nat.

Local Arguments move_snake : simpl never.
Local Arguments game_loop : simpl never.
Local Arguments init_fields : simpl never.
Local Arguments spawn_food_loop : simpl never.

Record display_inv (w : world R) : Prop := {
  sd_score : score_label w = score_text (score w);
  sd_one_tag : Canvas.one_tag (canvas w);
  sd_grid : Canvas.untagged (canvas w) = SnakeDraw.draw_grid [];
  sd_start : game_started w = false <-> Canvas.tagged "start" (canvas w) <> [];
  sd_pause : paused w = true <-> Canvas.tagged "pause" (canvas w) <> [];
  sd_over : game_over w = true <-> Canvas.tagged "gameover" (canvas w) <> []
}.

(** While a started game is not over, the canvas shows its snake and its
    food as the last [draw_game] drew them. *)
Definition board_shown (w : world R) : Prop :=
  game_started w = true -> game_over w = false ->
  Canvas.tagged "snake" (canvas w) = SnakeDraw.snake_drawn (direction w) (snake w) /\
  Canvas.tagged "food" (canvas w) = SnakeDraw.food_drawn (food_pos w).

(** [move_snake] draws nothing and updates the label when it scores. *)
Lemma move_result_display (w w1 : world R) m :
  display_inv w -> move_result w m w1 -> display_inv w1.
Proof. intros [] Hm. inversion Hm; subst; by constructor. Qed.

(** The drawing of a tick: [draw_game] after a move, the game-over screen
    after a collision. *)
Lemma draw_game_display (w : world R) :
  display_inv w -> game_over w = false ->
  display_inv (set_canvas (SnakeDraw.draw_game (food_pos w) (snake w) (direction w) (canvas w)) w) /\
  board_shown (set_canvas (SnakeDraw.draw_game (food_pos w) (snake w) (direction w) (canvas w)) w).
Proof.
  intros [Hs Ht Hg Hst Hp Ho] Hgo. split.
  - constructor; cbn; rewrite ?SnakeDraw.draw_game_other by (done || Canvas.tag_decide); try done.
    + by apply SnakeDraw.draw_game_one_tag.
    + by rewrite SnakeDraw.draw_game_untagged.
  - intros _ _. cbn. by rewrite SnakeDraw.draw_game_snake, SnakeDraw.draw_game_food.
Qed.

Lemma game_over_display (w : world R) :
  display_inv w ->
  display_inv (set_canvas (SnakeDraw.show_game_over (score w) (canvas w)) (set_game_over true w)).
Proof.
  intros [Hs Ht Hg Hst Hp Ho]. pose proof (SnakeDraw.snake_game_over_adds (score w)) as Ha.
  constructor; cbn; [done|by eapply Canvas.adds_one_tag|..].
  - by rewrite (Canvas.adds_untagged_other _ _ _ Ha).
  - by rewrite (Canvas.adds_tagged_other _ _ _ _ Ha) by Canvas.tag_decide.
  - by rewrite (Canvas.adds_tagged_other _ _ _ _ Ha) by Canvas.tag_decide.
  - split; [intros _; apply SnakeDraw.snake_game_over_nonempty|done].
Qed.

Lemma snake_game_loop_display (w w' : world R) :
  game_started w = true -> display_inv w -> (paused w = true -> board_shown w) ->
  game_loop fuel w = (Ok tt, w') -> display_inv w' /\ board_shown w'.
Proof.
  intros Hs Hd Hb Hl. destruct (game_over w || paused w) eqn:Hgp.
  { revert Hl. unfold game_loop. py_run. rewrite Hgp. injection 1 as <-. split; [done|].
    apply orb_true_iff in Hgp as [Ho|Hp]; [intros _ Ho'; congruence|by apply Hb]. }
  apply orb_false_iff in Hgp as [Ho Hp].
  destruct (game_loop_running fuel w w' _ Hs Ho Hp Hl) as (m & w1 & Hm & Hres).
  pose proof (move_result_display w w1 m Hd Hm) as Hd1.
  destruct m as [[|]|e]; destruct Hres as [Hr ->]; try discriminate.
  - assert (Ho1 : game_over w1 = false) by (inversion Hm; subst; done).
    destruct (draw_game_display w1 Hd1 Ho1) as [[] Hb1]. split; [by constructor|exact Hb1].
  - split; [by apply game_over_display|]. intros _ Ho'. discriminate.
Qed.

(** [init_game] needs of the canvas only the checkerboard and single
    tags: it deletes the three screens and runs a first tick. *)
Lemma init_game_display (w w' : world R) :
  Canvas.one_tag (canvas w) -> Canvas.untagged (canvas w) = SnakeDraw.draw_grid [] ->
  init_game fuel w = (Ok tt, w') -> display_inv w' /\ board_shown w'.
Proof.
  intros Ht Hg. unfold init_game, spawn_food, update_score, draw. py_run.
  destruct (spawn_food_loop fuel _) as [r1 w1] eqn:Hsp.
  apply spawn_food_loop_spec in Hsp as [[-> (f & g & -> & _ & _)]|[-> (g & ->)]]; [|discriminate].
  cbn. apply snake_game_loop_display; [done| |discriminate].
  unfold init_fields. constructor; cbn; try done.
  - by apply Canvas.delete_one_tag.
  - rewrite Canvas.untagged_delete by Canvas.tag_decide. done.
  - rewrite Canvas.tagged_delete by Canvas.tag_decide. split; intros; congruence.
  - rewrite Canvas.tagged_delete by Canvas.tag_decide. split; intros; congruence.
  - rewrite Canvas.tagged_delete by Canvas.tag_decide. split; intros; congruence.
Qed.

(** [restart_game] clears the canvas and redraws the checkerboard first. *)
Lemma restart_game_display (w w' : world R) :
  restart_game fuel w = (Ok tt, w') -> display_inv w' /\ board_shown w'.
Proof.
  unfold restart_game. rewrite !draw_bind. apply init_game_display; cbn; rewrite Canvas.delete_all.
  - apply (Canvas.adds_one_tag [] SnakeDraw.draw_grid []); [apply SnakeDraw.snake_draw_grid_adds|cbn; lia|constructor].
  - rewrite (Canvas.adds_untagged_same _ _ SnakeDraw.snake_draw_grid_adds). done.
Qed.

Lemma toggle_pause_display (w w' : world R) :
  game_inv w -> display_inv w -> board_shown w ->
  toggle_pause fuel w = (Ok tt, w') -> display_inv w' /\ board_shown w'.
Proof.
  intros Hi Hd Hb. unfold toggle_pause, draw. py_run.
  destruct (game_started w) eqn:Hs, (game_over w) eqn:Ho; cbn; try (by injection 1 as <-).
  destruct Hd as [Hsc Ht Hg Hst Hp Hov]. destruct (paused w) eqn:Hpw; cbn.
  - intros Hl. apply snake_game_loop_display in Hl; [done|done| |intros _].
    + constructor; cbn;
        [done|by apply Canvas.delete_one_tag|by rewrite Canvas.untagged_delete by Canvas.tag_decide
        |by rewrite Canvas.tagged_delete_one_tag by (done || Canvas.tag_decide)
        |rewrite Canvas.tagged_delete by Canvas.tag_decide; split; intros; congruence
        |by rewrite Canvas.tagged_delete_one_tag by (done || Canvas.tag_decide)].
    + intros _ _. cbn. rewrite !Canvas.tagged_delete_one_tag by (done || Canvas.tag_decide). by apply Hb.
  - injection 1 as <-. pose proof SnakeDraw.snake_pause_screen_adds as Ha. split.
    + constructor; cbn;
        [done|by eapply Canvas.adds_one_tag|by rewrite (Canvas.adds_untagged_other _ _ _ Ha)
        |by rewrite (Canvas.adds_tagged_other _ _ _ _ Ha) by Canvas.tag_decide
        |split; [intros _; apply SnakeDraw.snake_pause_screen_nonempty|done]
        |by rewrite (Canvas.adds_tagged_other _ _ _ _ Ha) by Canvas.tag_decide].
    + intros _ _. cbn. rewrite !(Canvas.adds_tagged_other _ _ _ _ Ha) by Canvas.tag_decide. by apply Hb.
Qed.

Local Arguments init_game : simpl never.
Local Arguments restart_game : simpl never.

(** Every callback that returns keeps what the window shows in step with
    the game. *)
Lemma snake_handle_display (w w' : world R) e r :
  game_inv w -> display_inv w -> board_shown w ->
  handle fuel e w = (r, w') -> r <> Exc NonTermination -> display_inv w' /\ board_shown w'.
Proof.
  intros Hi Hd Hb Hh Hnt. destruct (handle_inv fuel w e r w' Hi Hh Hnt) as [-> _].
  destruct e; cbn [handle] in Hh.
  1-4: revert Hh; unfold change_direction; py_run; destruct (game_started w) eqn:Hs; cbn;
       [destruct (bool_decide _); injection 1 as <-;
        (split; [destruct Hd; by constructor|exact Hb])
       |apply init_game_display; apply Hd].
  - exact (toggle_pause_display w w' Hi Hd Hb Hh).
  - exact (restart_game_display w w' Hh).
  - exact (restart_game_display w w' Hh).
  - injection Hh as <-. split; [destruct Hd; by constructor|exact Hb].
  - revert Hh. unfold exit_fullscreen. py_run.
    destruct (is_fullscreen w); injection 1 as <-; (split; [destruct Hd; by constructor|exact Hb]).
  - revert Hh. unfold fire_timer. py_run. destruct (pending w) eqn:Hp; cbn; [by injection 1 as <-|].
    destruct (game_started w) eqn:Hs; [|destruct (inv_idle _ Hi Hs) as (_ & ? & _); congruence].
    apply snake_game_loop_display; [done|destruct Hd; by constructor|intros _; exact Hb].
Qed.

Lemma snake_init_world_display (r0 : R) : display_inv (init_world r0) /\ board_shown (init_world r0).
Proof.
  split; [|intros [=]]. constructor; cbn [canvas score_label score game_started paused game_over init_world].
  - reflexivity.
  - apply SnakeDraw.snake_start_canvas_one_tag.
  - apply SnakeDraw.snake_start_canvas_untagged.
  - split; [intros _; apply SnakeDraw.snake_start_screen_nonempty|done].
  - rewrite SnakeDraw.snake_start_canvas_other by Canvas.tag_decide. split; [discriminate|done].
  - rewrite SnakeDraw.snake_start_canvas_other by Canvas.tag_decide. split; [discriminate|done].
Qed.

Lemma tk_step_display (w w' : world R) :
  game_inv w /\ display_inv w /\ board_shown w -> tk_step fuel w w' ->
  game_inv w' /\ display_inv w' /\ board_shown w'.
Proof.
  intros (Hi & Hd & Hb) Hs. inversion Hs as [e w0 r w1 Hh Hnt]; subst.
  split; [by destruct (handle_inv fuel w e r w' Hi Hh Hnt)|].
  by apply (snake_handle_display w w' e r).
Qed.

Lemma rtc_display (w w' : world R) :
  rtc (tk_step fuel) w w' -> game_inv w /\ display_inv w /\ board_shown w ->
  game_inv w' /\ display_inv w' /\ board_shown w'.
Proof. induction 1; eauto using tk_step_display. Qed.

Lemma snake_run_events_display (es : list event) (r0 : R) (w : world R) :
  run_events fuel es (init_world r0) = Some w -> display_inv w /\ board_shown w.
Proof.
  intros Hrun%run_events_rtc. apply rtc_display in Hrun; [tauto|].
  split; [apply game_inv_init_world|apply snake_init_world_display].
Qed.

End View.
(** ** What the window shows, after any sequence of events *)

Section ViewClaims.
Context {R : Type} `{RandIntLaws R}.
Variable fuel : nat.

(** C36: in every state the program reaches, [display_inv] holds: the
    score label reads ["Score: " ^ str(score)] ([update_score] follows
    every change of the score, lines 159, 236); every item carries at
    most one tag; the 900 squares of [draw_grid] are the only untagged
    items (the checkerboard is drawn exactly once: [restart_game] deletes
    everything and draws it again, lines 166-167, and every other
    deletion names a tag); and the start, pause and game-over screens are
    on the canvas exactly when the game is not started, paused, and over
    ([init_game] deletes all three, line 161; [toggle_pause] draws and
    deletes the pause screen; [game_loop] draws the game-over screen when
    it sets the flag). *)
Theorem snake_display_after_events (es : list event) (r0 : R) (w : world R) :
  run_events fuel es (init_world r0) = Some w -> display_inv w.
Proof. intros [Hd _]%snake_run_events_display. exact Hd. Qed.

(** C37: in every state the program reaches, [board_shown] holds: while
    a started game is not over, the items tagged "snake" are exactly
    those [draw_game] draws for the snake of the object, head first and
    with its eyes turned towards the committed heading, and the items
    tagged "food" those of its food: every tick that does not end the
    game redraws both (line 362), and no other callback moves the snake
    or the food. *)
Theorem snake_board_on_canvas (es : list event) (r0 : R) (w : world R) :
  run_events fuel es (init_world r0) = Some w -> board_shown w.
Proof. intros [_ Hb]%snake_run_events_display. exact Hb. Qed.
End ViewClaims.

(** ** Concrete runs *)

Lemma snake_display_after_events_witness :
  score_label demo_world = "Score: 10" /\ display_inv demo_world.
Proof.
  split; [vm_compute; reflexivity|].
  apply (snake_display_after_events 10 demo_events demo_seed). vm_compute. reflexivity.
Defined.

Lemma snake_board_on_canvas_witness :
  length (Canvas.tagged "snake" (canvas demo_world)) = 4%nat /\ board_shown demo_world.
Proof.
  split; [vm_compute; reflexivity|].
  apply (snake_board_on_canvas 10 demo_events demo_seed). vm_compute. reflexivity.
Defined.

End SnakeView.
