(* ===== verification/Paquet.v ===== *)
(** * [PaquetFrites] of src/frites_game.py (lines 41-67)

    The catcher: an integer position, a target set by the mouse and
    clamped to the window ([move_to]), and a per-frame move of at most
    [speed] pixels towards the target that stops within two pixels of it
    ([update]).  The theorems: the target and the position stay inside
    the window, a frame never overshoots the target, and the catcher
    reaches the target's two-pixel neighbourhood within
    [|x - target| / speed] frames. *)

From Stdlib Require Import ZArith Lia.
From S2P Require Import Prelude.

Module Paquet.
Local Open Scope Z_scope.

(** [WINDOW_WIDTH] (line 6) *)
Definition WINDOW_WIDTH : Z := 800.

(** The attributes of a [PaquetFrites] (lines 42-48). *)
Record paquet := mkPaquet {
  x : Z;
  y : Z;
  width : Z;
  height : Z;
  target_x : Z;
  speed : Z
}.

(** [PaquetFrites.__init__] (lines 42-48) *)
Definition init (x0 y0 : Z) : paquet := mkPaquet x0 y0 80 100 x0 15.

Definition set_x (v : Z) (p : paquet) : paquet :=
  mkPaquet v (y p) (width p) (height p) (target_x p) (speed p).
Definition set_target_x (v : Z) (p : paquet) : paquet :=
  mkPaquet (x p) (y p) (width p) (height p) v (speed p).

(** [move_to] (lines 50-51) *)
Definition move_to (t : Z) (p : paquet) : paquet :=
  set_target_x (Z.max (width p / 2) (Z.min (WINDOW_WIDTH - width p / 2) t)) p.

(** [update] (lines 53-58) *)
Definition update (p : paquet) : paquet :=
  if 2 <? Z.abs (x p - target_x p) then
    if x p <? target_x p then set_x (Z.min (x p + speed p) (target_x p)) p
    else set_x (Z.max (x p - speed p) (target_x p)) p
  else p.

(** [get_catch_rect] (lines 60-67): left, top, right, bottom. *)
Definition get_catch_rect (p : paquet) : Z * Z * Z * Z :=
  (x p - width p / 2, y p - height p / 2, x p + width p / 2, y p - height p / 2 + 20).

(** The shape every catcher of the game has: built by [init] with the
    game's constants (line 129), only its position and target change. *)
Definition standard (p : paquet) : Prop :=
  width p = 80 /\ height p = 100 /\ speed p = 15 /\ y p = 520.

(** Inside the window, as [move_to] keeps the target. *)
Definition in_window (v : Z) : Prop := 40 <= v <= 760.

Lemma move_to_target (t : Z) (p : paquet) :
  standard p -> target_x (move_to t p) = Z.max 40 (Z.min 760 t).
Proof. intros (Hw & _). unfold move_to, WINDOW_WIDTH. cbn. rewrite Hw. reflexivity. Qed.

Lemma update_cases (p : paquet) :
  (Z.abs (x p - target_x p) <= 2 /\ update p = p) \/
  (2 < Z.abs (x p - target_x p) /\ x p < target_x p /\
   update p = set_x (Z.min (x p + speed p) (target_x p)) p) \/
  (2 < Z.abs (x p - target_x p) /\ target_x p <= x p /\
   update p = set_x (Z.max (x p - speed p) (target_x p)) p).
Proof.
  unfold update.
  destruct (Z.ltb_spec 2 (Z.abs (x p - target_x p)));
    [destruct (Z.ltb_spec (x p) (target_x p))|]; [right; left|right; right|left];
    repeat split; (lia || reflexivity).
Qed.

Lemma iter_fixed {A} (f : A -> A) (a : A) (n : nat) : f a = a -> Nat.iter n f a = a.
Proof. intros Hf. induction n as [|n IH]; [reflexivity|]. rewrite Nat.iter_succ, IH. exact Hf. Qed.

(** What the game relies on: the shape is kept, the position stays
    between its old value and the target, the target is unchanged. *)
Lemma update_in_window (p : paquet) :
  standard p -> in_window (x p) -> in_window (target_x p) ->
  standard (update p) /\ in_window (x (update p)) /\ target_x (update p) = target_x p.
Proof.
  intros (Hw & Hh & Hs & Hy) Hx Ht. unfold in_window, standard in *.
  destruct (update_cases p) as [(Hd & ->)|[(Hd & Hlt & ->)|(Hd & Hge & ->)]];
    cbn; repeat split; lia.
Qed.

Lemma move_to_in_window (t : Z) (p : paquet) :
  standard p -> standard (move_to t p) /\ x (move_to t p) = x p /\
  in_window (target_x (move_to t p)).
Proof.
  intros Hs. rewrite move_to_target by assumption.
  destruct Hs as (Hw & Hh & Hsp & Hy). unfold in_window. cbn. repeat split; auto; lia.
Qed.

(** ** Properties *)

(** C25: [move_to] clamps the target to [40, 760], the positions at
    which the 80-pixel catcher is fully inside the 800-pixel window, and
    keeps a target already inside unchanged. *)
Theorem move_to_clamps (t : Z) (p : paquet) :
  standard p ->
  in_window (target_x (move_to t p)) /\
  (in_window t -> target_x (move_to t p) = t).
Proof. intros Hs. rewrite move_to_target by assumption. unfold in_window. lia. Qed.

(** C26: one frame of [update] moves the catcher towards its target by
    at most [speed] pixels and never past it: the new position lies
    between the old one and the target (the [min]/[max] of lines 56 and
    58); it stays put exactly inside the dead zone of two pixels (line
    54); the target and the other attributes are unchanged. *)
Theorem update_toward_target (p : paquet) :
  standard p ->
  let p' := update p in
  standard p' /\ target_x p' = target_x p /\ y p' = y p /\
  Z.abs (x p' - x p) <= speed p /\
  Z.abs (x p' - target_x p) <= Z.abs (x p - target_x p) /\
  Z.min (x p) (target_x p) <= x p' <= Z.max (x p) (target_x p) /\
  (x p' = x p <-> Z.abs (x p - target_x p) <= 2).
Proof.
  intros (Hw & Hh & Hs & Hy). cbn zeta. unfold standard.
  destruct (update_cases p) as [(Hd & ->)|[(Hd & Hlt & ->)|(Hd & Hge & ->)]];
    cbn; rewrite ?Hw, ?Hh, ?Hs, ?Hy; repeat split; lia.
Qed.

(** C27: the catcher reaches its target: after [n] frames with
    [15 * n >= |x - target|] it is within two pixels of the target (the
    dead zone of line 54), whatever the start. *)
Theorem update_converges (n : nat) (p : paquet) :
  standard p -> 15 * Z.of_nat n >= Z.abs (x p - target_x p) ->
  Z.abs (x (Nat.iter n update p) - target_x p) <= 2.
Proof.
  revert p. induction n as [|n IH]; intros p Hs Hn.
  - cbn in *. destruct (update_cases p) as [(Hd & _)|[(Hd & _)|(Hd & _)]]; lia.
  - rewrite Nat.iter_succ_r.
    destruct Hs as (Hw & Hh & Hsp & Hy).
    destruct (update_cases p) as [(Hd & Hu)|[(Hd & Hlt & ->)|(Hd & Hge & ->)]].
    + rewrite Hu, (iter_fixed update p n Hu). exact Hd.
    + replace (target_x p) with (target_x (set_x (Z.min (x p + speed p) (target_x p)) p))
        by reflexivity.
      apply IH; [cbn; repeat split; auto|cbn; lia].
    + replace (target_x p) with (target_x (set_x (Z.max (x p - speed p) (target_x p)) p))
        by reflexivity.
      apply IH; [cbn; repeat split; auto|cbn; lia].
Qed.

(** ** Concrete runs *)

(** The catcher starts at the centre (line 129); the mouse at x = 5
    puts the target at 40; 24 frames reach it. *)
Lemma move_to_clamps_witness :
  target_x (move_to 5 (init 400 520)) = 40 /\
  in_window (target_x (move_to 5 (init 400 520))).
Proof.
  split; [reflexivity|].
  apply (move_to_clamps 5 (init 400 520)). repeat split.
Defined.

Lemma update_toward_target_witness :
  x (update (move_to 5 (init 400 520))) = 385 /\
  Z.min 400 40 <= x (update (move_to 5 (init 400 520))) <= Z.max 400 40.
Proof.
  split; [reflexivity|].
  destruct (update_toward_target (move_to 5 (init 400 520))) as (_ & _ & _ & _ & _ & Hb & _);
    [repeat split|exact Hb].
Defined.

Lemma update_converges_witness :
  x (Nat.iter 24 update (move_to 5 (init 400 520))) = 40 /\
  Z.abs (x (Nat.iter 24 update (move_to 5 (init 400 520))) - target_x (move_to 5 (init 400 520))) <= 2.
Proof.
  split; [reflexivity|].
  apply update_converges; [repeat split|vm_compute; discriminate].
Defined.

End Paquet.
