(* ===== verification/Frite.v ===== *)
(** * [Frite] of src/frites_game.py (lines 22-38)

    A falling fry: a position and a speed that are floats in Python and
    rationals here (rounding is not modelled), an angle, and a wobble
    angle whose sine moves the fry sideways.  [math.sin(math.radians(.))]
    is the parameter [sin_deg] of [update]; the theorems that need it
    assume only that it lies in [-1, 1].  The theorems: the random
    attributes of a new fry are in range, a frame moves it down by its
    speed and sideways by at most half a pixel, and every fry the game
    spawns is off the screen after at most 326 frames. *)

From Stdlib Require Import ZArith QArith Lqa Lia List.
Import ListNotations.
From S2P Require Import Prelude PyRandom.

Module Frite.
Local Open Scope Q_scope.

(** [FRITE_SPEED] and [WINDOW_HEIGHT] (lines 7, 10) *)
Definition FRITE_SPEED : Z := 3.
Definition WINDOW_HEIGHT : Z := 600.

(** The attributes of a [Frite] (lines 24-30). *)
Record frite := mkFrite {
  x : Q;
  y : Q;
  width : Z;
  height : Z;
  speed : Q;
  rotation : Z;
  wobble : Q
}.

Section Init.
Context {R : Type} `{RandInt R} `{RandUniform R}.

(** [Frite.__init__] (lines 23-30): three draws, in this order. *)
Definition init (x0 y0 : Q) (r : R) : frite * R :=
  let (u, r1) := uniform (-1) 1 r in
  let (rot, r2) := randint (-30) 30 r1 in
  let (wob, r3) := uniform 0 360 r2 in
  (mkFrite x0 y0 8 40 (inject_Z FRITE_SPEED + u) rot wob, r3).
End Init.

(** [Frite.update] (lines 32-35): the wobble is advanced before the
    sideways move reads it. *)
Definition update (sin_deg : Q -> Q) (f : frite) : frite :=
  let wob := wobble f + 5 in
  mkFrite (x f + sin_deg wob * (1 # 2)) (y f + speed f) (width f) (height f)
    (speed f) (rotation f) wob.

(** [Frite.is_off_screen] (lines 37-38): [y > WINDOW_HEIGHT]. *)
Definition is_off_screen (f : frite) : bool :=
  negb (Qle_bool (y f) (inject_Z WINDOW_HEIGHT)).

Lemma is_off_screen_spec (f : frite) :
  is_off_screen f = true <-> inject_Z WINDOW_HEIGHT < y f.
Proof.
  unfold is_off_screen. destruct (Qle_bool _ _) eqn:E; cbn.
  - apply Qle_bool_iff in E. split; [discriminate|]. intros Hlt. apply Qlt_not_le in Hlt. contradiction.
  - split; [|reflexivity]. intros _. apply Qnot_le_lt. intros Hle. apply Qle_bool_iff in Hle. congruence.
Qed.

Lemma iter_update_y (sin_deg : Q -> Q) (n : nat) (f : frite) :
  y (Nat.iter n (update sin_deg) f) == y f + inject_Z (Z.of_nat n) * speed f /\
  speed (Nat.iter n (update sin_deg) f) = speed f.
Proof.
  induction n as [|n [IHy IHs]].
  - cbn. split; [ring|reflexivity].
  - rewrite Nat.iter_succ. cbn [update y speed]. rewrite IHs. split; [|reflexivity].
    rewrite IHy, Nat2Z.inj_succ, <-Z.add_1_r, inject_Z_plus. ring.
Qed.

(** The fry [Frite.__init__] builds, field by field. *)
Lemma init_spec {R : Type} `{RandIntLaws R} `{RandUniformLaws R} (x0 y0 : Q) (r : R) :
  let f := fst (init x0 y0 r) in
  x f = x0 /\ y f = y0 /\ width f = 8%Z /\ height f = 40%Z /\ 2 <= speed f <= 4 /\
  (-30 <= rotation f <= 30)%Z /\ 0 <= wobble f <= 360.
Proof.
  cbn zeta. unfold init.
  pose proof (uniform_range (-1) 1 r) as Hu.
  destruct (uniform (-1) 1 r) as [u r1] eqn:Eu.
  pose proof (randint_range (-30) 30 r1) as Hr.
  destruct (randint (-30) 30 r1) as [rot r2].
  pose proof (uniform_range 0 360 r2) as Hw.
  destruct (uniform 0 360 r2) as [wob r3]. cbn in *.
  specialize (Hu ltac:(lra)). specialize (Hr ltac:(lia)). specialize (Hw ltac:(lra)).
  unfold FRITE_SPEED, inject_Z. repeat split; try reflexivity; try lia; try lra.
Qed.

(** ** Properties *)

Section Props.
Context {R : Type} `{RandIntLaws R} `{RandUniformLaws R}.

(** C28: a fry built by [Frite.__init__] has the fixed size 8x40, a speed
    in [2, 4], an angle in [-30, 30] and a wobble in [0, 360]. *)
Theorem init_ranges (x0 y0 : Q) (r : R) :
  let f := fst (init x0 y0 r) in
  width f = 8%Z /\ height f = 40%Z /\ 2 <= speed f <= 4 /\
  (-30 <= rotation f <= 30)%Z /\ 0 <= wobble f <= 360.
Proof. cbn zeta. destruct (init_spec x0 y0 r) as (_ & _ & ?). assumption. Qed.
End Props.

(** C29: one frame moves a fry down by exactly its speed and sideways by
    at most half a pixel, when the sine lies in [-1, 1]. *)
Theorem update_moves (sin_deg : Q -> Q) (f : frite) :
  (forall a, -1 <= sin_deg a <= 1) ->
  let f' := update sin_deg f in
  y f' == y f + speed f /\ x f - (1 # 2) <= x f' <= x f + (1 # 2) /\
  speed f' = speed f /\ wobble f' == wobble f + 5.
Proof.
  intros Hsin. cbn zeta. unfold update; cbn.
  specialize (Hsin (wobble f + 5)).
  repeat split; try reflexivity; try lra.
Qed.

(** C30: a fry spawned above the window (y >= -50) with a speed of at
    least 2 is below the bottom edge after 326 frames, whatever the sine:
    it cannot stay on the screen. *)
Theorem falls_off_screen (sin_deg : Q -> Q) (f : frite) :
  -50 <= y f -> 2 <= speed f ->
  is_off_screen (Nat.iter 326 (update sin_deg) f) = true.
Proof.
  intros Hy Hs. apply is_off_screen_spec.
  destruct (iter_update_y sin_deg 326 f) as [Hy' _]. rewrite Hy'.
  replace (inject_Z (Z.of_nat 326)) with (326 # 1) by reflexivity.
  unfold WINDOW_HEIGHT, inject_Z. lra.
Qed.

(** ** Concrete runs *)

Lemma update_moves_witness :
  y (update (fun _ => 1) (mkFrite 400 (-50) 8 40 3 0 0)) == -47.
Proof.
  destruct (update_moves (fun _ => 1) (mkFrite 400 (-50) 8 40 3 0 0)) as [Hy _].
  - intros _. lra.
  - rewrite Hy. reflexivity.
Defined.

(** The script makes [uniform] answer its low end: speed 3 - 1 = 2. *)
Lemma init_ranges_witness :
  speed (fst (init 400 (-50) [5%Z; 7%Z; 9%Z])) == 2 /\
  2 <= speed (fst (init 400 (-50) [5%Z; 7%Z; 9%Z])) <= 4.
Proof.
  split; [vm_compute; reflexivity|].
  destruct (init_ranges (R:=Scripted) 400 (-50) [5%Z; 7%Z; 9%Z]) as (_ & _ & Hs & _). exact Hs.
Defined.

Lemma falls_off_screen_witness :
  is_off_screen (Nat.iter 326 (update (fun _ => 0)) (fst (init 400 (-50) [5%Z; 7%Z; 9%Z]))) = true.
Proof.
  apply falls_off_screen; vm_compute; discriminate.
Defined.

End Frite.
