(* ===== verification/FritesDraw.v ===== *)
(** * The drawing methods of [FritesGame] (src/frites_game.py)

    Each drawing method reads a few attributes and issues canvas calls;
    here it is a function of those attributes that transforms the
    canvas, the calls chained with [|>] in the order of the code.
    [update_score] and [update_lives] compute the text of their label.
    The lemmas say what each method draws: it only appends items, all
    with the same tag ([adds]: none for the background, ["start"],
    ["paquet"], ["frite"], ["gameover"]); [show_combo] leaves exactly one
    combo text; [redraw] leaves the fries of the list as the only items
    tagged ["frite"] and keeps the items of the other tags. *)

From stdpp Require Import base list decidable sets strings pretty.
From Stdlib Require Import ZArith QArith.
From S2P Require Import Prelude Canvas Paquet Frite.

Module FritesDraw.
Import Canvas.

Local Open Scope string_scope.
Local Open Scope Z_scope.

(** [c |> f] applies the canvas call [f] after those of [c]. *)
Local Notation "c |> f" := (f c) (at level 66, left associativity, only parsing).

Local Notation "'z' n" := (inject_Z n) (at level 9, n at level 9, only parsing).

(** ** Constants (lines 6-19) *)

Definition WINDOW_WIDTH : Z := 800.
Definition WINDOW_HEIGHT : Z := 600.
Definition BG_COLOR : string := "#87CEEB".
Definition GROUND_COLOR : string := "#90EE90".
Definition RED : string := "#E31837".
Definition YELLOW : string := "#FFC72C".
Definition FRITE_COLOR : string := "#FFD700".
Definition FRITE_SHADOW : string := "#DAA520".
Definition TEXT_COLOR : string := "#333".

(** ** Drawing methods *)

(** [draw_cloud] (lines 177-181) *)
Definition draw_cloud (x y : Z) (c : canvas) : canvas :=
  c |> create Oval [z x; z y; z (x + 40); z (y + 30)] [("fill", "white"); ("outline", EmptyString)] []
    |> create Oval [z (x + 20); z (y - 10); z (x + 60); z (y + 25)] [("fill", "white"); ("outline", EmptyString)] []
    |> create Oval [z (x + 40); z y; z (x + 80); z (y + 30)] [("fill", "white"); ("outline", EmptyString)] [].

Definition clouds : list (Z * Z) := [(150, 80); (400, 120); (650, 60); (250, 180)].

(** [draw_background] (lines 162-175) *)
Definition draw_background (c : canvas) : canvas :=
  c |> create Rectangle [z 0; z 0; z WINDOW_WIDTH; z WINDOW_HEIGHT] [("fill", BG_COLOR); ("outline", EmptyString)] []
    |> (fun c => fold_left (fun c '(cx, cy) => draw_cloud cx cy c) clouds c)
    |> create Rectangle [z 0; z (WINDOW_HEIGHT - 50); z WINDOW_WIDTH; z WINDOW_HEIGHT]
         [("fill", GROUND_COLOR); ("outline", EmptyString)] [].

(** [show_start_screen] (lines 183-216) *)
Definition show_start_screen (c : canvas) : canvas :=
  c |> create TextItem [z (WINDOW_WIDTH / 2); z (WINDOW_HEIGHT / 2 - 100)]
         [("text", "🍟 McDONALD'S"); ("font", "Arial 48 bold"); ("fill", RED)] ["start"]
    |> create TextItem [z (WINDOW_WIDTH / 2); z (WINDOW_HEIGHT / 2 - 40)]
         [("text", "FRITES CATCHER"); ("font", "Arial 36 bold"); ("fill", YELLOW)] ["start"]
    |> create TextItem [z (WINDOW_WIDTH / 2); z (WINDOW_HEIGHT / 2 + 40)]
         [("text", "Clique pour commencer !"); ("font", "Arial 20"); ("fill", TEXT_COLOR)] ["start"]
    |> create TextItem [z (WINDOW_WIDTH / 2); z (WINDOW_HEIGHT / 2 + 80)]
         [("text", "Attrape les frites avec le paquet 🍟"); ("font", "Arial 14"); ("fill", TEXT_COLOR)] ["start"].

(** [update_score] (lines 253-254): the text of [score_label]. *)
Definition score_text (score : Z) : string := "Score: " +:+ py_str score.

(** [update_lives] (lines 256-258): the text of [lives_label]. *)
Definition lives_text (lives : Z) : string := py_strip (py_str_mul "❤️ " lives).

(** One fry sticking out of the catcher (lines 300-314). *)
Definition draw_paquet_frite (c : canvas) (pos : Z * Z) : canvas :=
  let '(fx, fy) := pos in
  c |> create Rectangle [z (fx - 3); z fy; z (fx + 3); z (fy + 25)]
         [("fill", FRITE_COLOR); ("outline", FRITE_SHADOW); ("width", "1")] ["paquet"]
    |> create Rectangle [z (fx - 3); z fy; z (fx + 3); z (fy + 5)]
         [("fill", "#DAA520"); ("outline", EmptyString)] ["paquet"].

(** [draw_paquet] (lines 260-314) *)
Definition draw_paquet (p : Paquet.paquet) (c : canvas) : canvas :=
  let x := Paquet.x p in
  let y := Paquet.y p in
  let w := Paquet.width p in
  let h := Paquet.height p in
  c |> create Oval [z (x - w / 2 + 5); z (y + h / 2 - 5); z (x + w / 2 + 5); z (y + h / 2 + 10)]
         [("fill", "gray"); ("outline", EmptyString); ("stipple", "gray50")] ["paquet"]
    |> create Polygon [z (x - w / 2); z (y - h / 2 + 20); z (x + w / 2); z (y - h / 2 + 20);
                       z (x + w / 2 - 5); z (y + h / 2); z (x - w / 2 + 5); z (y + h / 2)]
         [("fill", RED); ("outline", "#B71C1C"); ("width", "2")] ["paquet"]
    |> create Rectangle [z (x - w / 2); z (y - h / 2); z (x + w / 2); z (y - h / 2 + 25)]
         [("fill", "#C41E3A"); ("outline", "#B71C1C"); ("width", "2")] ["paquet"]
    |> create TextItem [z x; z y] [("text", "M"); ("font", "Arial 40 bold"); ("fill", YELLOW)] ["paquet"]
    |> (fun c => fold_left draw_paquet_frite
                   [(x - 20, y - h / 2 + 10); (x - 5, y - h / 2 + 5);
                    (x + 10, y - h / 2 + 12); (x + 25, y - h / 2 + 8)] c).

(** [draw_frite] (lines 316-337) *)
Definition draw_frite (c : canvas) (f : Frite.frite) : canvas :=
  let x := Frite.x f in
  let y := Frite.y f in
  let hw := z (Frite.width f / 2) in
  let h := z (Frite.height f) in
  c |> create Polygon [x - hw; y; x + hw; y; x + hw - 2; y + h; x - hw + 2; y + h]%Q
         [("fill", FRITE_COLOR); ("outline", FRITE_SHADOW); ("width", "1")] ["frite"]
    |> create Rectangle [x - hw; y; x + hw; y + 8]%Q
         [("fill", FRITE_SHADOW); ("outline", EmptyString)] ["frite"].

(** [show_game_over] (lines 348-390) *)
Definition show_game_over (score max_combo : Z) (c : canvas) : canvas :=
  c |> create Rectangle [z 0; z 0; z WINDOW_WIDTH; z WINDOW_HEIGHT]
         [("fill", "black"); ("stipple", "gray50")] ["gameover"]
    |> create TextItem [z (WINDOW_WIDTH / 2); z (WINDOW_HEIGHT / 2 - 80)]
         [("text", "GAME OVER"); ("font", "Arial 50 bold"); ("fill", RED)] ["gameover"]
    |> create TextItem [z (WINDOW_WIDTH / 2); z (WINDOW_HEIGHT / 2 - 10)]
         [("text", "Score Final: " +:+ py_str score); ("font", "Arial 30"); ("fill", YELLOW)] ["gameover"]
    |> (fun c => if 1 <? max_combo then
          create TextItem [z (WINDOW_WIDTH / 2); z (WINDOW_HEIGHT / 2 + 30)]
            [("text", "Meilleur Combo: " +:+ py_str max_combo +:+ "x"); ("font", "Arial 20"); ("fill", "white")]
            ["gameover"] c
        else c)
    |> create TextItem [z (WINDOW_WIDTH / 2); z (WINDOW_HEIGHT / 2 + 70)]
         [("text", "Appuyez sur R pour rejouer"); ("font", "Arial 18"); ("fill", "white")] ["gameover"].

(** The canvas calls of [show_combo] when [combo > 1] (lines 394-402);
    the game makes the test and schedules the deletion of line 403. *)
Definition show_combo (combo : Z) (c : canvas) : canvas :=
  c |> delete ["combo"]
    |> create TextItem [z (WINDOW_WIDTH / 2); z 100]
         [("text", "COMBO x" +:+ py_str combo +:+ "!"); ("font", "Arial 30 bold"); ("fill", YELLOW)] ["combo"].

(** The redraw at the end of a frame (lines 453-457). *)
Definition redraw (p : Paquet.paquet) (fs : list Frite.frite) (c : canvas) : canvas :=
  c |> delete ["paquet"; "frite"]
    |> draw_paquet p
    |> (fun c => fold_left draw_frite fs c).

(** The fries of [fs] as [redraw] draws them on an empty canvas. *)
Definition fries_drawn (fs : list Frite.frite) : canvas := fold_left draw_frite fs [].

(** ** What each method draws *)

(** Unfold a chain of [create] calls and check it appends tagged items. *)
Ltac adds_chain :=
  intros ?; unfold create; split; [rewrite <-!app_assoc; reflexivity|repeat constructor].

Lemma draw_background_adds : adds [] draw_background.
Proof. unfold draw_background, draw_cloud, clouds. cbn [fold_left]. adds_chain. Qed.

Lemma show_start_screen_adds : adds ["start"] show_start_screen.
Proof. unfold show_start_screen. adds_chain. Qed.

Lemma draw_paquet_adds (p : Paquet.paquet) : adds ["paquet"] (draw_paquet p).
Proof. unfold draw_paquet, draw_paquet_frite. cbn [fold_left]. adds_chain. Qed.

Lemma draw_frite_adds (f : Frite.frite) : adds ["frite"] (fun c => draw_frite c f).
Proof. unfold draw_frite. adds_chain. Qed.

Lemma show_game_over_adds (score max_combo : Z) : adds ["gameover"] (show_game_over score max_combo).
Proof. unfold show_game_over. destruct (1 <? max_combo); adds_chain. Qed.

Lemma show_game_over_nonempty (score max_combo : Z) (c : canvas) :
  tagged "gameover" (show_game_over score max_combo c) <> [].
Proof.
  rewrite (adds_tagged_same _ _ _ _ (show_game_over_adds score max_combo)) by set_solver.
  unfold show_game_over, create. destruct (1 <? max_combo); cbn; by destruct (tagged _ c).
Qed.

Lemma show_start_screen_nonempty (c : canvas) : tagged "start" (show_start_screen c) <> [].
Proof.
  rewrite (adds_tagged_same _ _ _ _ show_start_screen_adds) by set_solver.
  unfold show_start_screen, create. cbn. by destruct (tagged _ c).
Qed.

Lemma fries_drawn_adds (fs : list Frite.frite) : adds ["frite"] (fun c => fold_left draw_frite fs c).
Proof. apply adds_fold, draw_frite_adds. Qed.

(** [show_combo] leaves one combo text and the items of other tags. *)
Lemma show_combo_combo (combo : Z) (c : canvas) :
  length (tagged "combo" (show_combo combo c)) = 1%nat.
Proof.
  unfold show_combo. rewrite (adds_tagged_same ["combo"]); [|apply adds_create|set_solver].
  rewrite tagged_delete by set_solver. done.
Qed.

(** The combo text shown is the new one alone, whatever was shown before. *)
Lemma show_combo_tagged (combo : Z) (c : canvas) :
  tagged "combo" (show_combo combo c) = tagged "combo" (show_combo combo []).
Proof.
  unfold show_combo. rewrite !(adds_tagged_same ["combo"]) by (apply adds_create || set_solver).
  by rewrite !tagged_delete by set_solver.
Qed.

Lemma show_combo_other (t : string) (combo : Z) (c : canvas) :
  one_tag c -> t <> "all" -> t <> "combo" -> tagged t (show_combo combo c) = tagged t c.
Proof.
  intros Hc Ha Ht. unfold show_combo. rewrite (adds_tagged_other ["combo"]); [|apply adds_create|set_solver].
  apply tagged_delete_one_tag; set_solver.
Qed.

Lemma show_combo_one_tag (combo : Z) (c : canvas) : one_tag c -> one_tag (show_combo combo c).
Proof.
  intros Hc. unfold show_combo.
  apply (adds_one_tag ["combo"]); [apply adds_create|done|by apply delete_one_tag].
Qed.

(** After [redraw] the fries shown are those of the list. *)
Lemma redraw_frite (p : Paquet.paquet) (fs : list Frite.frite) (c : canvas) :
  tagged "frite" (redraw p fs c) = fries_drawn fs.
Proof.
  unfold redraw. rewrite (adds_tagged_same _ _ _ _ (fries_drawn_adds fs)) by set_solver.
  rewrite (adds_tagged_other _ _ _ _ (draw_paquet_adds p)) by set_solver.
  rewrite tagged_delete by set_solver. done.
Qed.

Lemma redraw_other (t : string) (p : Paquet.paquet) (fs : list Frite.frite) (c : canvas) :
  one_tag c -> t ∉ ["all"; "paquet"; "frite"] -> tagged t (redraw p fs c) = tagged t c.
Proof.
  intros Hc Ht. unfold redraw.
  rewrite (adds_tagged_other _ _ _ _ (fries_drawn_adds fs)) by set_solver.
  rewrite (adds_tagged_other _ _ _ _ (draw_paquet_adds p)) by set_solver.
  apply tagged_delete_one_tag; set_solver.
Qed.

Lemma redraw_one_tag (p : Paquet.paquet) (fs : list Frite.frite) (c : canvas) :
  one_tag c -> one_tag (redraw p fs c).
Proof.
  intros Hc. unfold redraw.
  eapply adds_one_tag; [apply fries_drawn_adds|done|].
  eapply adds_one_tag; [apply draw_paquet_adds|done|by apply delete_one_tag].
Qed.

(** The canvas of a new game (lines 146-149 and 240-242): the
    background and the start screen, no other tag. *)
Lemma start_canvas_other (t : string) :
  t ∉ ["start"] -> tagged t (show_start_screen (draw_background [])) = [].
Proof.
  intros Ht. rewrite (adds_tagged_other _ _ _ _ show_start_screen_adds) by done.
  by rewrite (adds_tagged_other _ _ _ _ draw_background_adds) by set_solver.
Qed.

Lemma start_canvas_one_tag : one_tag (show_start_screen (draw_background [])).
Proof.
  apply (adds_one_tag ["start"]); [apply show_start_screen_adds|done|].
  apply (adds_one_tag [] draw_background []); [apply draw_background_adds|cbn; lia|constructor].
Qed.

(** Proofs about the game keep the drawing calls folded. *)
Arguments draw_background : simpl never.
Arguments show_start_screen : simpl never.
Arguments score_text : simpl never.
Arguments lives_text : simpl never.
Arguments draw_paquet : simpl never.
Arguments draw_frite : simpl never.
Arguments show_game_over : simpl never.
Arguments show_combo : simpl never.
Arguments redraw : simpl never.

End FritesDraw.
