(* ===== verification/FritesGame.v ===== *)
(** * [FritesGame] of src/frites_game.py

    The game object (lines 128-137), the module global
    [FRITE_SPAWN_RATE] that [game_loop] lowers (line 417), the generator
    state of [random] and the pending [root.after] timers form the record
    [world], with the canvas, the texts of the two labels and the count
    of pending [after(1000, ...)] timers of [show_combo].  Each method is
    a [PyM world] computation translated statement by statement; a
    drawing call is a [draw] of the [FritesDraw] function it runs.  The
    fry loop of [game_loop] (lines 423-447) mutates the fries
    in place and may [return] from the middle of the loop: [frite_step]
    is its body on the fry at index [i], [frites_pass] the loop, and
    [remove_indices] the removals of lines 450-451.

    The proofs: [step_result] describes [frite_step] branch by branch;
    [frites_inv] (counters, lives, spawn rate, catcher in the window) and
    [fries_ok] (shape of every fry, fries on the screen while the game
    runs) hold initially and are kept by [game_loop], split into its
    prefix ([loop_prefix]: frame count, spawn, difficulty) and its tail
    ([frame_tail]), and by every callback, hence after any sequence of
    events.  The claims C15-C24 and C35 follow (the window is in
    [FritesView], the score against the best combo in [FritesScore]);
    the concrete runs use a sine
    that is 0 and a scripted generator that drops every fry under the
    catcher. *)

From stdpp Require Import base list decidable sets relations strings.
From Stdlib Require Import ZArith QArith Lqa Lia.
From S2P Require Import Prelude PyRandom PyList Canvas Paquet Frite FritesDraw.

Module FritesGame.
Local Open Scope Z_scope.
Local Open Scope py_scope.

(** ** Constants (lines 6-10) *)

Definition WINDOW_WIDTH : Z := 800.
Definition WINDOW_HEIGHT : Z := 600.
Definition GAME_SPEED : Z := 30.
(** The value [FRITE_SPAWN_RATE] has when the module is loaded. *)
Definition FRITE_SPAWN_RATE : Z := 40.

(** ** State *)

Section Game.
Context {R : Type} `{RandInt R} `{RandUniform R}.
(** [math.sin(math.radians(.))], used by [Frite.update]. *)
Variable sin_deg : Q -> Q.

Record world := mkWorld {
  paquet : Paquet.paquet;
  frites : list Frite.frite;
  score : Z;
  lives : Z;
  game_over : bool;
  game_started : bool;
  frame_count : Z;
  combo : Z;
  max_combo : Z;
  is_fullscreen : bool;
  spawn_rate : Z;
  rng : R;
  pending : nat;
  canvas : list Canvas.item;
  score_label : string;
  lives_label : string;
  combo_timers : nat
}.

Definition set_paquet v w := mkWorld v (frites w) (score w) (lives w) (game_over w) (game_started w) (frame_count w) (combo w) (max_combo w) (is_fullscreen w) (spawn_rate w) (rng w) (pending w) (canvas w) (score_label w) (lives_label w) (combo_timers w).
Definition set_frites v w := mkWorld (paquet w) v (score w) (lives w) (game_over w) (game_started w) (frame_count w) (combo w) (max_combo w) (is_fullscreen w) (spawn_rate w) (rng w) (pending w) (canvas w) (score_label w) (lives_label w) (combo_timers w).
Definition set_score v w := mkWorld (paquet w) (frites w) v (lives w) (game_over w) (game_started w) (frame_count w) (combo w) (max_combo w) (is_fullscreen w) (spawn_rate w) (rng w) (pending w) (canvas w) (score_label w) (lives_label w) (combo_timers w).
Definition set_lives v w := mkWorld (paquet w) (frites w) (score w) v (game_over w) (game_started w) (frame_count w) (combo w) (max_combo w) (is_fullscreen w) (spawn_rate w) (rng w) (pending w) (canvas w) (score_label w) (lives_label w) (combo_timers w).
Definition set_game_over v w := mkWorld (paquet w) (frites w) (score w) (lives w) v (game_started w) (frame_count w) (combo w) (max_combo w) (is_fullscreen w) (spawn_rate w) (rng w) (pending w) (canvas w) (score_label w) (lives_label w) (combo_timers w).
Definition set_game_started v w := mkWorld (paquet w) (frites w) (score w) (lives w) (game_over w) v (frame_count w) (combo w) (max_combo w) (is_fullscreen w) (spawn_rate w) (rng w) (pending w) (canvas w) (score_label w) (lives_label w) (combo_timers w).
Definition set_frame_count v w := mkWorld (paquet w) (frites w) (score w) (lives w) (game_over w) (game_started w) v (combo w) (max_combo w) (is_fullscreen w) (spawn_rate w) (rng w) (pending w) (canvas w) (score_label w) (lives_label w) (combo_timers w).
Definition set_combo v w := mkWorld (paquet w) (frites w) (score w) (lives w) (game_over w) (game_started w) (frame_count w) v (max_combo w) (is_fullscreen w) (spawn_rate w) (rng w) (pending w) (canvas w) (score_label w) (lives_label w) (combo_timers w).
Definition set_max_combo v w := mkWorld (paquet w) (frites w) (score w) (lives w) (game_over w) (game_started w) (frame_count w) (combo w) v (is_fullscreen w) (spawn_rate w) (rng w) (pending w) (canvas w) (score_label w) (lives_label w) (combo_timers w).
Definition set_is_fullscreen v w := mkWorld (paquet w) (frites w) (score w) (lives w) (game_over w) (game_started w) (frame_count w) (combo w) (max_combo w) v (spawn_rate w) (rng w) (pending w) (canvas w) (score_label w) (lives_label w) (combo_timers w).
Definition set_spawn_rate v w := mkWorld (paquet w) (frites w) (score w) (lives w) (game_over w) (game_started w) (frame_count w) (combo w) (max_combo w) (is_fullscreen w) v (rng w) (pending w) (canvas w) (score_label w) (lives_label w) (combo_timers w).
Definition set_rng v w := mkWorld (paquet w) (frites w) (score w) (lives w) (game_over w) (game_started w) (frame_count w) (combo w) (max_combo w) (is_fullscreen w) (spawn_rate w) v (pending w) (canvas w) (score_label w) (lives_label w) (combo_timers w).
Definition set_pending v w := mkWorld (paquet w) (frites w) (score w) (lives w) (game_over w) (game_started w) (frame_count w) (combo w) (max_combo w) (is_fullscreen w) (spawn_rate w) (rng w) v (canvas w) (score_label w) (lives_label w) (combo_timers w).
Definition set_canvas v w := mkWorld (paquet w) (frites w) (score w) (lives w) (game_over w) (game_started w) (frame_count w) (combo w) (max_combo w) (is_fullscreen w) (spawn_rate w) (rng w) (pending w) v (score_label w) (lives_label w) (combo_timers w).
Definition set_score_label v w := mkWorld (paquet w) (frites w) (score w) (lives w) (game_over w) (game_started w) (frame_count w) (combo w) (max_combo w) (is_fullscreen w) (spawn_rate w) (rng w) (pending w) (canvas w) v (lives_label w) (combo_timers w).
Definition set_lives_label v w := mkWorld (paquet w) (frites w) (score w) (lives w) (game_over w) (game_started w) (frame_count w) (combo w) (max_combo w) (is_fullscreen w) (spawn_rate w) (rng w) (pending w) (canvas w) (score_label w) v (combo_timers w).
Definition set_combo_timers v w := mkWorld (paquet w) (frites w) (score w) (lives w) (game_over w) (game_started w) (frame_count w) (combo w) (max_combo w) (is_fullscreen w) (spawn_rate w) (rng w) (pending w) (canvas w) (score_label w) (lives_label w) v.

(** [__init__] (lines 71-149), with the module global at its initial
    value and nothing scheduled: the labels of lines 90-104, the game
    attributes of lines 128-137, the background and the start screen of
    lines 146-149. *)
Definition init_world (r : R) : world :=
  mkWorld (Paquet.init (WINDOW_WIDTH / 2) (WINDOW_HEIGHT - 80)) [] 0 3 false false 0 0 0
    false FRITE_SPAWN_RATE r 0
    (FritesDraw.show_start_screen (FritesDraw.draw_background [])) "Score: 0" "❤️ ❤️ ❤️" 0.

(** [random.randint(a, b)] on the module's generator. *)
Definition rand_int (a b : Z) : PyM world Z :=
  fun w => let (z, r') := randint a b (rng w) in (Ok z, set_rng r' w).

(** [Frite(x, y)]: the constructor draws from the module's generator. *)
Definition new_frite (x0 y0 : Q) : PyM world Frite.frite :=
  fun w => let (f, r') := Frite.init x0 y0 (rng w) in (Ok f, set_rng r' w).

(** Python's [a % b] on integers: [ZeroDivisionError] when [b = 0]. *)
Definition py_mod (a b : Z) : PyM world Z :=
  if b =? 0 then raise ZeroDivisionError else ret (a mod b).

(** [self.root.after(GAME_SPEED, self.game_loop)] *)
Definition schedule_game_loop : PyM world unit :=
  modify (fun w => set_pending (S (pending w)) w).

(** A drawing call on [self.canvas]. *)
Definition draw (f : list Canvas.item -> list Canvas.item) : PyM world unit :=
  modify (fun w => set_canvas (f (canvas w)) w).

(** ** Methods *)

(** [update_score] (lines 253-254) *)
Definition update_score : PyM world unit :=
  modify (fun w => set_score_label (FritesDraw.score_text (score w)) w).

(** [update_lives] (lines 256-258) *)
Definition update_lives : PyM world unit :=
  modify (fun w => set_lives_label (FritesDraw.lives_text (lives w)) w).

(** [show_combo] (lines 392-403): the deletion after one second is a
    timer of its own, counted in [combo_timers]. *)
Definition show_combo : PyM world unit :=
  w <- get ;;
  if 1 <? combo w then
    draw (FritesDraw.show_combo (combo w)) ;;
    modify (fun w => set_combo_timers (S (combo_timers w)) w)
  else ret tt.

(** [show_game_over] (lines 348-390) *)
Definition show_game_over : PyM world unit :=
  w <- get ;;
  draw (FritesDraw.show_game_over (score w) (max_combo w)).

(** [toggle_fullscreen] (lines 151-154) *)
Definition toggle_fullscreen : PyM world unit :=
  modify (fun w => set_is_fullscreen (negb (is_fullscreen w)) w).

(** [exit_fullscreen] (lines 156-160) *)
Definition exit_fullscreen : PyM world unit :=
  w <- get ;;
  if is_fullscreen w then modify (set_is_fullscreen false) else ret tt.

(** [spawn_frite] (lines 248-251) *)
Definition spawn_frite : PyM world unit :=
  x0 <- rand_int 50 (WINDOW_WIDTH - 50) ;;
  f <- new_frite (inject_Z x0) (inject_Z (-50)) ;;
  modify (fun w => set_frites (frites w ++ [f]) w).

(** [check_collision] (lines 339-346) *)
Definition check_collision (p : Paquet.paquet) (f : Frite.frite) : bool :=
  let '(l, t, r, b) := Paquet.get_catch_rect p in
  Qle_bool (inject_Z l) (Frite.x f) && Qle_bool (Frite.x f) (inject_Z r) &&
  Qle_bool (inject_Z t) (Frite.y f) && Qle_bool (Frite.y f) (inject_Z (b + 30)).

(** The body of the fry loop (lines 425-447) on the fry at index [i] of
    [self.frites]: [frite.update()] mutates the fry inside the list.  The
    result says whether the loop [return]s (line 447) and whether the
    fry was put in [frites_to_remove]. *)
Definition frite_step (i : nat) : PyM world (bool * bool) :=
  w <- get ;;
  f <- unwrap IndexError (frites w !! i) ;;
  let f' := Frite.update sin_deg f in
  modify (fun w => set_frites (<[i := f']> (frites w)) w) ;;
  w <- get ;;
  if check_collision (paquet w) f' then
    modify (fun w => set_score (score w + (10 + combo w * 5)) w) ;;
    modify (fun w => set_combo (combo w + 1) w) ;;
    modify (fun w => set_max_combo (Z.max (max_combo w) (combo w)) w) ;;
    update_score ;;
    show_combo ;;
    ret (false, true)
  else if Frite.is_off_screen f' then
    modify (fun w => set_lives (lives w - 1) w) ;;
    modify (set_combo 0) ;;
    update_lives ;;
    w <- get ;;
    if lives w <=? 0 then modify (set_game_over true) ;; show_game_over ;; ret (true, true)
    else ret (false, true)
  else ret (false, false).

(** [for frite in self.frites] (line 424) from index [i], with [n] fries
    left; [None] when the body returned from [game_loop], otherwise the
    indices of [frites_to_remove].  The list is only mutated element-wise
    during the loop, so iterating over indices visits the same fries. *)
Fixpoint frites_pass (i n : nat) (to_remove : list nat) : PyM world (option (list nat)) :=
  match n with
  | O => ret (Some to_remove)
  | S n' =>
      res <- frite_step i ;;
      let to_remove' := if res.2 then to_remove ++ [i] else to_remove in
      if res.1 then ret None else frites_pass (S i) n' to_remove'
  end.

(** Lines 450-451: each fry object is in the list once, so
    [self.frites.remove(frite)] removes exactly the fry at its index. *)
Fixpoint remove_indices {A} (i : nat) (tr : list nat) (l : list A) : list A :=
  match l with
  | [] => []
  | a :: l' =>
      if bool_decide (i ∈ tr) then remove_indices (S i) tr l'
      else a :: remove_indices (S i) tr l'
  end.

(** [game_loop] (lines 405-460) *)
Definition game_loop : PyM world unit :=
  w <- get ;;
  if negb (game_started w) || game_over w then ret tt
  else
    modify (fun w => set_frame_count (frame_count w + 1) w) ;;
    w <- get ;;
    m <- py_mod (frame_count w) (spawn_rate w) ;;
    (if m =? 0 then spawn_frite else ret tt) ;;
    w <- get ;;
    (if (frame_count w mod 500 =? 0) && (20 <? spawn_rate w)
     then modify (fun w => set_spawn_rate (spawn_rate w - 2) w)
     else ret tt) ;;
    modify (fun w => set_paquet (Paquet.update (paquet w)) w) ;;
    w <- get ;;
    res <- frites_pass 0 (length (frites w)) [] ;;
    match res with
    | None => ret tt
    | Some tr =>
        modify (fun w => set_frites (remove_indices 0 tr (frites w)) w) ;;
        w <- get ;;
        draw (FritesDraw.redraw (paquet w) (frites w)) ;;
        schedule_game_loop
    end.

(** [start_game] (lines 222-225) *)
Definition start_game : PyM world unit :=
  modify (set_game_started true) ;;
  draw (Canvas.delete ["start"; "gameover"]) ;;
  game_loop.

(** [on_click] (lines 218-220) *)
Definition on_click : PyM world unit :=
  w <- get ;;
  if negb (game_started w) then start_game else ret tt.

(** The assignments of [restart_game] (lines 228-237).  The module
    global [FRITE_SPAWN_RATE] is not among them. *)
Definition reset_fields (w : world) : world :=
  set_paquet (Paquet.set_target_x (WINDOW_WIDTH / 2) (Paquet.set_x (WINDOW_WIDTH / 2) (paquet w)))
    (set_frame_count 0 (set_game_started false (set_game_over false
      (set_max_combo 0 (set_combo 0 (set_lives 3 (set_score 0 (set_frites [] w)))))))).

(** [restart_game] (lines 227-242) *)
Definition restart_game : PyM world unit :=
  modify reset_fields ;;
  update_score ;;
  update_lives ;;
  draw (Canvas.delete ["all"]) ;;
  draw FritesDraw.draw_background ;;
  draw FritesDraw.show_start_screen.

(** [on_mouse_move] (lines 244-246) *)
Definition on_mouse_move (event_x : Z) : PyM world unit :=
  w <- get ;;
  if game_started w && negb (game_over w)
  then modify (fun w => set_paquet (Paquet.move_to event_x (paquet w)) w)
  else ret tt.

(** ** The Tk main loop *)

(** The bindings of lines 79-80 and 140-143, and the firing of a timer
    registered with [after]. *)
Inductive event : Type :=
  | Motion (event_x : Z)
  | Click
  | Key_r | Key_R | KeyF11 | KeyEscape
  | TimerFire
  | ComboTimerFire.

Definition fire_timer : PyM world unit :=
  w <- get ;;
  match pending w with
  | O => ret tt
  | S n => modify (set_pending n) ;; game_loop
  end.

(** The timer of line 403: [lambda: self.canvas.delete("combo")]. *)
Definition fire_combo_timer : PyM world unit :=
  w <- get ;;
  match combo_timers w with
  | O => ret tt
  | S n => modify (set_combo_timers n) ;; draw (Canvas.delete ["combo"])
  end.

Definition handle (e : event) : PyM world unit :=
  match e with
  | Motion ex => on_mouse_move ex
  | Click => on_click
  | Key_r | Key_R => restart_game
  | KeyF11 => toggle_fullscreen
  | KeyEscape => exit_fullscreen
  | TimerFire => fire_timer
  | ComboTimerFire => fire_combo_timer
  end.

(** One turn of the main loop: a callback runs to its end; an exception
    is reported by Tk and the loop goes on with the mutated state. *)
Inductive tk_step : world -> world -> Prop :=
  | tk_step_event e w r w' : handle e w = (r, w') -> tk_step w w'.

Fixpoint run_events (es : list event) (w : world) : world :=
  match es with
  | [] => w
  | e :: es' => run_events es' (snd (handle e w))
  end.
End Game.

Arguments world R : clear implicits.

(** ** The body of the fry loop, branch by branch *)

Section Step.
Context {R : Type} `{RandInt R} `{RandUniform R}.
Variable sin_deg : Q -> Q.

Local Arguments Frite.update : simpl never.
Local Arguments check_collision : simpl never.
Local Arguments Frite.is_off_screen : simpl never.

(** [show_combo] on the state it is called in. *)
Definition combo_shown (w : world R) : world R :=
  if 1 <? combo w
  then set_combo_timers (S (combo_timers w)) (set_canvas (FritesDraw.show_combo (combo w) (canvas w)) w)
  else w.

(** What [frite_step] does to the fry at index [i]: the fry is moved in
    place, then it is caught (score, combo, best combo, score label,
    combo text), missed (a life lost, combo reset, lives label, and at
    zero lives the game over with its screen) or left alone. *)
Inductive step_result (i : nat) (w : world R) : pyres (bool * bool) -> world R -> Prop :=
  | fs_missing :
      frites w !! i = None ->
      step_result i w (Exc IndexError) w
  | fs_catch f :
      frites w !! i = Some f ->
      check_collision (paquet w) (Frite.update sin_deg f) = true ->
      step_result i w (Ok (false, true))
        (combo_shown (set_score_label (FritesDraw.score_text (score w + (10 + combo w * 5)))
          (set_max_combo (Z.max (max_combo w) (combo w + 1))
            (set_combo (combo w + 1)
              (set_score (score w + (10 + combo w * 5))
                (set_frites (<[i := Frite.update sin_deg f]> (frites w)) w))))))
  | fs_miss f :
      frites w !! i = Some f ->
      check_collision (paquet w) (Frite.update sin_deg f) = false ->
      Frite.is_off_screen (Frite.update sin_deg f) = true ->
      0 < lives w - 1 ->
      step_result i w (Ok (false, true))
        (set_lives_label (FritesDraw.lives_text (lives w - 1))
          (set_combo 0 (set_lives (lives w - 1)
            (set_frites (<[i := Frite.update sin_deg f]> (frites w)) w))))
  | fs_last_life f :
      frites w !! i = Some f ->
      check_collision (paquet w) (Frite.update sin_deg f) = false ->
      Frite.is_off_screen (Frite.update sin_deg f) = true ->
      lives w - 1 <= 0 ->
      step_result i w (Ok (true, true))
        (set_canvas (FritesDraw.show_game_over (score w) (max_combo w) (canvas w))
          (set_game_over true (set_lives_label (FritesDraw.lives_text (lives w - 1))
            (set_combo 0 (set_lives (lives w - 1)
              (set_frites (<[i := Frite.update sin_deg f]> (frites w)) w))))))
  | fs_fall f :
      frites w !! i = Some f ->
      check_collision (paquet w) (Frite.update sin_deg f) = false ->
      Frite.is_off_screen (Frite.update sin_deg f) = false ->
      step_result i w (Ok (false, false))
        (set_frites (<[i := Frite.update sin_deg f]> (frites w)) w).

Lemma frite_step_spec (i : nat) (w : world R) r w' :
  frite_step sin_deg i w = (r, w') -> step_result i w r w'.
Proof.
  unfold frite_step, update_score, update_lives, show_combo, show_game_over, draw. py_run.
  destruct (frites w !! i) as [f|] eqn:Hi; cbn; [|injection 1 as <- <-; by apply fs_missing].
  destruct (check_collision _ _) eqn:Hc; cbn.
  { pose proof (fs_catch _ _ f Hi Hc) as Hs. unfold combo_shown in Hs. cbn in Hs.
    destruct (1 <? _) eqn:E; cbn; injection 1 as <- <-; exact Hs. }
  destruct (Frite.is_off_screen _) eqn:Ho; cbn; [|injection 1 as <- <-; by apply fs_fall].
  destruct (Z.leb_spec (lives w - 1) 0); cbn; injection 1 as <- <-.
  - by apply fs_last_life.
  - apply fs_miss; [done|done|done|lia].
Qed.

(** C17: the body of the fry loop (lines 425-447), seen through the
    counters: a fry left alone changes none of them; a caught fry scores
    [10 + 5 * combo], increments the combo and raises the best combo to
    it; a missed fry costs a life and resets the combo to 0, and the loop
    stops exactly when no life is left (design notes, section 8: the
    combo resets to 0 exactly on a missed object). *)
Theorem frite_step_combo (i : nat) (w : world R) stop removed w' :
  frite_step sin_deg i w = (Ok (stop, removed), w') ->
  (removed = false /\ stop = false /\ combo w' = combo w /\ score w' = score w /\
   lives w' = lives w) \/
  (removed = true /\ stop = false /\ combo w' = combo w + 1 /\
   score w' = score w + 10 + 5 * combo w /\ lives w' = lives w /\
   max_combo w' = Z.max (max_combo w) (combo w + 1)) \/
  (removed = true /\ combo w' = 0 /\ score w' = score w /\ lives w' = lives w - 1 /\
   (stop = true <-> lives w' <= 0)).
Proof.
  intros Hs%frite_step_spec.
  inversion Hs; subst; unfold combo_shown; cbn; try destruct (1 <? _); cbn;
    [right; left|right; left|right; right|right; right|left]; repeat split; lia.
Qed.
End Step.

(** ** The invariant of the game object *)

Section Inv.
Context {R : Type} `{RandInt R} `{RandUniform R}.
Variable sin_deg : Q -> Q.

Local Arguments Frite.update : simpl never.
Local Arguments check_collision : simpl never.
Local Arguments Frite.is_off_screen : simpl never.
Local Arguments frite_step : simpl never.

Record frites_inv (w : world R) : Prop := {
  inv_combo : 0 <= combo w <= max_combo w;
  inv_lives : 0 <= lives w <= 3;
  inv_over : game_over w = true <-> lives w = 0;
  inv_rate : 20 <= spawn_rate w <= 40 /\ Z.even (spawn_rate w) = true;
  inv_score : 0 <= score w;
  inv_paquet : Paquet.standard (paquet w) /\ Paquet.in_window (Paquet.x (paquet w)) /\
               Paquet.in_window (Paquet.target_x (paquet w));
  inv_idle : game_started w = false -> game_over w = false
}.

Definition frites_inv_prop (w : world R) : Prop :=
  (0 <= combo w <= max_combo w) /\ (0 <= lives w <= 3) /\ (game_over w = true <-> lives w = 0) /\
  (20 <= spawn_rate w <= 40 /\ Z.even (spawn_rate w) = true) /\ 0 <= score w /\
  (Paquet.standard (paquet w) /\ Paquet.in_window (Paquet.x (paquet w)) /\
   Paquet.in_window (Paquet.target_x (paquet w))) /\
  (game_started w = false -> game_over w = false).

Lemma frites_inv_prop_iff (w : world R) : frites_inv w <-> frites_inv_prop w.
Proof. split; [intros []; unfold frites_inv_prop; tauto|intros (? & ? & ? & ? & ? & ? & ?); by constructor]. Qed.

#[export] Instance frites_inv_dec (w : world R) : Decision (frites_inv w).
Proof.
  refine (cast_if (decide (frites_inv_prop w))); rewrite frites_inv_prop_iff; done.
Defined.

(** What the fry loop leaves alone, and the counters it only raises. *)
Record loop_frame (w w' : world R) : Prop := {
  lf_paquet : paquet w' = paquet w;
  lf_rate : spawn_rate w' = spawn_rate w;
  lf_started : game_started w' = game_started w;
  lf_pending : pending w' = pending w;
  lf_frame : frame_count w' = frame_count w;
  lf_len : length (frites w') = length (frites w);
  lf_max : max_combo w <= max_combo w';
  lf_score : score w <= score w'
}.

Lemma loop_frame_refl (w : world R) : loop_frame w w.
Proof. constructor; reflexivity || lia. Qed.

Lemma loop_frame_trans (w1 w2 w3 : world R) :
  loop_frame w1 w2 -> loop_frame w2 w3 -> loop_frame w1 w3.
Proof. intros [] []. constructor; congruence || lia. Qed.

Lemma step_result_inv (i : nat) (w w' : world R) stop rm :
  frites_inv w -> game_over w = false -> game_started w = true ->
  step_result sin_deg i w (Ok (stop, rm)) w' ->
  frites_inv w' /\ game_over w' = stop /\ loop_frame w w'.
Proof.
  intros [Hc Hl Ho Hr Hs Hp Hi] Hgo Hgs Hst.
  assert (lives w <> 0) by (intros E; apply Ho in E; congruence).
  inversion Hst; subst; unfold combo_shown; cbn; try destruct (1 <? _); cbn;
    (split; [constructor; cbn|split; [done|constructor; cbn]]);
    rewrite ?length_insert; try done; try lia; try (intros; congruence);
    split; intros; try congruence; try lia.
Qed.

Lemma frites_pass_inv (n i : nat) (tr : list nat) (w w' : world R) r :
  (i + n)%nat = length (frites w) -> frites_inv w -> game_over w = false ->
  game_started w = true -> frites_pass sin_deg i n tr w = (r, w') ->
  frites_inv w' /\ loop_frame w w' /\
  ((r = Ok None /\ game_over w' = true) \/
   (exists tr', r = Ok (Some tr') /\ game_over w' = false)).
Proof.
  revert i tr w. induction n as [|n IH]; intros i tr w Hlen Hi Hgo Hgs Hrun; cbn in Hrun.
  { injection Hrun as <- <-. split; [done|split; [apply loop_frame_refl|right; eauto]]. }
  unfold bind in Hrun.
  destruct (frite_step sin_deg i w) as [res w1] eqn:Hstep.
  apply frite_step_spec in Hstep.
  destruct res as [[stop rm]|e].
  2:{ inversion Hstep as [Hnone| | | |]; subst.
      apply lookup_ge_None in Hnone. lia. }
  destruct (step_result_inv i w w1 stop rm Hi Hgo Hgs Hstep) as (Hi1 & Hgo1 & Hf1).
  destruct stop; cbn in Hrun.
  - injection Hrun as <- <-. split; [done|split; [done|left; done]].
  - destruct (IH (S i) _ w1 ltac:(rewrite (lf_len _ _ Hf1); lia) Hi1 Hgo1
      ltac:(rewrite (lf_started _ _ Hf1); done) Hrun)
      as (Hi2 & Hf2 & Hres).
    split; [done|split; [eapply loop_frame_trans; eauto|done]].
Qed.

Local Arguments spawn_frite : simpl never.
Local Arguments frites_pass : simpl never.
Local Arguments Paquet.update : simpl never.
Local Arguments py_mod : simpl never.

Lemma py_mod_ok (a b : Z) (w : world R) :
  b <> 0 -> py_mod a b w = (Ok (a mod b), w).
Proof. intros Hb. unfold py_mod. by rewrite (proj2 (Z.eqb_neq b 0) Hb). Qed.

Lemma spawn_frite_ok (w : world R) :
  exists x0 r0 r', spawn_frite w =
    (Ok tt, set_frites (frites w ++ [fst (Frite.init (inject_Z x0) (inject_Z (-50)) r0)]) (set_rng r' w)).
Proof.
  unfold spawn_frite, rand_int, new_frite. py_run.
  destruct (randint _ _ _) as [z r1]. cbn.
  destruct (Frite.init _ _ r1) as [f r2] eqn:E. exists z, r1, r2. cbn. by rewrite E.
Qed.

Lemma spawn_rate_step (v : Z) :
  20 <= v <= 40 -> Z.even v = true -> 20 < v ->
  20 <= v - 2 <= 40 /\ Z.even (v - 2) = true.
Proof.
  intros Hv He Hlt. rewrite Z.even_sub, He. split; [|reflexivity].
  apply Z.even_spec in He as [k ->]. lia.
Qed.

Lemma frites_pass_S (i n : nat) (tr : list nat) :
  frites_pass (R:=R) sin_deg i (S n) tr =
  (res <- frite_step sin_deg i ;;
   let tr' := if res.2 then tr ++ [i] else tr in
   if res.1 then ret None else frites_pass sin_deg (S i) n tr').
Proof. reflexivity. Qed.

(** When the loop returns from [game_loop] (line 447), the fry that took
    the last life is still in the list, below the screen. *)
Lemma frites_pass_stop (n i : nat) (tr : list nat) (w w' : world R) :
  frites_pass sin_deg i n tr w = (Ok None, w') ->
  exists j f, frites w' !! j = Some f /\ Frite.is_off_screen f = true /\ pending w' = pending w.
Proof.
  revert i tr w. induction n as [|n IH]; intros i tr w; [discriminate|].
  rewrite frites_pass_S. unfold bind. destruct (frite_step sin_deg i w) as [res w1] eqn:Hstep.
  apply frite_step_spec in Hstep.
  inversion Hstep as [|f Hf|f Hf|f Hf Hc Ho Hl|f Hf]; subst; unfold combo_shown;
    try destruct (1 <? _); cbn; try discriminate;
    try (intros Hp; destruct (IH _ _ _ Hp) as (j & f' & ? & ? & ->); by exists j, f').
  intros [= <-]. exists i, (Frite.update sin_deg f). cbn.
  split; [|done]. rewrite list_lookup_insert. case_decide as Hd; [done|].
  destruct Hd. split; [done|]. by eapply lookup_lt_Some.
Qed.

(** The end of a running frame (lines 421-460), from the catcher's move on. *)
Definition frame_tail : PyM (world R) unit :=
  modify (fun w => set_paquet (Paquet.update (paquet w)) w) ;;
  w <- get ;;
  res <- frites_pass sin_deg 0 (length (frites w)) [] ;;
  match res with
  | None => ret tt
  | Some tr =>
      modify (fun w => set_frites (remove_indices 0 tr (frites w)) w) ;;
      w <- get ;;
      draw (FritesDraw.redraw (paquet w) (frites w)) ;;
      schedule_game_loop
  end.

(** The move of the catcher (line 421) keeps it in the window. *)
Lemma update_paquet_inv (w : world R) :
  frites_inv w -> frites_inv (set_paquet (Paquet.update (paquet w)) w).
Proof.
  intros [? ? ? ? ? (Hst & Hx & Ht) ?].
  destruct (Paquet.update_in_window _ Hst Hx Ht) as (? & ? & Ht').
  constructor; cbn; try done. rewrite Ht'. done.
Qed.

(** The end of [game_loop] (lines 421-460): the catcher's move, the fry
    loop, the removals and the rescheduling. *)
Lemma loop_tail_inv (w1 w' : world R) r :
  frites_inv w1 -> game_started w1 = true -> game_over w1 = false ->
  frame_tail w1 = (r, w') ->
  r = Ok tt /\ frites_inv w' /\ game_started w' = true /\
  max_combo w1 <= max_combo w' /\ score w1 <= score w' /\ spawn_rate w' = spawn_rate w1 /\
  pending w' = (if game_over w' then pending w1 else S (pending w1)) /\
  (game_over w' = true -> exists j f, frites w' !! j = Some f /\ Frite.is_off_screen f = true).
Proof.
  intros Hi Hs Hgo. unfold frame_tail. py_run.
  set (w2 := set_paquet (Paquet.update (paquet w1)) w1).
  pose proof (update_paquet_inv w1 Hi) as Hi2.
  destruct (frites_pass sin_deg 0 _ [] w2) as [res w3] eqn:Hp.
  destruct (frites_pass_inv _ 0 [] w2 w3 res ltac:(done) Hi2 Hgo Hs Hp)
    as (Hi3 & Hf & [[-> Ho]|(tr & -> & Ho)]);
    [destruct (frites_pass_stop _ _ _ _ _ Hp) as (j & f & ? & ? & _)|]; cbn;
    intros [= <- <-]; rewrite ?Ho; (split; [done|]).
  - destruct Hf; cbn in *. rewrite ?Ho. split; [done|]. repeat split; try congruence; try lia.
    eauto.
  - destruct Hf, Hi3; cbn in *. rewrite ?Ho. split; [constructor; cbn; tauto|].
    repeat split; congruence || lia.
Qed.

(** What lines 412-418 of a running frame do: count the frame, maybe
    spawn a fry, maybe lower the spawn rate. *)
Record loop_prefix (w w2 : world R) : Prop := {
  lp_frame : frame_count w2 = frame_count w + 1;
  lp_frites : frites w2 = frites w \/
    exists x0 r0, frites w2 = frites w ++ [fst (Frite.init (inject_Z x0) (inject_Z (-50)) r0)];
  lp_rate : spawn_rate w2 =
    if ((frame_count w + 1) mod 500 =? 0) && (20 <? spawn_rate w)
    then spawn_rate w - 2 else spawn_rate w;
  lp_same : paquet w2 = paquet w /\ score w2 = score w /\ lives w2 = lives w /\
    game_over w2 = game_over w /\ game_started w2 = game_started w /\ combo w2 = combo w /\
    max_combo w2 = max_combo w /\ pending w2 = pending w;
  lp_display : canvas w2 = canvas w /\ score_label w2 = score_label w /\
    lives_label w2 = lives_label w /\ combo_timers w2 = combo_timers w
}.

Lemma game_loop_idle (w : world R) :
  negb (game_started w) || game_over w = true -> game_loop sin_deg w = (Ok tt, w).
Proof. intros Hg. unfold game_loop. py_run. by rewrite Hg. Qed.

Lemma frites_game_loop_running (w w' : world R) r :
  negb (game_started w) || game_over w = false -> spawn_rate w <> 0 ->
  game_loop sin_deg w = (r, w') ->
  exists w2, loop_prefix w w2 /\ frame_tail w2 = (r, w').
Proof.
  intros Hg Hr. unfold game_loop. py_run. rewrite Hg, py_mod_ok by done. cbn.
  set (w1 := set_frame_count (frame_count w + 1) w).
  assert (Hsp : exists fs r', (if (frame_count w + 1) mod spawn_rate w =? 0 then spawn_frite
      else fun s => (Ok tt, s)) w1 = (Ok tt, set_frites fs (set_rng r' w1)) /\
      (fs = frites w \/ exists x0 r0, fs = frites w ++ [fst (Frite.init (inject_Z x0) (inject_Z (-50)) r0)])).
  { destruct (_ =? 0).
    - destruct (spawn_frite_ok w1) as (x0 & r0 & r' & ->). eauto 10.
    - exists (frites w1), (rng w1). split; [by destruct w|by left]. }
  destruct Hsp as (fs & r' & -> & Hfs). cbn.
  destruct (((frame_count w + 1) mod 500 =? 0) && (20 <? spawn_rate w)) eqn:Hd;
    intros Ht; eexists; (split; [|exact Ht]); constructor; cbn; rewrite ?Hd; by repeat split.
Qed.

Lemma loop_prefix_inv (w w2 : world R) :
  frites_inv w -> loop_prefix w w2 -> frites_inv w2.
Proof.
  intros [Hc Hl Ho [Hr He] Hs Hp Hi] [Hf _ Hrt (Hpq & Hsc & Hlv & Hov & Hst & Hcb & Hmx & _) _].
  constructor; rewrite ?Hpq, ?Hsc, ?Hlv, ?Hov, ?Hst, ?Hcb, ?Hmx; try done. rewrite Hrt.
  destruct (_ && _) eqn:Hd; [|done].
  apply andb_true_iff in Hd as [_ Hlt%Z.ltb_lt]. by apply spawn_rate_step.
Qed.

(** [game_loop] never raises from a state of the invariant (the modulo
    of line 415 is by a spawn rate of at least 20), keeps the invariant,
    only raises the best combo and the score, never raises the spawn
    rate, and reschedules itself exactly when it ran and the game is not
    over at its end. *)
Lemma frites_game_loop_inv (w w' : world R) r :
  frites_inv w -> game_loop sin_deg w = (r, w') ->
  r = Ok tt /\ frites_inv w' /\ game_started w' = game_started w /\
  max_combo w <= max_combo w' /\ score w <= score w' /\ spawn_rate w' <= spawn_rate w /\
  pending w' = (if game_started w && negb (game_over w') then S (pending w) else pending w) /\
  (game_over w' = true -> game_over w = false ->
   exists j f, frites w' !! j = Some f /\ Frite.is_off_screen f = true).
Proof.
  intros Hi Hl. destruct (negb (game_started w) || game_over w) eqn:Hg.
  { rewrite game_loop_idle in Hl by done. injection Hl as <- <-.
    split; [done|split; [done|]].
    destruct (game_started w) eqn:Hs, (game_over w) eqn:Ho; cbn in *;
      repeat split; try lia; intros; congruence. }
  assert (Hr := inv_rate _ Hi).
  destruct (frites_game_loop_running w w' r Hg ltac:(lia) Hl) as (w2 & Hp & Ht).
  apply orb_false_iff in Hg as [Hs%negb_false_iff Hgo].
  pose proof (loop_prefix_inv w w2 Hi Hp) as Hi2.
  destruct Hp as [_ _ Hrt (Hpq & Hsc & Hlv & Hov & Hst & Hcb & Hmx & Hpd) _].
  apply (loop_tail_inv w2) in Ht as (-> & Hi3 & Hs3 & Hm & Hsc' & Hrt' & Hp & Hstop);
    [|done|congruence|congruence].
  rewrite Hs, Hp, Hpd, Hs3. do 2 (split; [done|]).
  repeat split; try lia; [destruct (_ && _); lia|by destruct (game_over w')|intros; by apply Hstop].
Qed.

Local Arguments game_loop : simpl never.

Lemma set_started_inv (w : world R) : frites_inv w -> frites_inv (set_game_started true w).
Proof. intros []. by constructor. Qed.

(** The display fields play no part in the invariant. *)
Lemma set_canvas_inv (w : world R) c : frites_inv w -> frites_inv (set_canvas c w).
Proof. intros []. by constructor. Qed.
Lemma set_score_label_inv (w : world R) s : frites_inv w -> frites_inv (set_score_label s w).
Proof. intros []. by constructor. Qed.
Lemma set_lives_label_inv (w : world R) s : frites_inv w -> frites_inv (set_lives_label s w).
Proof. intros []. by constructor. Qed.
Lemma set_combo_timers_inv (w : world R) n : frites_inv w -> frites_inv (set_combo_timers n w).
Proof. intros []. by constructor. Qed.

#[local] Hint Resolve set_started_inv set_canvas_inv set_score_label_inv set_lives_label_inv
  set_combo_timers_inv : game.

Lemma set_pending_inv (w : world R) n : frites_inv w -> frites_inv (set_pending n w).
Proof. intros []. by constructor. Qed.

Lemma set_fullscreen_inv (w : world R) b : frites_inv w -> frites_inv (set_is_fullscreen b w).
Proof. intros []. by constructor. Qed.

Lemma reset_fields_inv (w : world R) : frites_inv w -> frites_inv (reset_fields w).
Proof.
  intros [? ? ? ? ? (Hst & ? & ?) ?].
  destruct Hst as (? & ? & ?). constructor; cbn; try done; try lia.
Qed.

Lemma move_paquet_inv (w : world R) ex :
  frites_inv w -> frites_inv (set_paquet (Paquet.move_to ex (paquet w)) w).
Proof.
  intros [? ? ? ? ? (Hst & Hx & ?) ?].
  destruct (Paquet.move_to_in_window ex _ Hst) as (? & Hx' & ?).
  constructor; cbn; rewrite ?Hx'; done.
Qed.

(** Does the event reset the game ([restart_game]). *)
Definition is_restart (e : event) : bool :=
  match e with Key_r | Key_R => true | _ => false end.

(** Every callback returns normally from a state of the invariant and
    keeps it; the best combo and the score only decrease on restart. *)
Lemma frites_handle_inv (e : event) (w w' : world R) r :
  frites_inv w -> handle sin_deg e w = (r, w') ->
  r = Ok tt /\ frites_inv w' /\
  (is_restart e = false -> max_combo w <= max_combo w' /\ score w <= score w').
Proof.
  intros Hi. destruct e; cbn [handle is_restart].
  - unfold on_mouse_move. py_run. destruct (_ && _); intros [= <- <-];
      (split; [done|split; [auto using move_paquet_inv|cbn; lia]]).
  - unfold on_click, start_game. py_run. destruct (game_started w); cbn.
    + intros [= <- <-]. split; [done|split; [done|lia]].
    + intros (-> & Hi' & _ & Hm & Hs & _)%frites_game_loop_inv; [|auto with game].
      split; [done|split; [done|cbn in *; lia]].
  - unfold restart_game. py_run. intros [= <- <-].
    split; [done|split; [auto 10 using reset_fields_inv with game|done]].
  - unfold restart_game. py_run. intros [= <- <-].
    split; [done|split; [auto 10 using reset_fields_inv with game|done]].
  - unfold toggle_fullscreen. py_run. intros [= <- <-].
    split; [done|split; [auto using set_fullscreen_inv|cbn; lia]].
  - unfold exit_fullscreen. py_run. destruct (is_fullscreen w); cbn; intros [= <- <-];
      (split; [done|split; [auto using set_fullscreen_inv|cbn; lia]]).
  - unfold fire_timer. py_run. destruct (pending w); cbn.
    + intros [= <- <-]. split; [done|split; [done|lia]].
    + intros (-> & Hi' & _ & Hm & Hs & _)%frites_game_loop_inv; [|by apply set_pending_inv].
      split; [done|split; [done|cbn in *; lia]].
  - unfold fire_combo_timer, draw. py_run. destruct (combo_timers w); cbn; intros [= <- <-];
      (split; [done|split; [auto with game|cbn; lia]]).
Qed.

Lemma init_world_inv (r : R) : frites_inv (init_world r).
Proof.
  constructor; cbn; try done; try lia.
Qed.

Lemma frites_tk_step_inv (w w' : world R) : frites_inv w -> tk_step sin_deg w w' -> frites_inv w'.
Proof.
  intros Hi Hs. inversion Hs as [e w0 r w1 Hh]; subst.
  by destruct (frites_handle_inv e w w' r Hi Hh) as (_ & ? & _).
Qed.

Lemma frites_rtc_tk_step_inv (w w' : world R) :
  rtc (tk_step sin_deg) w w' -> frites_inv w -> frites_inv w'.
Proof. induction 1; eauto using frites_tk_step_inv. Qed.

Lemma frites_run_events_rtc (es : list event) (w : world R) :
  rtc (tk_step sin_deg) w (run_events sin_deg es w).
Proof.
  revert w. induction es as [|e es IH]; intros w; cbn; [done|].
  destruct (handle sin_deg e w) as [r w1] eqn:Hh. cbn.
  eapply rtc_l; [econstructor; exact Hh|apply IH].
Qed.

Lemma frites_run_events_inv (es : list event) (r : R) :
  frites_inv (run_events sin_deg es (init_world r)).
Proof. eapply frites_rtc_tk_step_inv; [apply frites_run_events_rtc|apply init_world_inv]. Qed.


(** The indices the loop collects: new ones, in the range it visited,
    each once. *)
Lemma frites_pass_tr (n i : nat) (tr tr' : list nat) (w w' : world R) :
  frites_pass sin_deg i n tr w = (Ok (Some tr'), w') ->
  exists ext, tr' = tr ++ ext /\ NoDup ext /\ forall k, k ∈ ext -> (i <= k < i + n)%nat.
Proof.
  revert i tr w. induction n as [|n IH]; intros i tr w.
  { intros [= <- _]. exists []. rewrite app_nil_r. split; [done|split; [constructor|set_solver]]. }
  rewrite frites_pass_S. unfold bind. destruct (frite_step sin_deg i w) as [[[[] rm]|e] w1]; cbn;
    try discriminate.
  intros (ext & -> & Hnd & Hr)%IH. destruct rm.
  - exists (i :: ext). rewrite <-app_assoc. split; [done|split].
    + constructor; [|done]. intros Hi%Hr. lia.
    + intros k [->|Hk%Hr]%elem_of_cons; lia.
  - exists ext. split; [done|split; [done|]]. intros k Hk%Hr. lia.
Qed.

Lemma remove_indices_seq (n i : nat) (tr : list nat) :
  remove_indices i tr (seq i n) = filter (fun y => y ∉ tr) (seq i n).
Proof.
  revert i. induction n as [|n IH]; intros i; [done|].
  cbn [seq remove_indices]. rewrite filter_cons, IH.
  case_bool_decide; case_decide; done.
Qed.
End Inv.

(** ** The fries of the list *)

Section Fries.
Context {R : Type} `{RandIntLaws R} `{RandUniformLaws R}.
Variable sin_deg : Q -> Q.

Local Arguments Frite.update : simpl never.
Local Arguments Frite.is_off_screen : simpl never.
Local Arguments frites_pass : simpl never.
Local Arguments Paquet.update : simpl never.

(** The attributes [Frite.__init__] gives a fry and [Frite.update]
    keeps. *)
Definition fry_shape (f : Frite.frite) : Prop :=
  Frite.width f = 8 /\ Frite.height f = 40 /\ (2 <= Frite.speed f <= 4)%Q /\
  -30 <= Frite.rotation f <= 30.

Definition on_screen (f : Frite.frite) : Prop := Frite.is_off_screen f = false.

Record fries_ok (w : world R) : Prop := {
  fo_shape : Forall fry_shape (frites w);
  fo_screen : game_over w = false -> Forall on_screen (frites w)
}.

Lemma update_shape (f : Frite.frite) : fry_shape f -> fry_shape (Frite.update sin_deg f).
Proof. done. Qed.

Lemma init_fry_ok (x0 : Z) (r : R) :
  fry_shape (fst (Frite.init (inject_Z x0) (inject_Z (-50)) r)) /\
  on_screen (fst (Frite.init (inject_Z x0) (inject_Z (-50)) r)).
Proof.
  destruct (Frite.init_spec (inject_Z x0) (inject_Z (-50)) r) as (_ & Hy & ? & ? & ? & ? & _).
  split; [done|]. unfold on_screen, Frite.is_off_screen. by rewrite Hy.
Qed.

Lemma remove_indices_Forall {A} (P : A -> Prop) (i : nat) (tr : list nat) (l : list A) :
  (forall j x, l !! j = Some x -> (i + j)%nat ∉ tr -> P x) -> Forall P (remove_indices i tr l).
Proof.
  revert i. induction l as [|a l IH]; intros i Hl; cbn; [done|].
  assert (Hrest : forall j x, l !! j = Some x -> (S i + j)%nat ∉ tr -> P x).
  { intros j x Hj. replace (S i + j)%nat with (i + S j)%nat by lia. by apply Hl. }
  case_bool_decide as Hi; [by apply IH|].
  constructor; [apply (Hl 0%nat); [done|by rewrite Nat.add_0_r]|by apply IH].
Qed.

Lemma frites_pass_shape (n i : nat) (tr : list nat) (w w' : world R) r :
  Forall fry_shape (frites w) -> frites_pass sin_deg i n tr w = (r, w') ->
  Forall fry_shape (frites w').
Proof.
  revert i tr w. induction n as [|n IH]; intros i tr w Hf; [by intros [= <- <-]|].
  rewrite frites_pass_S. unfold bind. destruct (frite_step sin_deg i w) as [res w1] eqn:Hstep.
  assert (Hf1 : Forall fry_shape (frites w1)).
  { apply frite_step_spec in Hstep.
    inversion Hstep as [|f Hi|f Hi|f Hi|f Hi]; subst; unfold combo_shown;
      try destruct (1 <? _); cbn; try done;
      (apply Forall_insert; [done|apply update_shape; by eapply Forall_lookup_1]). }
  destruct res as [[[] rm]|e]; cbn; [by intros [= <- <-]|eauto|by intros [= <- <-]].
Qed.

(** The fries the loop keeps (those not in [frites_to_remove]) are the
    ones still on the screen. *)
Lemma frites_pass_on_screen (n i : nat) (tr tr' : list nat) (w w' : world R) :
  frites_pass sin_deg i n tr w = (Ok (Some tr'), w') ->
  (forall j f, frites w !! j = Some f -> (j < i)%nat -> j ∉ tr -> on_screen f) ->
  forall j f, frites w' !! j = Some f -> (j < i + n)%nat -> j ∉ tr' -> on_screen f.
Proof.
  revert i tr w. induction n as [|n IH]; intros i tr w.
  { intros [= -> <-] Hw j f Hj Hlt. apply (Hw j f Hj). lia. }
  rewrite frites_pass_S. unfold bind. destruct (frite_step sin_deg i w) as [res w1] eqn:Hstep.
  apply frite_step_spec in Hstep.
  destruct res as [[[] rm]|e]; cbn; [discriminate| |discriminate].
  intros Hp Hw j f Hj Hlt Hn.
  enough (Hw1 : forall k g, frites w1 !! k = Some g -> (k < S i)%nat ->
    k ∉ (if rm then tr ++ [i] else tr) -> on_screen g)
    by (apply (IH (S i) _ w1 Hp Hw1 j f Hj); [lia|done]).
  intros k g Hk Hki Hkn.
  inversion Hstep as [|f0 Hf0|f0 Hf0|f0 Hf0|f0 Hf0 Hc Ho]; subst; revert Hk;
    unfold combo_shown; try destruct (1 <? _); cbn; intros Hk;
    rewrite list_lookup_insert in Hk; case_decide as Hd.
  all: try (destruct Hd as [-> _]; first [set_solver|injection Hk as <-; exact Ho]).
  all: destruct (decide (k = i)) as [->|Hne];
    [exfalso; apply Hd; split; [done|by eapply lookup_lt_Some]|
     apply (Hw k g Hk); [lia|set_solver]].
Qed.

Lemma frame_tail_fries (w1 w' : world R) r :
  frites_inv w1 -> game_started w1 = true -> game_over w1 = false -> fries_ok w1 ->
  frame_tail sin_deg w1 = (r, w') -> fries_ok w'.
Proof.
  intros Hi Hs Hgo [Hsh Hsc]. unfold frame_tail. py_run.
  set (w2 := set_paquet (Paquet.update (paquet w1)) w1).
  pose proof (update_paquet_inv w1 Hi) as Hi2.
  destruct (frites_pass sin_deg 0 _ [] w2) as [res w3] eqn:Hp.
  pose proof (frites_pass_shape _ 0 [] w2 w3 res Hsh Hp) as Hsh3.
  destruct (frites_pass_inv sin_deg _ 0 [] w2 w3 res ltac:(done) Hi2 Hgo Hs Hp)
    as (_ & Hf & [[-> Ho]|(tr & -> & Ho)]); cbn; intros [= <- <-]; [constructor; [done|intros; congruence]|].
  constructor; cbn.
  - apply remove_indices_Forall. intros j x Hj _. by eapply Forall_lookup_1.
  - intros _. apply remove_indices_Forall. intros j x Hj Hn.
    apply (frites_pass_on_screen _ 0 [] tr w2 w3 Hp) with (j := j); [lia|done|..|done].
    change (j < length (frites w2))%nat. rewrite <-(lf_len _ _ Hf). by eapply lookup_lt_Some.
Qed.

Lemma game_loop_fries (w w' : world R) r :
  frites_inv w -> fries_ok w -> game_loop sin_deg w = (r, w') -> fries_ok w'.
Proof.
  intros Hi Hf Hl. destruct (negb (game_started w) || game_over w) eqn:Hg.
  { rewrite game_loop_idle in Hl by done. by injection Hl as <- <-. }
  assert (Hr := inv_rate _ Hi).
  destruct (frites_game_loop_running sin_deg w w' r Hg ltac:(lia) Hl) as (w2 & Hp & Ht).
  apply orb_false_iff in Hg as [Hs%negb_false_iff Hgo].
  pose proof (loop_prefix_inv w w2 Hi Hp) as Hi2.
  destruct Hp as [_ Hfr _ (_ & _ & _ & Hov & Hst & _) _], Hf as [Hsh Hsc].
  apply (frame_tail_fries w2 w' r); [done|congruence|congruence|..|done].
  constructor; [|intros _];
    (destruct Hfr as [->|(x0 & r0 & ->)]; [by auto|apply Forall_app; split; [by auto|]]);
    constructor; [|done|..|done]; apply init_fry_ok.
Qed.

Local Arguments game_loop : simpl never.

(** Every callback keeps the fries well formed. *)
Lemma handle_fries (e : event) (w w' : world R) r :
  frites_inv w -> fries_ok w -> handle sin_deg e w = (r, w') -> fries_ok w'.
Proof.
  intros Hi [Hsh Hsc]. destruct e; cbn [handle].
  - unfold on_mouse_move. py_run. destruct (_ && _); intros [= <- <-]; by constructor.
  - unfold on_click, start_game. py_run. destruct (game_started w); cbn.
    + intros [= <- <-]. by constructor.
    + apply game_loop_fries; [by apply set_canvas_inv, set_started_inv|by constructor].
  - unfold restart_game. py_run. intros [= <- <-]. by constructor.
  - unfold restart_game. py_run. intros [= <- <-]. by constructor.
  - unfold toggle_fullscreen. py_run. intros [= <- <-]. by constructor.
  - unfold exit_fullscreen. py_run. destruct (is_fullscreen w); cbn; intros [= <- <-]; by constructor.
  - unfold fire_timer. py_run. destruct (pending w); cbn.
    + intros [= <- <-]. by constructor.
    + apply game_loop_fries; [by apply set_pending_inv|by constructor].
  - unfold fire_combo_timer, draw. py_run. destruct (combo_timers w); cbn; intros [= <- <-];
      by constructor.
Qed.

Lemma run_events_fries (es : list event) (w : world R) :
  frites_inv w -> fries_ok w -> fries_ok (run_events sin_deg es w).
Proof.
  revert w. induction es as [|e es IH]; intros w Hi Hf; cbn; [done|].
  destruct (handle sin_deg e w) as [r w1] eqn:Hh. cbn.
  apply IH; [by destruct (frites_handle_inv sin_deg e w w1 r Hi Hh) as (_ & ? & _)|].
  by apply (handle_fries e w w1 r).
Qed.
End Fries.


(** ** Properties *)

Section Claims.
Context {R : Type} `{RandInt R} `{RandUniform R}.
Variable sin_deg : Q -> Q.

Local Arguments game_loop : simpl never.

(** C15: after any sequence of events from the start of the program the
    game object satisfies [frites_inv]: [0 <= combo <= max_combo],
    [0 <= lives <= 3], the game is over exactly when no life is left,
    the spawn rate is an even number of [20..40], the score is
    non-negative, the catcher keeps its shape and its position and
    target stay in [40, 760], and an unstarted game is not over. *)
Theorem frites_inv_after_events (r : R) (es : list event) :
  frites_inv (run_events sin_deg es (init_world r)).
Proof. apply frites_run_events_inv. Qed.

(** C16: no callback of the program raises in a reachable state: the
    [%] of line 415 is by a spawn rate of at least 20, and the fry loop
    only reads indices of the list. *)
Theorem frites_callbacks_never_raise (r : R) (es : list event) (w w' : world R) (e : event) res :
  run_events sin_deg es (init_world r) = w -> handle sin_deg e w = (res, w') -> res = Ok tt.
Proof. intros <- Hh. apply (frites_handle_inv sin_deg e (run_events sin_deg es (init_world r)) w' res); [apply frites_run_events_inv|done]. Qed.

(** C18: between two restarts the best combo and the score never
    decrease (section 8 of the design notes: max-combo is monotonically
    non-decreasing across a run). *)
Theorem max_combo_monotone (r : R) (es : list event) (w w' : world R) (e : event) res :
  run_events sin_deg es (init_world r) = w -> is_restart e = false ->
  handle sin_deg e w = (res, w') -> max_combo w <= max_combo w' /\ score w <= score w'.
Proof. intros <- He Hh. apply (frites_handle_inv sin_deg e (run_events sin_deg es (init_world r)) w' res); [apply frites_run_events_inv|done|done]. Qed.

(** C22: [restart_game] rebuilds the state of a fresh game except for
    the module global [FRITE_SPAWN_RATE], which keeps the value lowered
    by the frames played (line 417): a restarted game spawns fries at
    the rate the previous game reached.  The pending timers and the
    fullscreen flag are, as they should be, not reset; the canvas and the
    labels are those of a fresh game. *)
Theorem restart_keeps_spawn_rate (w : world R) :
  Paquet.standard (paquet w) ->
  snd (restart_game w) =
  set_spawn_rate (spawn_rate w) (set_pending (pending w) (set_combo_timers (combo_timers w)
    (set_is_fullscreen (is_fullscreen w) (init_world (rng w))))).
Proof.
  intros (Hw & Hh & Hs & Hy).
  destruct w as [[px py pw ph pt ps] ? ? ? ? ? ? ? ? ? ? ? ? ? ? ? ?]; cbn in *; subst.
  unfold restart_game, update_score, update_lives, draw. py_run.
  rewrite Canvas.delete_all. reflexivity.
Qed.

(** A tick of a started game with no fry, at frame 0, schedules the next tick. *)
Lemma game_loop_empty_frame (w : world R) :
  1 < spawn_rate w -> frites w = [] -> frame_count w = 0 -> game_started w = true ->
  game_over w = false ->
  let w' := snd (game_loop sin_deg w) in
  pending w' = S (pending w) /\ game_started w' = true /\ game_over w' = false.
Proof.
  intros Hr Hf Hc Hs Ho. cbn zeta. unfold game_loop. py_run. rewrite Hs, Ho. cbn. rewrite Hc. cbn.
  rewrite py_mod_ok by lia. cbn. replace (0 + 1) with 1 by reflexivity. rewrite Z.mod_small by lia. cbn.
  replace (1 mod 500 =? 0) with false by reflexivity. cbn. rewrite Hf. cbn. rewrite Hs. done.
Qed.

Lemma restart_game_fields (w : world R) :
  fst (restart_game w) = Ok tt /\
  let w1 := snd (restart_game w) in
  frites w1 = [] /\ frame_count w1 = 0 /\ game_started w1 = false /\ game_over w1 = false /\
  spawn_rate w1 = spawn_rate w /\ pending w1 = pending w.
Proof. unfold restart_game, update_score, update_lives, draw. py_run. done. Qed.

(** C23: a restart followed by a click starts one more [game_loop]
    chain whatever the number already pending: restarting a running game
    and clicking before its pending tick fires leaves two chains, and the
    game runs at twice the speed (lines 218-225 do not check for a
    running chain). *)
Theorem restart_click_adds_chain (w : world R) :
  1 < spawn_rate w ->
  let w' := snd ((restart_game ;; on_click sin_deg) w) in
  pending w' = S (pending w) /\ game_started w' = true /\ game_over w' = false.
Proof.
  intros Hr. destruct (restart_game_fields w) as (Hok & Hf & Hc & Hs & Ho & Hrt & Hp).
  destruct (restart_game w) as [r1 w1] eqn:E. cbn in Hok, Hf, Hc, Hs, Ho, Hrt, Hp. subst r1.
  cbn zeta. rewrite (bind_ok _ _ _ _ _ E).
  unfold on_click, start_game, draw. py_run. rewrite Hs. cbn.
  match goal with |- context [game_loop sin_deg ?W] =>
    destruct (game_loop_empty_frame W) as (H1 & H2 & H3) end;
    try (cbn; lia); try (cbn; congruence).
  rewrite H1, H2, H3. cbn. by rewrite Hp.
Qed.

(** C24: the frame on which the last life is lost ends [game_loop] by
    the [return] of line 447: no tick is scheduled any more, and the fry
    that was missed is left in [self.frites], below the screen, with the
    fries not yet visited in this frame (the removals of lines 450-451
    are skipped). *)
Theorem game_over_frame_keeps_fry (w w' : world R) r :
  frites_inv w -> game_over w = false -> game_loop sin_deg w = (r, w') ->
  game_over w' = true ->
  lives w' = 0 /\ pending w' = pending w /\
  exists j f, frites w' !! j = Some f /\ Frite.is_off_screen f = true.
Proof.
  intros Hi Ho Hl Ho'.
  destruct (frites_game_loop_inv sin_deg w w' r Hi Hl) as (_ & Hi' & _ & _ & _ & _ & Hp & Hst).
  split; [by apply (inv_over _ Hi')|]. rewrite Ho' in Hp. cbn in Hp.
  split; [by rewrite andb_false_r in Hp|auto].
Qed.

(** C21: the removals of lines 450-451 done as Python does them: the fry
    at index [j] of [self.frites] is the object [j], and removing each
    object of [frites_to_remove] with [list.remove] never raises
    [ValueError] (each was put there once, and is in the list) and keeps
    exactly the fries [remove_indices] keeps, in their order. *)
Theorem frites_pass_remove_equiv (w w' : world R) (tr : list nat) :
  frites_pass sin_deg 0 (length (frites w)) [] w = (Ok (Some tr), w') ->
  PyList.remove_each tr (seq 0 (length (frites w))) =
  Some (remove_indices 0 tr (seq 0 (length (frites w)))).
Proof.
  intros (ext & -> & Hnd & Hr)%frites_pass_tr.
  rewrite remove_indices_seq. apply PyList.remove_each_filter; [apply NoDup_seq|done|].
  intros k Hk%Hr. apply elem_of_seq. lia.
Qed.
End Claims.

Section FryClaims.
Context {R : Type} `{RandIntLaws R} `{RandUniformLaws R}.
Variable sin_deg : Q -> Q.

(** C20: after any sequence of events every fry in [self.frites] has
    the size 8x40, a speed in [2, 4] and an angle in [-30, 30], as
    [Frite.__init__] draws them and [Frite.update] keeps them. *)
Theorem fries_shape_after_events (r : R) (es : list event) :
  Forall fry_shape (frites (run_events sin_deg es (init_world r))).
Proof. apply run_events_fries; [apply init_world_inv|by constructor]. Qed.

(** C19: while the game is not over, every fry in [self.frites] is on
    the screen ([is_off_screen] false): a fry below the bottom edge is
    removed in the frame it crosses it, unless that frame ends the game. *)
Theorem fries_on_screen_after_events (r : R) (es : list event) :
  game_over (run_events sin_deg es (init_world r)) = false ->
  Forall on_screen (frites (run_events sin_deg es (init_world r))).
Proof.
  apply run_events_fries; [apply init_world_inv|by constructor].
Qed.
End FryClaims.

(** ** The deletion timers of the combo text *)

Section ComboTimer.
Context {R : Type} `{RandInt R} `{RandUniform R}.
Variable sin_deg : Q -> Q.

(** C35: the deletion timer of [show_combo] (line 403) deletes whatever
    combo text is on the canvas when it fires, not the text it was
    scheduled with.  Two combos shown in a row, the second after one
    more catch: [show_combo] replaces the first text by the second and
    two deletion timers are pending; the first timer to fire (the one of
    the first combo, the delays being equal) already removes the second
    text, while its own timer is still pending. *)
Theorem combo_timer_clears_text (w : world R) :
  1 < combo w ->
  let w1 := snd (show_combo w) in
  let w2 := snd (show_combo (set_combo (combo w + 1) w1)) in
  let w3 := snd (handle sin_deg ComboTimerFire w2) in
  Canvas.tagged "combo" (canvas w2) = Canvas.tagged "combo" (FritesDraw.show_combo (combo w + 1) []) /\
  combo_timers w2 = S (S (combo_timers w)) /\
  fst (handle sin_deg ComboTimerFire w2) = Ok tt /\
  Canvas.tagged "combo" (canvas w3) = [] /\ combo_timers w3 = S (combo_timers w).
Proof.
  intros Hc. cbn zeta. unfold show_combo, draw. py_run.
  rewrite (proj2 (Z.ltb_lt 1 (combo w)) Hc). cbn.
  rewrite (proj2 (Z.ltb_lt 1 (combo w + 1))) by lia. cbn.
  split; [apply FritesDraw.show_combo_tagged|split; [done|]].
  cbn [handle]. unfold fire_combo_timer, draw. py_run.
  split; [done|split; [by apply Canvas.tagged_delete; set_solver|done]].
Qed.
End ComboTimer.

(** ** Concrete runs *)

(** A sine that is 0 everywhere: the fries fall straight down. *)
Definition sin_zero (q : Q) : Q := 0.

(** Every fry is drawn at x = 400, under the catcher, with speed 2. *)
Definition demo_seed : Scripted := concat (repeat [350; 0; 0; 0] 20).

(** A click and 499 ticks: 500 frames, six fries caught, the spawn rate
    lowered once to 38. *)
Definition demo_events : list event := Click :: repeat TimerFire 499.
Definition demo_world : world Scripted := run_events sin_zero demo_events (init_world demo_seed).

Lemma frites_callbacks_never_raise_witness :
  fst (handle sin_zero TimerFire demo_world) = Ok tt.
Proof.
  apply (frites_callbacks_never_raise sin_zero demo_seed demo_events demo_world
    (snd (handle sin_zero TimerFire demo_world)) TimerFire); [vm_compute; reflexivity|vm_compute; reflexivity].
Defined.

Lemma max_combo_monotone_witness :
  max_combo demo_world = 6 /\
  max_combo demo_world <= max_combo (snd (handle sin_zero TimerFire demo_world)) /\
  score demo_world <= score (snd (handle sin_zero TimerFire demo_world)).
Proof.
  split; [vm_compute; reflexivity|].
  apply (max_combo_monotone sin_zero demo_seed demo_events demo_world _ TimerFire
    (fst (handle sin_zero TimerFire demo_world))); [vm_compute; reflexivity|reflexivity|vm_compute; reflexivity].
Defined.

(** After 500 frames, r restarts the game with a spawn rate of 38, not
    the 40 of a fresh game. *)
Lemma restart_keeps_spawn_rate_witness :
  spawn_rate demo_world = 38 /\
  snd (restart_game demo_world) =
  set_spawn_rate (spawn_rate demo_world) (set_pending (pending demo_world)
    (set_combo_timers (combo_timers demo_world)
      (set_is_fullscreen (is_fullscreen demo_world) (init_world (rng demo_world))))).
Proof.
  split; [vm_compute; reflexivity|].
  apply restart_keeps_spawn_rate. vm_compute. repeat split.
Defined.

(** The game of [demo_world] is running with one tick pending; r then a
    click leave two. *)
Lemma restart_click_adds_chain_witness :
  pending demo_world = 1%nat /\
  pending (snd ((restart_game ;; on_click sin_zero) demo_world)) = 2%nat.
Proof.
  split; [vm_compute; reflexivity|].
  apply (restart_click_adds_chain sin_zero demo_world). vm_compute. reflexivity.
Defined.

Lemma fries_shape_after_events_witness :
  length (frites (run_events sin_zero demo_events (init_world demo_seed))) = 6%nat /\
  Forall fry_shape (frites (run_events sin_zero demo_events (init_world demo_seed))).
Proof.
  split; [vm_compute; reflexivity|].
  apply (fries_shape_after_events sin_zero demo_seed demo_events).
Defined.

Lemma fries_on_screen_after_events_witness :
  game_over (run_events sin_zero demo_events (init_world demo_seed)) = false /\
  Forall on_screen (frites (run_events sin_zero demo_events (init_world demo_seed))).
Proof.
  split; [vm_compute; reflexivity|].
  apply (fries_on_screen_after_events sin_zero demo_seed demo_events). vm_compute. reflexivity.
Defined.

(** Frame 299 of the demo: seven fries in the list, the first one is
    caught; removing object 0 with [list.remove] leaves objects 1 to 6. *)
Definition catch_world : world Scripted :=
  run_events sin_zero (Click :: repeat TimerFire 297) (init_world demo_seed).

(** The first fry of [catch_world] is caught: 10 points at combo 0. *)
Lemma frite_step_combo_witness :
  combo catch_world = 0 /\
  score (snd (frite_step sin_zero 0 catch_world)) = score catch_world + 10 + 5 * combo catch_world.
Proof.
  split; [vm_compute; reflexivity|].
  destruct (frite_step_combo sin_zero 0 catch_world false true (snd (frite_step sin_zero 0 catch_world)))
    as [(Hr & _)|[(_ & _ & _ & Hs & _)|(_ & _ & _ & Hl & _)]];
    [vm_compute; reflexivity|discriminate|exact Hs|vm_compute in Hl; discriminate].
Defined.

Lemma frites_pass_remove_equiv_witness :
  PyList.remove_each [0%nat] (seq 0 7) = Some [1; 2; 3; 4; 5; 6]%nat /\
  PyList.remove_each [0%nat] (seq 0 (length (frites catch_world))) =
  Some (remove_indices 0 [0%nat] (seq 0 (length (frites catch_world)))).
Proof.
  split; [vm_compute; reflexivity|].
  apply (frites_pass_remove_equiv sin_zero catch_world
    (snd (frites_pass sin_zero 0 (length (frites catch_world)) [] catch_world))).
  vm_compute. reflexivity.
Defined.

(** One life left and a fry about to leave the screen away from the
    catcher. *)
Definition last_life_world : world Scripted :=
  set_game_started true (set_lives 1
    (set_frites [Frite.mkFrite 50 599 8 40 2 0 0] (init_world []))).

Lemma game_over_frame_keeps_fry_witness :
  lives (snd (game_loop sin_zero last_life_world)) = 0 /\
  pending (snd (game_loop sin_zero last_life_world)) = pending last_life_world /\
  exists j f, frites (snd (game_loop sin_zero last_life_world)) !! j = Some f /\
              Frite.is_off_screen f = true.
Proof.
  apply (game_over_frame_keeps_fry sin_zero last_life_world _
    (fst (game_loop sin_zero last_life_world))); [vm_decide|vm_compute; reflexivity|vm_compute; reflexivity|vm_compute; reflexivity].
Defined.

(** A game at combo 2 that catches one more fry: the texts "COMBO x2!"
    and "COMBO x3!" are shown in turn. *)
Definition combo_world : world Scripted := set_combo 2 (init_world []).

Lemma combo_timer_clears_text_witness :
  1 < combo combo_world /\
  Canvas.tagged "combo" (canvas (snd (handle sin_zero ComboTimerFire
    (snd (show_combo (set_combo (combo combo_world + 1) (snd (show_combo combo_world)))))))) = [].
Proof.
  split; [vm_compute; reflexivity|].
  destruct (combo_timer_clears_text sin_zero combo_world) as (_ & _ & _ & Hd & _);
    [vm_compute; reflexivity|exact Hd].
Defined.

End FritesGame.
