(* ===== verification/FritesView.v ===== *)
(** * What the catcher's window shows

    The canvas and the two labels of [FritesGame] (src/frites_game.py)
    against the state of the game: [display_inv] (the labels show the
    score and the lives, every item has at most one tag, at most one
    combo text is shown and only while a deletion timer of line 403 is
    pending, the start and game-over screens follow the flags) and
    [fries_shown] (while the game runs the items tagged "frite" are the
    fries of the list, drawn by [draw_frite]) hold initially and are kept
    by each branch of the fry loop, by [game_loop] and by every callback,
    hence after any sequence of events.  The claims C31-C34 read them
    back as [labels_ok], [screens_ok], [combo_ok] and [fries_shown]. *)

From stdpp Require Import base list decidable sets relations strings.
From Stdlib Require Import ZArith QArith Lqa Lia.
From S2P Require Import Prelude PyRandom PyList Canvas Paquet Frite FritesDraw FritesGame.

Module FritesView.
Import FritesGame.
Local Open Scope Z_scope.
Local Open Scope py_scope.

(** ** What the window shows *)

Section Display.
Context {R : Type} `{RandInt R} `{RandUniform R}.
Variable sin_deg : Q -> Q.

Local Arguments Frite.update : simpl never.
Local Arguments Frite.is_off_screen : simpl never.
Local Arguments frites_pass : simpl never.
Local Arguments Paquet.update : simpl never.

(** The labels show the score and the lives; every item has at most one
    tag; at most one combo text is shown, and only while a deletion timer
    of line 403 is pending; the start screen is shown exactly while the
    game is not started and the game-over screen exactly when it is
    over. *)
Record display_inv (w : world R) : Prop := {
  di_score : score_label w = FritesDraw.score_text (score w);
  di_lives : lives_label w = FritesDraw.lives_text (lives w);
  di_one_tag : Canvas.one_tag (canvas w);
  di_combo : (length (Canvas.tagged "combo" (canvas w)) <= 1)%nat /\
             (length (Canvas.tagged "combo" (canvas w)) <= combo_timers w)%nat;
  di_start : game_started w = false <-> Canvas.tagged "start" (canvas w) <> [];
  di_over : game_over w = true <-> Canvas.tagged "gameover" (canvas w) <> []
}.

(** While the game is not over, the fries drawn are those of the list. *)
Definition fries_shown (w : world R) : Prop :=
  game_over w = false -> Canvas.tagged "frite" (canvas w) = FritesDraw.fries_drawn (frites w).

(** The score label reads ["Score: " ^ str(score)] and the lives label
    [("❤️ " * lives).strip()] (lines 380-387). *)
Definition labels_ok (w : world R) : Prop :=
  score_label w = FritesDraw.score_text (score w) /\ lives_label w = FritesDraw.lives_text (lives w).

(** The start screen is shown exactly while the game is not started, the
    game-over screen exactly when it is over. *)
Definition screens_ok (w : world R) : Prop :=
  (game_started w = false <-> Canvas.tagged "start" (canvas w) <> []) /\
  (game_over w = true <-> Canvas.tagged "gameover" (canvas w) <> []).

(** At most one combo text, and one only while a deletion timer is
    pending. *)
Definition combo_ok (w : world R) : Prop :=
  (length (Canvas.tagged "combo" (canvas w)) <= 1)%nat /\
  (length (Canvas.tagged "combo" (canvas w)) <= combo_timers w)%nat.

Lemma display_inv_labels (w : world R) : display_inv w -> labels_ok w.
Proof. by intros []. Qed.
Lemma display_inv_screens (w : world R) : display_inv w -> screens_ok w.
Proof. by intros []. Qed.
Lemma display_inv_combo (w : world R) : display_inv w -> combo_ok w.
Proof. by intros []. Qed.

Lemma step_result_display (i : nat) (w w' : world R) r :
  display_inv w -> step_result sin_deg i w r w' -> display_inv w'.
Proof.
  intros [Hs Hl Ht Hc Hst Ho] Hstep.
  inversion Hstep; subst; unfold combo_shown; cbn; try destruct (1 <? _); cbn;
    try (by constructor).
  - constructor; cbn; [done|done|by apply FritesDraw.show_combo_one_tag|..].
    + rewrite FritesDraw.show_combo_combo. lia.
    + by rewrite FritesDraw.show_combo_other.
    + by rewrite FritesDraw.show_combo_other.
  - pose proof (FritesDraw.show_game_over_adds (score w) (max_combo w)) as Ha.
    constructor; cbn; [done|done|by eapply Canvas.adds_one_tag|..].
    + by rewrite (Canvas.adds_tagged_other _ _ _ _ Ha) by set_solver.
    + by rewrite (Canvas.adds_tagged_other _ _ _ _ Ha) by set_solver.
    + split; [intros _; apply FritesDraw.show_game_over_nonempty|done].
Qed.

Lemma frites_pass_display (n i : nat) (tr : list nat) (w w' : world R) r :
  display_inv w -> frites_pass sin_deg i n tr w = (r, w') -> display_inv w'.
Proof.
  revert i tr w. induction n as [|n IH]; intros i tr w Hd; [by intros [= <- <-]|].
  rewrite frites_pass_S. unfold bind. destruct (frite_step sin_deg i w) as [res w1] eqn:Hstep.
  pose proof (step_result_display i w w1 res Hd (frite_step_spec sin_deg i w res w1 Hstep)) as Hd1.
  destruct res as [[[] rm]|e]; cbn; [by intros [= <- <-]|eauto|by intros [= <- <-]].
Qed.
(** The end of a running frame redraws the catcher and the fries
    (lines 453-457), unless the frame ended the game. *)
Lemma frame_tail_display (w1 w' : world R) r :
  frites_inv w1 -> game_started w1 = true -> game_over w1 = false -> display_inv w1 ->
  frame_tail sin_deg w1 = (r, w') -> display_inv w' /\ fries_shown w'.
Proof.
  intros Hi Hs Hgo Hd. unfold frame_tail. py_run.
  set (w2 := set_paquet (Paquet.update (paquet w1)) w1).
  pose proof (update_paquet_inv w1 Hi) as Hi2.
  assert (Hd2 : display_inv w2) by (destruct Hd; by constructor).
  destruct (frites_pass sin_deg 0 _ [] w2) as [res w3] eqn:Hp.
  pose proof (frites_pass_display _ 0 [] w2 w3 res Hd2 Hp) as [Hs3 Hl3 Ht3 Hc3 Hst3 Ho3].
  destruct (frites_pass_inv sin_deg _ 0 [] w2 w3 res ltac:(done) Hi2 Hgo Hs Hp)
    as (_ & _ & [[-> Ho]|(tr & -> & Ho)]); cbn; intros [= <- <-].
  - split; [by constructor|]. intros Ho'. congruence.
  - split; [|intros _; apply FritesDraw.redraw_frite].
    constructor; cbn; rewrite ?FritesDraw.redraw_other by (done || set_solver); try done.
    by apply FritesDraw.redraw_one_tag.
Qed.

Lemma game_loop_display (w w' : world R) r :
  frites_inv w -> display_inv w -> fries_shown w -> game_loop sin_deg w = (r, w') ->
  display_inv w' /\ fries_shown w'.
Proof.
  intros Hi Hd Hf Hl. destruct (negb (game_started w) || game_over w) eqn:Hg.
  { rewrite game_loop_idle in Hl by done. by injection Hl as <- <-. }
  assert (Hr := inv_rate _ Hi).
  destruct (frites_game_loop_running sin_deg w w' r Hg ltac:(lia) Hl) as (w2 & Hp & Ht).
  apply orb_false_iff in Hg as [Hs%negb_false_iff Hgo].
  pose proof (loop_prefix_inv w w2 Hi Hp) as Hi2.
  destruct Hp as [_ _ _ (_ & Hsc & Hlv & Hov & Hst & _) (Hcv & Hsl & Hll & Hct)].
  apply (frame_tail_display w2 w' r); [done|congruence|congruence| |done].
  destruct Hd; constructor; rewrite ?Hcv, ?Hsl, ?Hll, ?Hct, ?Hsc, ?Hlv, ?Hov, ?Hst; done.
Qed.

(** The window of a game that has not started: the background, the
    start screen and the labels (lines 90-104 and 146-149, 238-242). *)
Lemma fresh_display (w : world R) :
  canvas w = FritesDraw.show_start_screen (FritesDraw.draw_background []) ->
  score_label w = FritesDraw.score_text (score w) -> lives_label w = FritesDraw.lives_text (lives w) ->
  game_started w = false -> game_over w = false -> frites w = [] ->
  display_inv w /\ fries_shown w.
Proof.
  intros Hc Hs Hl Hst Ho Hf. unfold fries_shown. rewrite Hc, Hf, Ho.
  split; [|intros _; by rewrite FritesDraw.start_canvas_other by set_solver].
  constructor; rewrite ?Hc, ?Hst, ?Ho, ?(FritesDraw.start_canvas_other "combo"),
    ?(FritesDraw.start_canvas_other "gameover") by set_solver; try done;
    first [apply FritesDraw.start_canvas_one_tag|cbn; lia
          |split; [intros _; apply FritesDraw.show_start_screen_nonempty|done]].
Qed.

Lemma init_world_display (r : R) : display_inv (init_world r) /\ fries_shown (init_world r).
Proof. by apply fresh_display. Qed.

Local Arguments game_loop : simpl never.

(** Every callback keeps what the window shows in step with the game. *)
Lemma handle_display (e : event) (w w' : world R) r :
  frites_inv w -> display_inv w -> fries_shown w -> handle sin_deg e w = (r, w') ->
  display_inv w' /\ fries_shown w'.
Proof.
  intros Hi Hd Hf. destruct e; cbn [handle].
  - unfold on_mouse_move. py_run. destruct (_ && _); intros [= <- <-];
      (split; [destruct Hd; by constructor|exact Hf]).
  - unfold on_click, start_game, draw. py_run. destruct (game_started w) eqn:Hgs; cbn.
    { intros [= <- <-]. done. }
    pose proof (inv_idle _ Hi Hgs) as Hgo.
    apply game_loop_display; [by apply set_canvas_inv, set_started_inv| |].
    + destruct Hd as [? ? ? ? _ _]. constructor; cbn; try done.
      * by apply Canvas.delete_one_tag.
      * by rewrite Canvas.tagged_delete_one_tag by (done || set_solver).
      * rewrite Canvas.tagged_delete by set_solver. split; intros; congruence.
      * rewrite Canvas.tagged_delete, Hgo by set_solver. split; intros; congruence.
    + intros Ho. cbn. rewrite Canvas.tagged_delete_one_tag by (apply Hd || set_solver).
      by apply Hf.
  - unfold restart_game, update_score, update_lives, draw. py_run. intros [= <- <-].
    apply fresh_display; cbn; try done. by rewrite Canvas.delete_all.
  - unfold restart_game, update_score, update_lives, draw. py_run. intros [= <- <-].
    apply fresh_display; cbn; try done. by rewrite Canvas.delete_all.
  - unfold toggle_fullscreen. py_run. intros [= <- <-].
    split; [destruct Hd; by constructor|exact Hf].
  - unfold exit_fullscreen. py_run. destruct (is_fullscreen w); cbn; intros [= <- <-];
      (split; [destruct Hd; by constructor|exact Hf]).
  - unfold fire_timer. py_run. destruct (pending w); cbn; [by intros [= <- <-]|].
    apply game_loop_display; [by apply set_pending_inv|destruct Hd; by constructor|exact Hf].
  - unfold fire_combo_timer, draw. py_run. destruct (combo_timers w); cbn; [by intros [= <- <-]|].
    intros [= <- <-]. destruct Hd as [? ? ? ? ? ?]. split.
    + constructor; cbn;
        [done|done|by apply Canvas.delete_one_tag|rewrite Canvas.tagged_delete by set_solver; cbn; lia|..];
        by rewrite Canvas.tagged_delete_one_tag by (done || set_solver).
    + intros Ho. cbn. rewrite Canvas.tagged_delete_one_tag by (done || set_solver). by apply Hf.
Qed.

Lemma run_events_display (es : list event) (w : world R) :
  frites_inv w -> display_inv w -> fries_shown w ->
  display_inv (run_events sin_deg es w) /\ fries_shown (run_events sin_deg es w).
Proof.
  revert w. induction es as [|e es IH]; intros w Hi Hd Hf; cbn; [done|].
  destruct (handle sin_deg e w) as [r w1] eqn:Hh. cbn.
  destruct (handle_display e w w1 r Hi Hd Hf Hh).
  apply IH; [by destruct (frites_handle_inv sin_deg e w w1 r Hi Hh) as (_ & ? & _)|done|done].
Qed.

Lemma display_after_events (r : R) (es : list event) :
  display_inv (run_events sin_deg es (init_world r)) /\
  fries_shown (run_events sin_deg es (init_world r)).
Proof. destruct (init_world_display r). by apply run_events_display; [apply init_world_inv|..]. Qed.
End Display.

(** ** What the window shows, after any sequence of events *)

Section DisplayClaims.
Context {R : Type} `{RandInt R} `{RandUniform R}.
Variable sin_deg : Q -> Q.

(** C31: the labels are updated with every change of the score and of
    the lives (lines 437, 444 and 238-239 call [update_score] and
    [update_lives] after each assignment): in every state the program
    reaches, the score label reads ["Score: " ^ str(score)] and the lives
    label is [("❤️ " * lives).strip()]. *)
Theorem labels_show_state (r : R) (es : list event) :
  labels_ok (run_events sin_deg es (init_world r)).
Proof. apply display_inv_labels, (display_after_events sin_deg r es). Qed.

(** C32: the start screen (items tagged "start") is on the canvas
    exactly while the game is not started, and the game-over screen
    (items tagged "gameover") exactly when the game is over: [start_game]
    deletes both (line 224), [show_game_over] draws the second when the
    last life is lost, and [restart_game] clears the canvas and draws
    the first. *)
Theorem screens_follow_state (r : R) (es : list event) :
  screens_ok (run_events sin_deg es (init_world r)).
Proof. apply display_inv_screens, (display_after_events sin_deg r es). Qed.

(** C33: at most one combo text is on the canvas ([show_combo] deletes
    the previous one before drawing, line 394), and one is there only
    while a deletion timer of line 403 is pending. *)
Theorem combo_text_bound (r : R) (es : list event) :
  combo_ok (run_events sin_deg es (init_world r)).
Proof. apply display_inv_combo, (display_after_events sin_deg r es). Qed.

(** C34: while the game is not over, the fries on the canvas are exactly
    the fries of [self.frites], each drawn by [draw_frite] at its
    position, in the order of the list: every frame that does not end
    the game redraws them (lines 453-457) after the removals. *)
Theorem fries_on_canvas (r : R) (es : list event) :
  let w := run_events sin_deg es (init_world r) in
  game_over w = false -> fries_shown w.
Proof. intros w _. apply (display_after_events sin_deg r es). Qed.
End DisplayClaims.

(** ** Concrete runs *)

(** The last frame of the demo of [FritesGame] shows its six fries. *)
Lemma fries_on_canvas_witness :
  game_over (run_events sin_zero demo_events (init_world demo_seed)) = false /\
  fries_shown (run_events sin_zero demo_events (init_world demo_seed)).
Proof.
  split; [vm_compute; reflexivity|].
  apply (fries_on_canvas sin_zero demo_seed demo_events). vm_compute. reflexivity.
Defined.

End FritesView.
