(* ===== verification/FritesScore.v ===== *)
(** * The score of the catcher against its best combo

    A catch scores [10 + combo * 5] and raises the combo (lines 430-433 of
    src/frites_game.py), a miss resets the combo (line 441) and
    [restart_game] sets score, combo and best combo to 0 (lines 229-232).
    So the best combo [k] shown on the game-over screen (line 377) was
    reached by [k] consecutive catches from combo 0 in the current game,
    worth [streak_points k = 10 + 15 + ... + (10 + 5 (k-1))] points, and
    the final score (line 367) is at least that much.  [streak_ok] holds
    initially and is kept by each branch of the fry loop, by [game_loop]
    and by every callback; C40 reads it back after any sequence of
    events. *)

From stdpp Require Import base list decidable sets relations strings.
From Stdlib Require Import ZArith QArith Lia.
From S2P Require Import Prelude PyRandom Canvas Paquet Frite FritesDraw FritesGame.

Module FritesScore.
Import FritesGame.
Local Open Scope Z_scope.
Local Open Scope py_scope.

(** The points of [k] consecutive catches from combo 0: the [j]-th catch
    of the streak is made at combo [j] and scores [10 + j * 5]. *)
Fixpoint streak_points (k : nat) : Z :=
  match k with
  | O => 0
  | S j => streak_points j + (10 + Z.of_nat j * 5)
  end.

Lemma streak_points_closed (k : nat) :
  2 * streak_points k = 5 * Z.of_nat k * (Z.of_nat k + 3).
Proof. induction k as [|k IH]; cbn [streak_points]; [done|]. rewrite Nat2Z.inj_succ. nia. Qed.

(** One more catch at combo [c] adds [10 + c * 5]. *)
Lemma streak_points_succ (c : Z) :
  0 <= c -> streak_points (Z.to_nat (c + 1)) = streak_points (Z.to_nat c) + (10 + c * 5).
Proof.
  intros Hc. replace (Z.to_nat (c + 1)) with (S (Z.to_nat c)) by lia.
  cbn [streak_points]. by rewrite Z2Nat.id.
Qed.

Lemma streak_points_mono (a b : Z) :
  a <= b -> streak_points (Z.to_nat a) <= streak_points (Z.to_nat b).
Proof.
  intros Hab. pose proof (streak_points_closed (Z.to_nat a)).
  pose proof (streak_points_closed (Z.to_nat b)). nia.
Qed.

(** The current streak and the best one are both paid for by the score. *)
Definition streak_bound (c m s : Z) : Prop :=
  0 <= c /\ streak_points (Z.to_nat c) <= s /\ streak_points (Z.to_nat m) <= s.

Lemma streak_bound_catch (c m s : Z) :
  streak_bound c m s -> streak_bound (c + 1) (Z.max m (c + 1)) (s + (10 + c * 5)).
Proof.
  unfold streak_bound. intros (Hc & Hcs & Hms). rewrite streak_points_succ by done.
  split; [lia|split; [lia|]].
  destruct (Z.max_spec m (c + 1)) as [[_ ->]|[_ ->]];
    [rewrite streak_points_succ by done; lia|lia].
Qed.

Lemma streak_bound_zero : streak_bound 0 0 0.
Proof. repeat split; vm_compute; discriminate. Qed.

Lemma streak_bound_miss (c m s : Z) : streak_bound c m s -> streak_bound 0 m s.
Proof.
  unfold streak_bound. intros (Hc & Hcs & Hms).
  pose proof (streak_points_mono 0 c Hc). cbn in *. lia.
Qed.

Section Streak.
Context {R : Type} `{RandInt R} `{RandUniform R}.
Variable sin_deg : Q -> Q.

Local Arguments Frite.update : simpl never.
Local Arguments Frite.is_off_screen : simpl never.
Local Arguments frites_pass : simpl never.
Local Arguments Paquet.update : simpl never.

Definition streak_ok (w : world R) : Prop := streak_bound (combo w) (max_combo w) (score w).

Lemma step_result_streak (i : nat) (w w' : world R) r :
  streak_ok w -> step_result sin_deg i w r w' -> streak_ok w'.
Proof.
  unfold streak_ok. intros Hs Hstep.
  inversion Hstep; subst; unfold combo_shown; cbn; try destruct (1 <? _); cbn;
    first [exact Hs|exact (streak_bound_catch _ _ _ Hs)|exact (streak_bound_miss _ _ _ Hs)].
Qed.

Lemma frites_pass_streak (n i : nat) (tr : list nat) (w w' : world R) r :
  streak_ok w -> frites_pass sin_deg i n tr w = (r, w') -> streak_ok w'.
Proof.
  revert i tr w. induction n as [|n IH]; intros i tr w Hs; [by intros [= <- <-]|].
  rewrite frites_pass_S. unfold bind. destruct (frite_step sin_deg i w) as [res w1] eqn:Hstep.
  pose proof (step_result_streak i w w1 res Hs (frite_step_spec sin_deg i w res w1 Hstep)) as Hs1.
  destruct res as [[[] rm]|e]; cbn; [by intros [= <- <-]|eauto|by intros [= <- <-]].
Qed.

Lemma frame_tail_streak (w1 w' : world R) r :
  streak_ok w1 -> frame_tail sin_deg w1 = (r, w') -> streak_ok w'.
Proof.
  intros Hs. unfold frame_tail. py_run.
  destruct (frites_pass sin_deg 0 _ [] _) as [res w3] eqn:Hp.
  apply frites_pass_streak in Hp; [|exact Hs].
  destruct res as [[[]|]|]; cbn; by intros [= <- <-].
Qed.

Lemma game_loop_streak (w w' : world R) r :
  frites_inv w -> streak_ok w -> game_loop sin_deg w = (r, w') -> streak_ok w'.
Proof.
  intros Hi Hs Hl. destruct (negb (game_started w) || game_over w) eqn:Hg.
  { rewrite game_loop_idle in Hl by done. by injection Hl as <- <-. }
  assert (Hr := inv_rate _ Hi).
  destruct (frites_game_loop_running sin_deg w w' r Hg ltac:(lia) Hl) as (w2 & Hp & Ht).
  destruct Hp as [_ _ _ (_ & Hsc & _ & _ & _ & Hcb & Hmx & _) _].
  apply (frame_tail_streak w2 w' r); [|done].
  unfold streak_ok in *. by rewrite Hsc, Hcb, Hmx.
Qed.

Lemma streak_ok_init (r : R) : streak_ok (init_world r).
Proof. exact streak_bound_zero. Qed.

Local Arguments game_loop : simpl never.

Lemma handle_streak (e : event) (w w' : world R) r :
  frites_inv w -> streak_ok w -> handle sin_deg e w = (r, w') -> streak_ok w'.
Proof.
  intros Hi Hs. destruct e; cbn [handle].
  - unfold on_mouse_move. py_run. by destruct (_ && _); intros [= <- <-].
  - unfold on_click, start_game, draw. py_run. destruct (game_started w); cbn; [by intros [= <- <-]|].
    apply game_loop_streak; [by apply set_canvas_inv, set_started_inv|exact Hs].
  - unfold restart_game, update_score, update_lives, draw. py_run. intros [= <- <-].
    exact streak_bound_zero.
  - unfold restart_game, update_score, update_lives, draw. py_run. intros [= <- <-].
    exact streak_bound_zero.
  - unfold toggle_fullscreen. py_run. by intros [= <- <-].
  - unfold exit_fullscreen. py_run. by destruct (is_fullscreen w); cbn; intros [= <- <-].
  - unfold fire_timer. py_run. destruct (pending w); cbn; [by intros [= <- <-]|].
    apply game_loop_streak; [by apply set_pending_inv|exact Hs].
  - unfold fire_combo_timer, draw. py_run. by destruct (combo_timers w); cbn; intros [= <- <-].
Qed.

Lemma run_events_streak (es : list event) (w : world R) :
  frites_inv w -> streak_ok w -> streak_ok (run_events sin_deg es w).
Proof.
  revert w. induction es as [|e es IH]; intros w Hi Hs; cbn; [done|].
  destruct (handle sin_deg e w) as [r w1] eqn:Hh. cbn.
  apply IH; [by destruct (frites_handle_inv sin_deg e w w1 r Hi Hh) as (_ & ? & _)|].
  exact (handle_streak e w w1 r Hi Hs Hh).
Qed.

(** C40: in every state the program reaches, the score is at least the
    points of a streak as long as the best combo: [k] consecutive catches
    from combo 0 score [10 + 15 + ... + (10 + 5 (k-1)) = 5k(k+3)/2]
    (lines 430-433), and the combo is reset on a miss and on restart. *)
Theorem score_covers_best_streak (r : R) (es : list event) :
  let w := run_events sin_deg es (init_world r) in
  streak_points (Z.to_nat (max_combo w)) <= score w.
Proof.
  apply (run_events_streak es (init_world r) (init_world_inv r) (streak_ok_init r)).
Qed.
End Streak.

(** ** Concrete run *)

(** The demo of [FritesGame] catches its six fries in a row: the best
    combo is 6 and the score, 135, is exactly the points of that streak,
    so the bound is reached. *)
Lemma score_covers_best_streak_witness :
  max_combo demo_world = 6 /\ score demo_world = 135 /\
  streak_points (Z.to_nat (max_combo demo_world)) <= score demo_world.
Proof.
  split; [vm_compute; reflexivity|split; [vm_compute; reflexivity|]].
  unfold demo_world. exact (score_covers_best_streak sin_zero demo_seed demo_events).
Defined.

End FritesScore.
